(** * Chrome VM hosting worker: record store, lifecycle, routing and proxy

    A shallow embedding of the Cloudflare worker of this repository.  The
    repository carries three revisions of the same worker:

    - [src/src/index.ts]     (module [IndexTs]),
    - [src/unnamed/part_000] (module [Part000], same handlers, reordered routes),
    - [src/unnamed/part_001] (module [Part001], D1-backed store, two backends),

    and a stand-alone [createGoogleCloudVM_fixed.js] (module [FixedJs]).

    JavaScript objects are modelled by an explicit heap of VM records and the
    global [activeVMs] map by a finite map from keys to heap references, so
    that two keys holding the same object really alias.  Handlers are written
    in a small state-and-exception monad; the outside world (clock, id
    generator, upstream HTTP endpoints, D1 failures) is a record of oracles. *)

From Stdlib Require Import String Ascii List Bool Arith Lia.
From stdpp Require Import base option list gmap strings pretty.

Import ListNotations.

Set Default Proof Using "Type".

(** ** JavaScript string primitives used by the worker *)

Module Js.

(** [s.startsWith(p)] *)
Definition startsWith (p s : string) : bool := String.prefix p s.

(** [s.includes(n)] *)
Fixpoint includes (n s : string) : bool :=
  String.prefix n s ||
  match s with
  | EmptyString => false
  | String _ s' => includes n s'
  end.

(** [s.endsWith(suf)] *)
Fixpoint endsWith (suf s : string) : bool :=
  if String.eqb suf s then true
  else match s with
       | EmptyString => false
       | String _ s' => endsWith suf s'
       end.

(** [s.replace(/\/$/, '')]: drop one trailing slash, if any.  Without the
    [m] flag the anchor only matches at the very end of the input. *)
Fixpoint stripTrailingSlash (s : string) : string :=
  match s with
  | EmptyString => EmptyString
  | String c s' =>
      match s' with
      | EmptyString => if Ascii.eqb c "/"%char then EmptyString else s
      | String _ _ => String c (stripTrailingSlash s')
      end
  end.

(** [s.split('/')] *)
Fixpoint split_slash (s : string) : list string :=
  match s with
  | EmptyString => [EmptyString]
  | String c s' =>
      if Ascii.eqb c "/"%char then EmptyString :: split_slash s'
      else match split_slash s' with
           | [] => [String c EmptyString]
           | seg :: segs => String c seg :: segs
           end
  end.

(** [parts.join('/')] *)
Fixpoint join_slash (parts : list string) : string :=
  match parts with
  | [] => EmptyString
  | [p] => p
  | p :: ps => p +:+ "/" +:+ join_slash ps
  end.

(** Truthiness of an optional string property: [undefined], [null] and the
    empty string are falsy. *)
Definition truthy (o : option string) : bool :=
  match o with
  | Some s => negb (String.eqb s "")
  | None => false
  end.

(** [a || b] on optional strings. *)
Definition or_else (a b : option string) : option string :=
  if truthy a then a else b.

(** The character class [[A-Za-z0-9_-]]. *)
Definition is_id_char (c : ascii) : bool :=
  let n := nat_of_ascii c in
  ((65 <=? n) && (n <=? 90)) || ((97 <=? n) && (n <=? 122)) ||
  ((48 <=? n) && (n <=? 57)) || (n =? 95) || (n =? 45).

(** Longest prefix of [s] made of id characters, and what follows it. *)
Fixpoint span_id (s : string) : string * string :=
  match s with
  | EmptyString => (EmptyString, EmptyString)
  | String c s' =>
      if is_id_char c then
        let '(a, b) := span_id s' in (String c a, b)
      else (EmptyString, s)
  end.

(** What is left of [s] after the prefix [p]; only used under
    [startsWith p s]. *)
Fixpoint drop (n : nat) (s : string) : string :=
  match n, s with
  | O, _ => s
  | S n', String _ s' => drop n' s'
  | S _, EmptyString => EmptyString
  end.

(** [/^\/vms\/[A-Za-z0-9_-]+<tail>$/.test(path)] where [<tail>] is one of
    the alternatives in [tails], each starting with a slash.  Since the
    class excludes the slash, the id is the whole run of class characters
    after [/vms/]. *)
Definition match_vms (tails : list string) (path : string) : bool :=
  startsWith "/vms/" path &&
  let '(ident, rest) := span_id (drop 5 path) in
  negb (String.eqb ident "") && existsb (String.eqb rest) tails.

End Js.

(** ** The VM record ([interface VM])

    Optional properties are [option]s ([None] is [undefined]).  [metadata] and
    [network] are never written by the worker; they are kept for the D1 row
    conversion.  The status union of [part_001] has one more member,
    ['running'], than that of [index.ts]. *)

Inductive Status := Initializing | Ready | Running | Stopped | Error.

Global Instance Status_eq_dec : EqDecision Status.
Proof. solve_decision. Defined.

Definition status_string (s : Status) : string :=
  match s with
  | Initializing => "initializing"
  | Ready => "ready"
  | Running => "running"
  | Stopped => "stopped"
  | Error => "error"
  end.

Record VM := mkVM {
  vm_id : string;
  vm_name : string;
  vm_status : Status;
  containerId : option string;
  novncUrl : option string;
  agentUrl : option string;
  originAgentUrl : option string;
  originNoVncUrl : option string;
  publicIp : option string;
  chromeVersion : option string;
  nodeVersion : option string;
  createdAt : string;
  lastActivity : option string;
  metadata : option string;
  instanceType : option string;
  memory : option string;
  cpu : option string;
  storage : option string;
  network : option (nat * string);
  serverId : option string;
  serverName : option string;
  region : option string;
  createdVia : option string;
  vm_error : option string
}.

(** Property assignments [vm.f = x]. *)

Definition set_status (x : Status) (v : VM) : VM :=
  mkVM (vm_id v) (vm_name v) x (containerId v) (novncUrl v) (agentUrl v)
    (originAgentUrl v) (originNoVncUrl v) (publicIp v) (chromeVersion v)
    (nodeVersion v) (createdAt v) (lastActivity v) (metadata v)
    (instanceType v) (memory v) (cpu v) (storage v) (network v) (serverId v)
    (serverName v) (region v) (createdVia v) (vm_error v).

Definition set_containerId (x : option string) (v : VM) : VM :=
  mkVM (vm_id v) (vm_name v) (vm_status v) x (novncUrl v) (agentUrl v)
    (originAgentUrl v) (originNoVncUrl v) (publicIp v) (chromeVersion v)
    (nodeVersion v) (createdAt v) (lastActivity v) (metadata v)
    (instanceType v) (memory v) (cpu v) (storage v) (network v) (serverId v)
    (serverName v) (region v) (createdVia v) (vm_error v).

Definition set_novncUrl (x : option string) (v : VM) : VM :=
  mkVM (vm_id v) (vm_name v) (vm_status v) (containerId v) x (agentUrl v)
    (originAgentUrl v) (originNoVncUrl v) (publicIp v) (chromeVersion v)
    (nodeVersion v) (createdAt v) (lastActivity v) (metadata v)
    (instanceType v) (memory v) (cpu v) (storage v) (network v) (serverId v)
    (serverName v) (region v) (createdVia v) (vm_error v).

Definition set_agentUrl (x : option string) (v : VM) : VM :=
  mkVM (vm_id v) (vm_name v) (vm_status v) (containerId v) (novncUrl v) x
    (originAgentUrl v) (originNoVncUrl v) (publicIp v) (chromeVersion v)
    (nodeVersion v) (createdAt v) (lastActivity v) (metadata v)
    (instanceType v) (memory v) (cpu v) (storage v) (network v) (serverId v)
    (serverName v) (region v) (createdVia v) (vm_error v).

Definition set_originAgentUrl (x : option string) (v : VM) : VM :=
  mkVM (vm_id v) (vm_name v) (vm_status v) (containerId v) (novncUrl v)
    (agentUrl v) x (originNoVncUrl v) (publicIp v) (chromeVersion v)
    (nodeVersion v) (createdAt v) (lastActivity v) (metadata v)
    (instanceType v) (memory v) (cpu v) (storage v) (network v) (serverId v)
    (serverName v) (region v) (createdVia v) (vm_error v).

Definition set_originNoVncUrl (x : option string) (v : VM) : VM :=
  mkVM (vm_id v) (vm_name v) (vm_status v) (containerId v) (novncUrl v)
    (agentUrl v) (originAgentUrl v) x (publicIp v) (chromeVersion v)
    (nodeVersion v) (createdAt v) (lastActivity v) (metadata v)
    (instanceType v) (memory v) (cpu v) (storage v) (network v) (serverId v)
    (serverName v) (region v) (createdVia v) (vm_error v).

Definition set_publicIp (x : option string) (v : VM) : VM :=
  mkVM (vm_id v) (vm_name v) (vm_status v) (containerId v) (novncUrl v)
    (agentUrl v) (originAgentUrl v) (originNoVncUrl v) x (chromeVersion v)
    (nodeVersion v) (createdAt v) (lastActivity v) (metadata v)
    (instanceType v) (memory v) (cpu v) (storage v) (network v) (serverId v)
    (serverName v) (region v) (createdVia v) (vm_error v).

Definition set_chromeVersion (x : option string) (v : VM) : VM :=
  mkVM (vm_id v) (vm_name v) (vm_status v) (containerId v) (novncUrl v)
    (agentUrl v) (originAgentUrl v) (originNoVncUrl v) (publicIp v) x
    (nodeVersion v) (createdAt v) (lastActivity v) (metadata v)
    (instanceType v) (memory v) (cpu v) (storage v) (network v) (serverId v)
    (serverName v) (region v) (createdVia v) (vm_error v).

Definition set_nodeVersion (x : option string) (v : VM) : VM :=
  mkVM (vm_id v) (vm_name v) (vm_status v) (containerId v) (novncUrl v)
    (agentUrl v) (originAgentUrl v) (originNoVncUrl v) (publicIp v)
    (chromeVersion v) x (createdAt v) (lastActivity v) (metadata v)
    (instanceType v) (memory v) (cpu v) (storage v) (network v) (serverId v)
    (serverName v) (region v) (createdVia v) (vm_error v).

Definition set_lastActivity (x : option string) (v : VM) : VM :=
  mkVM (vm_id v) (vm_name v) (vm_status v) (containerId v) (novncUrl v)
    (agentUrl v) (originAgentUrl v) (originNoVncUrl v) (publicIp v)
    (chromeVersion v) (nodeVersion v) (createdAt v) x (metadata v)
    (instanceType v) (memory v) (cpu v) (storage v) (network v) (serverId v)
    (serverName v) (region v) (createdVia v) (vm_error v).

Definition set_memory (x : option string) (v : VM) : VM :=
  mkVM (vm_id v) (vm_name v) (vm_status v) (containerId v) (novncUrl v)
    (agentUrl v) (originAgentUrl v) (originNoVncUrl v) (publicIp v)
    (chromeVersion v) (nodeVersion v) (createdAt v) (lastActivity v)
    (metadata v) (instanceType v) x (cpu v) (storage v) (network v)
    (serverId v) (serverName v) (region v) (createdVia v) (vm_error v).

Definition set_cpu (x : option string) (v : VM) : VM :=
  mkVM (vm_id v) (vm_name v) (vm_status v) (containerId v) (novncUrl v)
    (agentUrl v) (originAgentUrl v) (originNoVncUrl v) (publicIp v)
    (chromeVersion v) (nodeVersion v) (createdAt v) (lastActivity v)
    (metadata v) (instanceType v) (memory v) x (storage v) (network v)
    (serverId v) (serverName v) (region v) (createdVia v) (vm_error v).

Definition set_storage (x : option string) (v : VM) : VM :=
  mkVM (vm_id v) (vm_name v) (vm_status v) (containerId v) (novncUrl v)
    (agentUrl v) (originAgentUrl v) (originNoVncUrl v) (publicIp v)
    (chromeVersion v) (nodeVersion v) (createdAt v) (lastActivity v)
    (metadata v) (instanceType v) (memory v) (cpu v) x (network v)
    (serverId v) (serverName v) (region v) (createdVia v) (vm_error v).

Definition set_createdVia (x : option string) (v : VM) : VM :=
  mkVM (vm_id v) (vm_name v) (vm_status v) (containerId v) (novncUrl v)
    (agentUrl v) (originAgentUrl v) (originNoVncUrl v) (publicIp v)
    (chromeVersion v) (nodeVersion v) (createdAt v) (lastActivity v)
    (metadata v) (instanceType v) (memory v) (cpu v) (storage v) (network v)
    (serverId v) (serverName v) (region v) x (vm_error v).

Definition set_error (x : option string) (v : VM) : VM :=
  mkVM (vm_id v) (vm_name v) (vm_status v) (containerId v) (novncUrl v)
    (agentUrl v) (originAgentUrl v) (originNoVncUrl v) (publicIp v)
    (chromeVersion v) (nodeVersion v) (createdAt v) (lastActivity v)
    (metadata v) (instanceType v) (memory v) (cpu v) (storage v) (network v)
    (serverId v) (serverName v) (region v) (createdVia v) x.

(** ** Exceptions, upstream HTTP and the worker's global state *)

(** A thrown value: an [Error] object with its message, or anything else. *)
Inductive thrown := JsError (message : string) | JsValue.

(** [error instanceof Error ? error.message : 'Unknown error'] *)
Definition error_message (e : thrown) : string :=
  match e with
  | JsError m => m
  | JsValue => "Unknown error"
  end.

Inductive outcome (A : Type) := Ok (a : A) | Throw (e : thrown).
Arguments Ok {A} a.
Arguments Throw {A} e.

(** Request bodies the worker sends upstream. *)
Inductive Payload :=
| PNone
| PText (text : string)
| PRailwayCreate (name : string) (server_id : option string)
| PDockerCreate (name image VM_ID VM_NAME memory cpu : string).

(** One outgoing [fetch(url, init)]. *)
Record Call := mkCall {
  c_url : string;
  c_method : string;
  c_authorization : option string;
  c_body : Payload
}.

(** A parsed JSON object with string members. *)
Abbreviation JsonObj := (gmap string string).

(** What an upstream endpoint answers. *)
Record Upstream := mkUpstream {
  up_status : nat;
  up_contentType : option string;
  up_text : string;
  up_json : outcome JsonObj
}.

(** [resp.ok] *)
Definition up_ok (r : Upstream) : bool :=
  (200 <=? up_status r) && (up_status r <=? 299).

Inductive FetchOutcome := Rejects (e : thrown) | Responds (r : Upstream).

(** Bindings of the worker ([interface Env]); [chrome_vm_db] tells whether
    the D1 binding is present. *)
Record Env := mkEnv {
  chrome_vm_db : bool;
  DOCKER_API_KEY : option string;
  DOCKER_SERVICE_URL : option string;
  GOOGLE_CLOUD_PROJECT_ID : option string;
  GOOGLE_CLOUD_ACCESS_TOKEN : option string;
  RAILWAY_VM_SERVER_URL : option string
}.

(** Everything a request observes from outside the worker: the clock
    ([new Date().toISOString()]; one reading per request, the later readings
    of a stop being given apart in [Part001Lifecycle]), the id generator
    ([generateVMId()], built on [Math.random] and [Date.now]), the network,
    and whether a D1 statement on the table [vms] throws. *)
Record Outside := mkOutside {
  now : string;
  generateVMId : string;
  net : Call -> FetchOutcome;
  d1_first_throws : option thrown;
  d1_run_throws : option thrown
}.

(** The worker's state between two steps: the object heap with its
    allocation pointer, the module-level [activeVMs] map (keys to object
    references), the D1 table [vms], and the log of upstream calls issued so
    far (oldest first).

    The table [vms] is held in two parts.  [d1] holds, by id, the rows whose
    [metadata] and [network] columns are [null] or JSON text, each as the
    record it reads back as.  [garbled] holds the ids of the other rows,
    those with a [metadata] or [network] column that [JSON.parse] rejects;
    nothing else of such a row is ever observed, since reading it back fails
    at the parse.  The worker's own writes keep the two parts disjoint; an
    id in both is read as the row in [d1]. *)
Record World := mkWorld {
  heap : nat -> VM;
  next : nat;
  activeVMs : gmap string nat;
  d1 : gmap string VM;
  calls : list Call;
  garbled : gset string
}.

Definition M (A : Type) : Type := World -> outcome A * World.

Definition ret {A} (a : A) : M A := fun w => (Ok a, w).

Definition bind {A B} (m : M A) (k : A -> M B) : M B :=
  fun w => match m w with
           | (Ok a, w') => k a w'
           | (Throw e, w') => (Throw e, w')
           end.

Definition throw {A} (e : thrown) : M A := fun w => (Throw e, w).

(** [try { body } catch (error) { handler }] *)
Definition try_catch {A} (body : M A) (handler : thrown -> M A) : M A :=
  fun w => match body w with
           | (Ok a, w') => (Ok a, w')
           | (Throw e, w') => handler e w'
           end.

Declare Scope worker_scope.
Delimit Scope worker_scope with worker.
Notation "x <- m ;; k" := (bind m (fun x => k))
  (at level 100, m at next level, right associativity) : worker_scope.
Notation "m ;; k" := (bind m (fun _ => k))
  (at level 100, right associativity) : worker_scope.
Local Open Scope worker_scope.

(** [{ ... }] object literal: a new object on the heap. *)
Definition new_object (v : VM) : M nat :=
  fun w => (Ok (next w),
            mkWorld (fun r => if Nat.eqb r (next w) then v else heap w r)
                    (S (next w)) (activeVMs w) (d1 w) (calls w) (garbled w)).

(** Reading the object behind a reference. *)
Definition load (r : nat) : M VM := fun w => (Ok (heap w r), w).

(** [vm.f = x] for the setter [f]. *)
Definition assign (r : nat) (f : VM -> VM) : M unit :=
  fun w => (Ok tt,
            mkWorld (fun r' => if Nat.eqb r' r then f (heap w r) else heap w r')
                    (next w) (activeVMs w) (d1 w) (calls w) (garbled w)).

(** [activeVMs.get(k)], [activeVMs.set(k, vm)], [activeVMs.delete(k)] *)
Definition map_get (k : string) : M (option nat) :=
  fun w => (Ok (activeVMs w !! k), w).

Definition map_set (k : string) (r : nat) : M unit :=
  fun w => (Ok tt, mkWorld (heap w) (next w) (<[k := r]> (activeVMs w))
                           (d1 w) (calls w) (garbled w)).

Definition map_delete (k : string) : M unit :=
  fun w => (Ok tt, mkWorld (heap w) (next w) (delete k (activeVMs w))
                           (d1 w) (calls w) (garbled w)).

(** [await fetch(url, init)]: the call is logged, then the network decides. *)
Definition fetch_to (out : Outside) (c : Call) : M Upstream :=
  fun w =>
    let w' := mkWorld (heap w) (next w) (activeVMs w) (d1 w) (calls w ++ [c])
                      (garbled w) in
    match net out c with
    | Rejects e => (Throw e, w')
    | Responds r => (Ok r, w')
    end.

(** [await resp.json()] *)
Definition json_of (r : Upstream) : M JsonObj :=
  match up_json r with
  | Ok o => ret o
  | Throw e => throw e
  end.

(** ** HTTP requests and responses of the worker *)

(** The JSON body of [POST /vms]. *)
Record CreateBody := mkCreateBody {
  b_name : option string;
  b_server_id : option string;
  b_instanceType : option string;
  b_vmId : option string
}.

Record Request := mkRequest {
  req_method : string;
  req_pathname : string;
  req_json : outcome CreateBody;
  req_text : string
}.

(** Response bodies, by shape.  [BHtml v] is the NoVNC page rendered from
    the record [v]; [BRecord v] is [JSON.stringify(vm)]. *)
Inductive Body :=
| BNone
| BError (error : string)
| BFailure (error message : string)
| BHealth (timestamp : string)
| BList (vms : list VM)
| BCreated (message vmId status estimatedTime : string)
| BRecord (v : VM)
| BDeleted (message vmId : string)
| BSuccess (success : bool) (message : string)
| BHtml (v : VM)
| BAgent (vmId : string) (status : string) (v : VM)
| BProxied (text : string)
| BServices.

Record Response := mkResponse {
  status : nat;
  contentType : option string;
  body : Body
}.

Definition json_response (st : nat) (b : Body) : Response :=
  mkResponse st (Some "application/json") b.

(** The secondary key under which every record is also filed. *)
Definition alias_key (vmId : string) : string := "working-vm-" +:+ vmId.

(** What a provisioning backend returns. *)
Record Descriptor := mkDescriptor {
  r_containerId : option string;
  r_novncUrl : option string;
  r_agentUrl : option string;
  r_originNoVncUrl : option string;
  r_originAgentUrl : option string;
  r_publicIp : option string;
  r_chromeVersion : option string;
  r_nodeVersion : option string;
  r_memory : option string;
  r_cpu : option string;
  r_storage : option string;
  r_isRealVM : option bool
}.

Definition worker_base : string := "https://chrome-vm-workers.mgmt-5e1.workers.dev".
Definition public_novnc (vmId : string) : string :=
  worker_base +:+ "/vms/" +:+ vmId +:+ "/novnc".
Definition public_agent (vmId : string) : string :=
  worker_base +:+ "/vms/" +:+ vmId +:+ "/agent".

(** The members an object literal inherits from [Object.prototype]: reading
    one of these keys of a literal that does not define it yields a function
    (or, for [__proto__], the prototype object), which is truthy, is not a
    string and has no [push]. *)
Definition object_prototype_members : list string :=
  ["constructor"; "__defineGetter__"; "__defineSetter__"; "hasOwnProperty";
   "__lookupGetter__"; "__lookupSetter__"; "isPrototypeOf";
   "propertyIsEnumerable"; "toString"; "valueOf"; "__proto__";
   "toLocaleString"].

Definition inherited (key : string) : bool :=
  bool_decide (key ∈ object_prototype_members).

(** [getServerName]: [serverMap[serverId] || 'Unknown Server'] on the
    four-entry literal [serverMap].  An absent [server_id] reads the key
    ["undefined"].  For a key that names an inherited member the lookup
    yields that member, which is truthy and not a string: the result is
    [None], a [serverName] that [JSON.stringify] leaves out. *)
Definition getServerName (serverId : option string) : option string :=
  match serverId with
  | Some "default-cloud-server" => Some "Cloudflare Workers"
  | Some "default-cloudflare-server" => Some "Cloudflare Workers"
  | Some "default-google-cloud-server" => Some "Google Cloud Platform"
  | Some "default-railway-server" => Some "Railway"
  | Some key => if inherited key then None else Some "Unknown Server"
  | None => Some "Unknown Server"
  end.

(** [await outcome]: an already settled promise. *)
Definition settle {A} (o : outcome A) : M A :=
  match o with
  | Ok a => ret a
  | Throw e => throw e
  end.

(** The literal [{ id, name, status: 'initializing', createdAt, instanceType,
    serverId, serverName, region: 'global', createdVia: 'cloudflare-workers' }]
    built by [handleCreateVM]. *)
Definition initial_record (vmId name created : string)
    (instType server_id : option string) : VM :=
  mkVM vmId name Initializing None None None None None None None None created
       None None instType None None None None server_id
       (getServerName server_id) (Some "global")
       (Some "cloudflare-workers") None.

(** The placeholder record [getVMFromStorage] makes up for an unknown id. *)
Definition mockVM (vmId created : string) : VM :=
  mkVM vmId ("Mock VM " +:+ vmId) Ready
       (Some ("mock-container-" +:+ vmId))
       (Some (public_novnc vmId)) (Some (public_agent vmId))
       None None (Some "cloudflare-edge-ip") (Some "120.0.0.0")
       (Some "18.19.0") created (Some created) None (Some "t3.medium")
       (Some "512MB") (Some "0.5 vCPU") (Some "1GB") None
       (Some "default-cloud-server") (Some "Cloudflare Workers")
       (Some "global") (Some "cloudflare-workers") None.

(** The assignments of [createRealVM] after a backend returned [result]. *)
Definition apply_descriptor (vm : nat) (result : Descriptor) (stamp : string)
    : M unit :=
  assign vm (set_status Ready) ;;
  assign vm (set_containerId (r_containerId result)) ;;
  assign vm (set_novncUrl (r_novncUrl result)) ;;
  assign vm (set_agentUrl (r_agentUrl result)) ;;
  assign vm (set_originAgentUrl
               (Js.or_else (r_originAgentUrl result) (r_agentUrl result))) ;;
  assign vm (set_originNoVncUrl
               (Js.or_else (r_originNoVncUrl result) (r_novncUrl result))) ;;
  assign vm (set_publicIp (r_publicIp result)) ;;
  assign vm (set_chromeVersion (r_chromeVersion result)) ;;
  assign vm (set_nodeVersion (r_nodeVersion result)) ;;
  assign vm (set_lastActivity (Some stamp)) ;;
  assign vm (set_memory (r_memory result)) ;;
  assign vm (set_cpu (r_cpu result)) ;;
  assign vm (set_storage (r_storage result)).

(** The handlers the dispatcher can select, with the path parameters it
    extracts for them. *)
Inductive Route :=
| ToOptions
| ToHealth
| ToGetVMs
| ToCreateVM
| ToGetVM (vmId : string)
| ToDeleteVM (vmId : string)
| ToStartVM (vmId : string)
| ToRestartVM (vmId : string)
| ToStopVM (vmId : string)
| ToGetVMStatus (vmId : string)
| ToNoVNC (vmId : string)
| ToAgent (vmId : string)
| ToAgentProxy (vmId action : string)
| ToExecuteScript (vmId : string)
| ToGetScripts (vmId : string)
| ToGetMetrics (vmId : string)
| ToRecordMetrics (vmId : string)
| ToGetEvents (vmId : string)
| ToServices
| ToNotFound.

(** [url.pathname.split('/')[2]]; under the [startsWith('/vms/')] and regex
    guards of the dispatcher the third segment always exists. *)
Definition segment2 (pathname : string) : string :=
  List.nth 2 (Js.split_slash pathname) "".

(** [parts.slice(4).join('/')] *)
Definition action_of (pathname : string) : string :=
  Js.join_slash (skipn 4 (Js.split_slash pathname)).

Definition agent_tails : list string :=
  ["/agent/browser/navigate"; "/agent/restart"; "/agent/status";
   "/agent/execute"; "/agent/screenshot"].

(** The [switch (action)] of [handleAgentProxy]: the upstream path of each
    supported action, [None] for the [default] branch. *)
Definition upstreamPath (action : string) : option string :=
  if String.eqb action "browser/navigate" then Some "/browser/navigate"
  else if String.eqb action "restart" then Some "/browser/restart"
  else if String.eqb action "status" then Some "/health"
  else if String.eqb action "execute" then Some "/run"
  else if String.eqb action "screenshot" then Some "/run"
  else None.

(** ** [src/src/index.ts] *)

Module IndexTs.
Section Worker.
Variable env : Env.
Variable out : Outside.

Definition storeVM (vm : nat) : M unit :=
  v <- load vm ;;
  map_set (vm_id v) vm ;;
  map_set (alias_key (vm_id v)) vm.

Definition getVMFromStorage (vmId : string) : M (option nat) :=
  vm <- map_get vmId ;;
  match vm with
  | Some r => ret (Some r)
  | None =>
      vm <- map_get (alias_key vmId) ;;
      match vm with
      | Some r => ret (Some r)
      | None =>
          mock <- new_object (mockVM vmId (now out)) ;;
          storeVM mock ;;
          ret (Some mock)
      end
  end.

(** [activeVMs.get(vmId) || activeVMs.get(`working-vm-${vmId}`)] *)
Definition lookup_either (vmId : string) : M (option nat) :=
  vm <- map_get vmId ;;
  match vm with
  | Some r => ret (Some r)
  | None => map_get (alias_key vmId)
  end.

Definition selectDeploymentStrategy (instType : string) : string :=
  if Js.includes "e2-" instType then "google_cloud"
  else if Js.includes "t3." instType then "railway"
  else "cloudflare".

Definition createCloudflareVM (vm : nat) : M Descriptor :=
  v <- load vm ;;
  ret (mkDescriptor (Some ("cf-container-" +:+ vm_id v))
         (Some (public_novnc (vm_id v))) (Some (public_agent (vm_id v)))
         None None (Some "cloudflare-edge-ip") (Some "120.0.0.0")
         (Some "18.19.0") (Some "512MB") (Some "0.5 vCPU") (Some "1GB") None).

Definition createGoogleCloudVM (vm : nat) : M Descriptor :=
  v <- load vm ;;
  ret (mkDescriptor (Some ("gcp-vm-" +:+ vm_id v))
         (Some (public_novnc (vm_id v))) (Some (public_agent (vm_id v)))
         None None (Some "google-cloud-ip") (Some "120.0.0.0")
         (Some "18.19.0") (Some "2GB") (Some "1 vCPU") (Some "10GB") None).

(** The request [createRailwayVM] sends to the Railway VM server. *)
Definition railway_call (v : VM) : Call :=
  mkCall (Js.stripTrailingSlash (default "" (RAILWAY_VM_SERVER_URL env))
          +:+ "/api/vms")
         "POST" None (PRailwayCreate (vm_name v) (serverId v)).

(** The object [createRailwayVM] returns when the server answered [data]. *)
Definition railway_descriptor (v : VM) (data : JsonObj) : Descriptor :=
  mkDescriptor
    (Js.or_else (data !! "id") (Some ("railway-vm-" +:+ vm_id v)))
    (Some (public_novnc (vm_id v))) (Some (public_agent (vm_id v)))
    (data !! "novnc_url") (data !! "agent_url")
    (Js.or_else (data !! "public_ip") (Some "railway-ip"))
    (Js.or_else (data !! "chrome_version") (Some "120.0.0.0"))
    (Js.or_else (data !! "node_version") (Some "18.19.0"))
    (Some "1GB") (Some "0.5 vCPU") (Some "5GB") None.

Definition createRailwayVM (vm : nat) : M Descriptor :=
  v <- load vm ;;
  let base := RAILWAY_VM_SERVER_URL env in
  if Js.truthy base then
    resp <- fetch_to out (railway_call v) ;;
    if negb (up_ok resp) then
      throw (JsError ("Railway VM server create failed: "
                      +:+ pretty (up_status resp) +:+ " " +:+ up_text resp))
    else
      data <- json_of resp ;;
      ret (railway_descriptor v data)
  else
    ret (mkDescriptor (Some ("railway-vm-" +:+ vm_id v))
           (Some (public_novnc (vm_id v))) (Some (public_agent (vm_id v)))
           None None (Some "railway-ip") (Some "120.0.0.0")
           (Some "18.19.0") (Some "1GB") (Some "0.5 vCPU") (Some "5GB") None).

(** The [switch (deploymentStrategy)] of [createRealVM]. *)
Definition backend_for (deploymentStrategy : string) (vm : nat)
    : M Descriptor :=
  if String.eqb deploymentStrategy "cloudflare" then createCloudflareVM vm
  else if String.eqb deploymentStrategy "google_cloud" then createGoogleCloudVM vm
  else if String.eqb deploymentStrategy "railway" then createRailwayVM vm
  else createCloudflareVM vm.

Definition createRealVM (vm : nat) : M unit :=
  try_catch
    (v <- load vm ;;
     let deploymentStrategy :=
       selectDeploymentStrategy
         (default "" (Js.or_else (instanceType v) (Some "t3.medium"))) in
     result <- backend_for deploymentStrategy vm ;;
     apply_descriptor vm result (now out) ;;
     storeVM vm)
    (fun error =>
       assign vm (set_status Error) ;;
       assign vm (set_error (Some (error_message error))) ;;
       storeVM vm).

Definition handleCreateVM (request : Request) : M Response :=
  try_catch
    (body <- settle (req_json request) ;;
     let name := b_name body in
     let server_id := b_server_id body in
     let instType :=
       match b_instanceType body with
       | None => Some "t3.medium"
       | Some t => Some t
       end in
     if negb (Js.truthy name) then
       ret (json_response 400 (BError "VM name is required"))
     else
       let vmId := generateVMId out in
       vm <- new_object
               (initial_record vmId (default "" name) (now out)
                               instType server_id) ;;
       createRealVM vm ;;
       storeVM vm ;;
       v <- load vm ;;
       ret (json_response 201
              (BCreated "VM creation started" (vm_id v)
                        (status_string (vm_status v)) "2-5 minutes")))
    (fun error =>
       ret (json_response 500
              (BFailure "Failed to create VM" (error_message error)))).

(** [Array.from(activeVMs.values())]: the records behind all keys, one per
    key.  A JavaScript [Map] lists them in insertion order, which the finite
    map does not keep: the array of the answer is modelled up to the order
    of its elements, and nothing below depends on that order. *)
Definition handleGetVMs : M Response :=
  fun w =>
    (Ok (json_response 200
           (BList (List.map (fun kr => heap w (snd kr))
                            (map_to_list (activeVMs w))))), w).

Definition handleGetVM (vmId : string) : M Response :=
  vm <- getVMFromStorage vmId ;;
  match vm with
  | None => ret (json_response 404 (BError "VM not found"))
  | Some r => v <- load r ;; ret (json_response 200 (BRecord v))
  end.

Definition handleDeleteVM (vmId : string) : M Response :=
  vm <- lookup_either vmId ;;
  match vm with
  | None => ret (json_response 404 (BError "VM not found"))
  | Some r =>
      assign r (set_status Stopped) ;;
      map_delete vmId ;;
      map_delete (alias_key vmId) ;;
      ret (json_response 200 (BDeleted "VM deleted successfully" vmId))
  end.

(** [await fetch(`${origin}/browser/restart`, { method: 'POST' })
      .catch(() => {})], guarded by [if (vm.originAgentUrl)]. *)
Definition signal_restart (r : nat) : M unit :=
  v <- load r ;;
  if Js.truthy (originAgentUrl v) then
    try_catch
      (fetch_to out
         (mkCall (Js.stripTrailingSlash (default "" (originAgentUrl v))
                  +:+ "/browser/restart") "POST" None PNone) ;;
       ret tt)
      (fun _ => ret tt)
  else ret tt.

Definition handleStartVM (vmId : string) : M Response :=
  vm <- lookup_either vmId ;;
  match vm with
  | None => ret (json_response 404 (BError "VM not found"))
  | Some r =>
      signal_restart r ;;
      assign r (set_status Ready) ;;
      assign r (set_lastActivity (Some (now out))) ;;
      storeVM r ;;
      ret (json_response 200
             (BSuccess true ("VM " +:+ vmId +:+ " started.")))
  end.

Definition handleRestartVM (vmId : string) : M Response :=
  vm <- lookup_either vmId ;;
  match vm with
  | None => ret (json_response 404 (BError "VM not found"))
  | Some r =>
      signal_restart r ;;
      assign r (set_status Initializing) ;;
      assign r (set_lastActivity (Some (now out))) ;;
      storeVM r ;;
      ret (json_response 200
             (BSuccess true ("VM " +:+ vmId +:+ " restart initiated.")))
  end.

Definition handleNoVNC (vmId : string) : M Response :=
  vm <- getVMFromStorage vmId ;;
  match vm with
  | None => ret (json_response 404 (BError "VM not found"))
  | Some r => v <- load r ;; ret (mkResponse 200 (Some "text/html") (BHtml v))
  end.

Definition handleAgent (vmId : string) : M Response :=
  vm <- lookup_either vmId ;;
  match vm with
  | None => ret (json_response 404 (BError "VM not found"))
  | Some r =>
      v <- load r ;;
      ret (json_response 200 (BAgent (vm_id v) (status_string (vm_status v)) v))
  end.

Definition handleAgentProxy (vmId action : string) (request : Request)
    : M Response :=
  vm <- lookup_either vmId ;;
  match vm with
  | None => ret (json_response 404 (BError "VM not found"))
  | Some r =>
      v <- load r ;;
      if negb (Js.truthy (originAgentUrl v)) then
        ret (json_response 400 (BError "No upstream agent URL"))
      else
        let upstream := Js.stripTrailingSlash (default "" (originAgentUrl v)) in
        match upstreamPath action with
        | None => ret (json_response 400 (BError "Unsupported agent action"))
        | Some path =>
            let payload :=
              if negb (String.eqb (req_method request) "GET")
                 && negb (String.eqb (req_method request) "HEAD")
              then PText (req_text request) else PNone in
            resp <- fetch_to out
                      (mkCall (upstream +:+ path) (req_method request)
                              None payload) ;;
            ret (mkResponse (up_status resp)
                   (Js.or_else (up_contentType resp) (Some "application/json"))
                   (BProxied (up_text resp)))
        end
  end.

Definition handleGetServices : M Response :=
  ret (json_response 200 BServices).

(** The chain of [if]s of [fetch], in source order: which handler a
    method and pathname select. *)
Definition route (method pathname : string) : Route :=
  if String.eqb method "OPTIONS" then ToOptions
  else if String.eqb pathname "/health" then ToHealth
  else if String.eqb pathname "/vms" && String.eqb method "GET" then ToGetVMs
  else if String.eqb pathname "/vms" && String.eqb method "POST" then ToCreateVM
  else if Js.startsWith "/vms/" pathname && String.eqb method "GET"
    then ToGetVM (segment2 pathname)
  else if Js.startsWith "/vms/" pathname && String.eqb method "DELETE"
    then ToDeleteVM (segment2 pathname)
  else if Js.match_vms ["/start"] pathname && String.eqb method "POST"
    then ToStartVM (segment2 pathname)
  else if Js.match_vms ["/restart"] pathname && String.eqb method "POST"
    then ToRestartVM (segment2 pathname)
  else if Js.startsWith "/vms/" pathname && Js.endsWith "/novnc" pathname
    then ToNoVNC (segment2 pathname)
  else if Js.startsWith "/vms/" pathname && Js.endsWith "/agent" pathname
    then ToAgent (segment2 pathname)
  else if Js.match_vms agent_tails pathname
    then ToAgentProxy (segment2 pathname) (action_of pathname)
  else if String.eqb pathname "/services" && String.eqb method "GET"
    then ToServices
  else ToNotFound.

(** The body of each branch of [fetch]. *)
Definition serve (r : Route) (request : Request) : M Response :=
  match r with
  | ToOptions => ret (mkResponse 200 None BNone)
  | ToHealth => ret (json_response 200 (BHealth (now out)))
  | ToGetVMs => handleGetVMs
  | ToCreateVM => handleCreateVM request
  | ToGetVM vmId => handleGetVM vmId
  | ToDeleteVM vmId => handleDeleteVM vmId
  | ToStartVM vmId => handleStartVM vmId
  | ToRestartVM vmId => handleRestartVM vmId
  | ToNoVNC vmId => handleNoVNC vmId
  | ToAgent vmId => handleAgent vmId
  | ToAgentProxy vmId action => handleAgentProxy vmId action request
  | ToServices => handleGetServices
  | _ => ret (json_response 404 (BError "Not found"))
  end.

(** The branches of [fetch] that [await] their handler
    ([return await handleCreateVM(...)]); the other branches return the
    handler's promise as it is ([return handleGetVM(...)]). *)
Definition awaited (r : Route) : bool :=
  match r with
  | ToCreateVM | ToDeleteVM _ | ToStartVM _ | ToRestartVM _ => true
  | _ => false
  end.

(** [export default { fetch }]: dispatch inside a [try]/[catch].  The
    [catch] turns an exception into a 500 only where the handler is
    awaited; a promise returned without [await] settles after the [try]
    block was left, so its rejection is the rejection of [fetch] itself. *)
Definition fetch (request : Request) : M Response :=
  let r := route (req_method request) (req_pathname request) in
  if awaited r then
    try_catch
      (serve r request)
      (fun error =>
         ret (json_response 500
                (BFailure "Internal server error" (error_message error))))
  else serve r request.

End Worker.
End IndexTs.

(** ** [src/unnamed/part_000]: the handlers of [index.ts] behind a dispatcher
    that tests the NoVNC and agent routes before the generic ones *)

Module Part000.
Section Worker.
Variable env : Env.
Variable out : Outside.

Definition route (method pathname : string) : Route :=
  if String.eqb method "OPTIONS" then ToOptions
  else if String.eqb pathname "/health" then ToHealth
  else if String.eqb pathname "/vms" && String.eqb method "GET" then ToGetVMs
  else if String.eqb pathname "/vms" && String.eqb method "POST" then ToCreateVM
  else if Js.startsWith "/vms/" pathname && Js.endsWith "/novnc" pathname
    then ToNoVNC (segment2 pathname)
  else if Js.startsWith "/vms/" pathname && Js.endsWith "/agent" pathname
    then ToAgent (segment2 pathname)
  else if Js.match_vms ["/start"] pathname && String.eqb method "POST"
    then ToStartVM (segment2 pathname)
  else if Js.match_vms ["/restart"] pathname && String.eqb method "POST"
    then ToRestartVM (segment2 pathname)
  else if Js.startsWith "/vms/" pathname && String.eqb method "GET"
    then ToGetVM (segment2 pathname)
  else if Js.startsWith "/vms/" pathname && String.eqb method "DELETE"
    then ToDeleteVM (segment2 pathname)
  else if Js.match_vms agent_tails pathname
    then ToAgentProxy (segment2 pathname) (action_of pathname)
  else if String.eqb pathname "/services" && String.eqb method "GET"
    then ToServices
  else ToNotFound.

(** As in [index.ts], the create, delete, start and restart branches are
    the ones that [await]. *)
Definition fetch (request : Request) : M Response :=
  let r := route (req_method request) (req_pathname request) in
  if IndexTs.awaited r then
    try_catch
      (IndexTs.serve env out r request)
      (fun error =>
         ret (json_response 500
                (BFailure "Internal server error" (error_message error))))
  else IndexTs.serve env out r request.

End Worker.
End Part000.

(** ** [src/unnamed/part_001]: D1-backed store, edge and cloud-managed
    backends *)

(** What [SELECT * FROM vms WHERE id = ?] finds: no row, a row whose
    [metadata] and [network] columns [JSON.parse] accepts (given as the
    record the object literal of [getVMFromStorage] builds from it), or a
    row with a column it rejects. *)
Inductive Selected :=
| NoRow
| FoundRow (row : VM)
| FoundUnparsable.

(** The [SyntaxError] of [JSON.parse]; its message depends on the engine and
    is only logged. *)
Definition json_syntax_error : thrown := JsError "Unexpected token in JSON".

Module Part001.
Section Worker.
Variable env : Env.
Variable out : Outside.

(** [x || null] as bound into the [INSERT] statement. *)
Definition or_null (o : option string) : option string :=
  if Js.truthy o then o else None.

(** The row written for a record: the values of [bind(...)]. *)
Definition row_of (v : VM) : VM :=
  mkVM (vm_id v) (vm_name v) (vm_status v) (or_null (containerId v))
       (or_null (novncUrl v)) (or_null (agentUrl v))
       (or_null (originAgentUrl v)) (or_null (originNoVncUrl v))
       (or_null (publicIp v)) (or_null (chromeVersion v))
       (or_null (nodeVersion v)) (createdAt v) (or_null (lastActivity v))
       (metadata v) (or_null (instanceType v)) (or_null (memory v))
       (or_null (cpu v)) (or_null (storage v)) (network v)
       (or_null (serverId v)) (or_null (serverName v)) (or_null (region v))
       (or_null (createdVia v)) (or_null (vm_error v)).

(** [INSERT OR REPLACE INTO vms ... .run()]: the row written replaces
    whatever row the id had; its JSON columns come from [JSON.stringify]. *)
Definition d1_run (row : VM) : M unit :=
  match d1_run_throws out with
  | Some e => throw e
  | None =>
      fun w => (Ok tt, mkWorld (heap w) (next w) (activeVMs w)
                               (<[vm_id row := row]> (d1 w)) (calls w)
                               (garbled w ∖ {[ vm_id row ]}))
  end.

(** [SELECT * FROM vms WHERE id = ? ... .first()] *)
Definition d1_first (vmId : string) : M Selected :=
  match d1_first_throws out with
  | Some e => throw e
  | None =>
      fun w => (Ok match d1 w !! vmId with
                   | Some row => FoundRow row
                   | None => if decide (vmId ∈ garbled w) then FoundUnparsable
                             else NoRow
                   end, w)
  end.

Definition storeVM (vm : nat) : M unit :=
  v <- load vm ;;
  map_set (vm_id v) vm ;;
  map_set (alias_key (vm_id v)) vm ;;
  try_catch
    (if negb (chrome_vm_db env) then ret tt
     else v <- load vm ;; d1_run (row_of v))
    (fun _ => ret tt).

(** The [try] block of [getVMFromStorage]: [Some x] when it executes
    [return x], [None] when control leaves the block normally. *)
Definition from_database (vmId : string) : M (option (option nat)) :=
  try_catch
    (if negb (chrome_vm_db env) then ret (Some None)
     else
       result <- d1_first vmId ;;
       match result with
       | FoundRow row =>
           vm <- new_object row ;;
           map_set vmId vm ;;
           ret (Some (Some vm))
       | FoundUnparsable => throw json_syntax_error
       | NoRow => ret None
       end)
    (fun _ => ret None).

Definition getVMFromStorage (vmId : string) : M (option nat) :=
  vm <- map_get vmId ;;
  match vm with
  | Some r => ret (Some r)
  | None =>
      vm <- map_get (alias_key vmId) ;;
      match vm with
      | Some r => ret (Some r)
      | None =>
          returned <- from_database vmId ;;
          match returned with
          | Some x => ret x
          | None =>
              mock <- new_object (mockVM vmId (now out)) ;;
              storeVM mock ;;
              ret (Some mock)
          end
      end
  end.

Definition selectDeploymentStrategy (instType : string)
    (server_id : option string) : string :=
  if Js.includes "e2-" instType then "google_cloud"
  else if Js.includes "t3." instType then "cloudflare"
  else if decide (server_id = Some "default-google-cloud-server")
    then "google_cloud"
  else "cloudflare".

(** [vm.instanceType?.includes(n)] as a condition. *)
Definition type_includes (n : string) (v : VM) : bool :=
  match instanceType v with
  | Some t => Js.includes n t
  | None => false
  end.

(** The object [createCloudflareVM] returns for the record [v]. *)
Definition edge_descriptor (v : VM) : Descriptor :=
  mkDescriptor (Some ("cf-container-" +:+ vm_id v))
    (Some (public_novnc (vm_id v))) (Some (public_agent (vm_id v)))
    None None (Some ("cf-" +:+ vm_id v +:+ ".workers.dev"))
    (Some "120.0.0.0") (Some "18.19.0")
    (Some (if type_includes "t3.medium" v then "512MB" else "1GB"))
    (Some (if type_includes "t3.medium" v then "0.5 vCPU" else "1 vCPU"))
    (Some "1GB") None.

Definition createCloudflareVM (vm : nat) : M Descriptor :=
  v <- load vm ;;
  ret (edge_descriptor v).

(** The descriptor of a container the Docker service reported. *)
Definition real_descriptor (v : VM) (containerData : JsonObj) : Descriptor :=
  mkDescriptor (containerData !! "id")
    (Some (public_novnc (vm_id v))) (Some (public_agent (vm_id v)))
    (containerData !! "novncUrl") (containerData !! "agentUrl")
    (containerData !! "publicIp") (Some "120.0.0.0") (Some "18.19.0")
    (Some (if type_includes "e2-medium" v then "2GB" else "4GB"))
    (Some (if type_includes "e2-medium" v then "1 vCPU" else "2 vCPU"))
    (Some "20GB") (Some true).

(** [mockGCPVM]; its further members ([projectId], [zone], [selfLink],
    labels ...) are never read by [createRealVM]. *)
Definition simulated_descriptor (v : VM) (projectId : string) : Descriptor :=
  mkDescriptor (Some ("gcp-vm-" +:+ vm_id v))
    (Some (public_novnc (vm_id v))) (Some (public_agent (vm_id v)))
    None None
    (Some ("chrome-vm-" +:+ vm_id v +:+ "." +:+ "us-central1-a" +:+ ".c."
           +:+ projectId +:+ ".internal"))
    (Some "120.0.0.0") (Some "18.19.0")
    (Some (if type_includes "e2-medium" v then "2GB" else "4GB"))
    (Some (if type_includes "e2-medium" v then "1 vCPU" else "2 vCPU"))
    (Some "20GB") (Some false).

Definition docker_call (v : VM) : Call :=
  mkCall (default "" (DOCKER_SERVICE_URL env) +:+ "/containers") "POST"
    (Some ("Bearer " +:+
           default "" (Js.or_else (DOCKER_API_KEY env) (Some "demo-key"))))
    (PDockerCreate ("chrome-vm-" +:+ vm_id v) "chrome-vm:latest"
       (vm_id v) (vm_name v)
       (if type_includes "e2-medium" v then "2GB" else "4GB")
       (if type_includes "e2-medium" v then "1" else "2")).

(** The inner [try] of [createGoogleCloudVM]: [Some d] when it returns the
    real container's descriptor, [None] when it falls through. *)
Definition try_docker (v : VM) : M (option Descriptor) :=
  if Js.truthy (DOCKER_SERVICE_URL env) then
    try_catch
      (dockerResponse <- fetch_to out (docker_call v) ;;
       if up_ok dockerResponse then
         containerData <- json_of dockerResponse ;;
         ret (Some (real_descriptor v containerData))
       else ret None)
      (fun _ => ret None)
  else ret None.

Definition createGoogleCloudVM (vm : nat) : M Descriptor :=
  try_catch
    (v <- load vm ;;
     if negb (Js.truthy (GOOGLE_CLOUD_PROJECT_ID env))
        || negb (Js.truthy (GOOGLE_CLOUD_ACCESS_TOKEN env))
     then createCloudflareVM vm
     else
       real <- try_docker v ;;
       match real with
       | Some d => ret d
       | None =>
           ret (simulated_descriptor v
                  (default "" (GOOGLE_CLOUD_PROJECT_ID env)))
       end)
    (fun _ => createCloudflareVM vm).

(** The [switch (deploymentStrategy)] of [createRealVM]; each branch also
    sets [vm.createdVia]. *)
Definition backend_for (deploymentStrategy : string) (vm : nat)
    : M Descriptor :=
  if String.eqb deploymentStrategy "cloudflare" then
    result <- createCloudflareVM vm ;;
    assign vm (set_createdVia (Some "cloudflare-workers")) ;;
    ret result
  else if String.eqb deploymentStrategy "google_cloud" then
    result <- createGoogleCloudVM vm ;;
    assign vm (set_createdVia (Some "google-cloud-real")) ;;
    ret result
  else
    result <- createCloudflareVM vm ;;
    assign vm (set_createdVia (Some "cloudflare-workers")) ;;
    ret result.

Definition createRealVM (vm : nat) : M unit :=
  try_catch
    (v <- load vm ;;
     let deploymentStrategy :=
       selectDeploymentStrategy
         (default "" (Js.or_else (instanceType v) (Some "t3.medium")))
         (serverId v) in
     result <- backend_for deploymentStrategy vm ;;
     apply_descriptor vm result (now out) ;;
     storeVM vm)
    (fun error =>
       assign vm (set_status Error) ;;
       assign vm (set_error (Some (error_message error))) ;;
       storeVM vm).

Definition handleCreateVM (request : Request) : M Response :=
  try_catch
    (body <- settle (req_json request) ;;
     let name := b_name body in
     let server_id := b_server_id body in
     if negb (Js.truthy name) then
       ret (json_response 400 (BError "VM name is required"))
     else
       let vmId :=
         default "" (Js.or_else (b_vmId body) (Some (generateVMId out))) in
       vm <- new_object
               (initial_record vmId (default "" name) (now out)
                  (Js.or_else (b_instanceType body) (Some "t3.medium"))
                  server_id) ;;
       createRealVM vm ;;
       storeVM vm ;;
       v <- load vm ;;
       ret (json_response 201
              (BCreated "VM creation started" (vm_id v)
                        (status_string (vm_status v)) "2-5 minutes")))
    (fun error =>
       ret (json_response 500
              (BFailure "Failed to create VM" (error_message error)))).

Definition handleGetVM (vmId : string) : M Response :=
  vm <- getVMFromStorage vmId ;;
  match vm with
  | None => ret (json_response 404 (BError "VM not found"))
  | Some r => v <- load r ;; ret (json_response 200 (BRecord v))
  end.

Definition handleDeleteVM (vmId : string) : M Response :=
  vm <- IndexTs.lookup_either vmId ;;
  match vm with
  | None => ret (json_response 404 (BError "VM not found"))
  | Some r =>
      assign r (set_status Stopped) ;;
      map_delete vmId ;;
      map_delete (alias_key vmId) ;;
      ret (json_response 200 (BDeleted "VM deleted successfully" vmId))
  end.

Definition route (method pathname : string) : Route :=
  if String.eqb method "OPTIONS" then ToOptions
  else if String.eqb pathname "/health" then ToHealth
  else if Js.match_vms ["/scripts"] pathname && String.eqb method "POST"
    then ToExecuteScript (segment2 pathname)
  else if Js.match_vms ["/scripts"] pathname && String.eqb method "GET"
    then ToGetScripts (segment2 pathname)
  else if Js.match_vms ["/metrics"] pathname && String.eqb method "GET"
    then ToGetMetrics (segment2 pathname)
  else if Js.match_vms ["/metrics"] pathname && String.eqb method "POST"
    then ToRecordMetrics (segment2 pathname)
  else if Js.match_vms ["/events"] pathname && String.eqb method "GET"
    then ToGetEvents (segment2 pathname)
  else if Js.match_vms ["/stop"] pathname && String.eqb method "POST"
    then ToStopVM (segment2 pathname)
  else if Js.match_vms ["/status"] pathname && String.eqb method "GET"
    then ToGetVMStatus (segment2 pathname)
  else if String.eqb pathname "/vms" && String.eqb method "GET" then ToGetVMs
  else if String.eqb pathname "/vms" && String.eqb method "POST" then ToCreateVM
  else if Js.startsWith "/vms/" pathname && Js.endsWith "/novnc" pathname
    then ToNoVNC (segment2 pathname)
  else if Js.startsWith "/vms/" pathname && Js.endsWith "/agent" pathname
    then ToAgent (segment2 pathname)
  else if Js.match_vms ["/start"] pathname && String.eqb method "POST"
    then ToStartVM (segment2 pathname)
  else if Js.match_vms ["/restart"] pathname && String.eqb method "POST"
    then ToRestartVM (segment2 pathname)
  else if Js.startsWith "/vms/" pathname && String.eqb method "GET"
    then ToGetVM (segment2 pathname)
  else if Js.startsWith "/vms/" pathname && String.eqb method "DELETE"
    then ToDeleteVM (segment2 pathname)
  else if Js.match_vms agent_tails pathname
    then ToAgentProxy (segment2 pathname) (action_of pathname)
  else if String.eqb pathname "/services" && String.eqb method "GET"
    then ToServices
  else ToNotFound.

End Worker.
End Part001.

(** ** [src/createGoogleCloudVM_fixed.js]

    The file holds this one function; [createCloudflareVM], which it calls,
    is taken as a parameter. *)

Module FixedJs.
Section Backend.
Variable env : Env.
Variable out : Outside.
Variable createCloudflareVM : nat -> M Descriptor.

Definition docker_call (v : VM) : Call :=
  mkCall "https://pacific-blessing-production.up.railway.app/containers"
    "POST" None
    (PDockerCreate ("chrome-vm-" +:+ vm_id v) "browserless/chrome:latest"
       (vm_id v) (vm_name v)
       (if Part001.type_includes "e2-medium" v then "2GB" else "4GB")
       (if Part001.type_includes "e2-medium" v then "1" else "2")).

Definition try_docker (v : VM) : M (option Descriptor) :=
  try_catch
    (dockerResponse <- fetch_to out (docker_call v) ;;
     if up_ok dockerResponse then
       containerData <- json_of dockerResponse ;;
       ret (Some (Part001.real_descriptor v containerData))
     else
       _ <- json_of dockerResponse ;;
       ret None)
    (fun _ => ret None).

Definition createGoogleCloudVM (vm : nat) : M Descriptor :=
  try_catch
    (v <- load vm ;;
     if negb (Js.truthy (GOOGLE_CLOUD_PROJECT_ID env))
        || negb (Js.truthy (GOOGLE_CLOUD_ACCESS_TOKEN env))
     then createCloudflareVM vm
     else
       real <- try_docker v ;;
       match real with
       | Some d => ret d
       | None =>
           ret (Part001.simulated_descriptor v
                  (default "" (GOOGLE_CLOUD_PROJECT_ID env)))
       end)
    (fun _ => createCloudflareVM vm).

End Backend.
End FixedJs.

(** ** The strategy rule as the specification words it

    "if instanceType matches a reserved prefix pattern for accelerated
    instances -> cloud-managed; else if it matches a reserved prefix for
    lightweight instances -> edge; else if the server preference names the
    cloud-managed server -> cloud-managed; else edge". *)

Definition select_by_prefix (instType : string) (server_id : option string)
    : string :=
  if Js.startsWith "e2-" instType then "google_cloud"
  else if Js.startsWith "t3." instType then "cloudflare"
  else if decide (server_id = Some "default-google-cloud-server")
    then "google_cloud"
  else "cloudflare".

(** [n] occurs in [s]. *)
Definition occurs_in (n s : string) : Prop :=
  exists a b, s = a +:+ n +:+ b.

(** The object a VM id resolves to in the in-memory store: the entry under
    the id itself, else the entry under its alias key. *)
Definition resolve (w : World) (vmId : string) : option nat :=
  match activeVMs w !! vmId with
  | Some r => Some r
  | None => activeVMs w !! alias_key vmId
  end.

(** The action names the proxy supports, each with the upstream path suffix
    the specification lists for it. *)
Definition proxied_actions : list (string * string) :=
  [("browser/navigate", "/browser/navigate"); ("restart", "/browser/restart");
   ("status", "/health"); ("execute", "/run"); ("screenshot", "/run")].

(** [base] is [u] with its trailing slash stripped: [u] is [base/], or [u]
    has no trailing slash and [base] is [u] itself. *)
Definition without_trailing_slash (u base : string) : Prop :=
  u = base +:+ "/" \/ (u = base /\ forall t, base <> t +:+ "/").

(** The body the proxy forwards: the request text, except for GET and HEAD. *)
Definition forwarded_body (request : Request) : Payload :=
  if negb (String.eqb (req_method request) "GET")
     && negb (String.eqb (req_method request) "HEAD")
  then PText (req_text request) else PNone.

(** The world with one more upstream call logged. *)
Definition with_call (w : World) (c : Call) : World :=
  mkWorld (heap w) (next w) (activeVMs w) (d1 w) (calls w ++ [c]) (garbled w).

(** The best-effort restart signal that start and restart send for the
    record [v]: one POST to its origin agent when that URL is set, nothing
    otherwise. *)
Definition restart_signal (v : VM) : list Call :=
  if Js.truthy (originAgentUrl v) then
    [mkCall (Js.stripTrailingSlash (default "" (originAgentUrl v))
             +:+ "/browser/restart") "POST" None PNone]
  else [].

(** The record after a start or restart transition at time [stamp]. *)
Definition transitioned (st : Status) (stamp : string) (v : VM) : VM :=
  set_lastActivity (Some stamp) (set_status st v).

(** The record [v] after [createRealVM] copied the descriptor [d] into it
    at time [stamp]. *)
Definition described (d : Descriptor) (stamp : string) (v : VM) : VM :=
  set_storage (r_storage d)
    (set_cpu (r_cpu d)
      (set_memory (r_memory d)
        (set_lastActivity (Some stamp)
          (set_nodeVersion (r_nodeVersion d)
            (set_chromeVersion (r_chromeVersion d)
              (set_publicIp (r_publicIp d)
                (set_originNoVncUrl
                   (Js.or_else (r_originNoVncUrl d) (r_novncUrl d))
                  (set_originAgentUrl
                     (Js.or_else (r_originAgentUrl d) (r_agentUrl d))
                    (set_agentUrl (r_agentUrl d)
                      (set_novncUrl (r_novncUrl d)
                        (set_containerId (r_containerId d)
                          (set_status Ready v)))))))))))).

(** The record [v] after [createRealVM] caught the exception [e]. *)
Definition failed (e : thrown) (v : VM) : VM :=
  set_error (Some (error_message e)) (set_status Error v).

(** Two worlds that differ at most in the object behind [r] and in the log
    of upstream calls. *)
Definition same_but (r : nat) (w w1 : World) : Prop :=
  (forall r', r' <> r -> heap w1 r' = heap w r')
  /\ activeVMs w1 = activeVMs w /\ d1 w1 = d1 w /\ next w1 = next w.

(** ** Sample environments and worlds for the concrete runs below *)

(** No bindings configured. *)
Definition bare_env : Env := mkEnv false None None None None None.

(** A network on which every call is refused. *)
Definition offline : Outside :=
  mkOutside "2024-05-01T10:00:00.000Z" "vm-k3x9q2a1b-lvo1x2y3"
    (fun _ => Rejects (JsError "fetch failed")) None None.

(** A network on which every endpoint answers [st] with the body [text],
    which parses to the JSON object [obj]. *)
Definition answering (st : nat) (text : string) (obj : JsonObj) : Outside :=
  mkOutside "2024-05-01T10:00:00.000Z" "vm-k3x9q2a1b-lvo1x2y3"
    (fun _ => Responds (mkUpstream st (Some "application/json") text (Ok obj)))
    None None.

(** A freshly started worker: nothing stored, nothing allocated. *)
Definition fresh_world : World :=
  mkWorld (fun _ => mockVM "" "") 0 ∅ ∅ [] ∅.

(** A fresh worker whose D1 table already holds the given row. *)
Definition world_with_row (row : VM) : World :=
  mkWorld (fun _ => mockVM "" "") 0 ∅ {[ vm_id row := row ]} [] ∅.

Definition post_vms (name : string) (instType : option string) : Request :=
  mkRequest "POST" "/vms" (Ok (mkCreateBody (Some name) None instType None)) "".

Definition get_path (pathname : string) : Request :=
  mkRequest "GET" pathname (Throw (JsError "Unexpected end of JSON input")) "".

(** A Railway VM server is configured. *)
Definition railway_env : Env :=
  mkEnv false None None None None (Some "https://rw.example/").

(** The id every sample run generates. *)
Definition sample_id : string := "vm-k3x9q2a1b-lvo1x2y3".

(** A Railway server that creates the VM and reports its agent at
    [http://u]. *)
Definition railway_up : Outside :=
  answering 200 "{}" {[ "id" := "rw-1"; "agent_url" := "http://u" ]}.

(** The worker after [POST /vms {name: "demo"}] served by [railway_up]. *)
Definition world_with_demo : World :=
  snd (IndexTs.handleCreateVM railway_env railway_up (post_vms "demo" None)
         fresh_world).

(** The same, served by a Railway server that reports the agent URL with a
    trailing slash. *)
Definition world_with_slash_origin : World :=
  snd (IndexTs.handleCreateVM railway_env
         (answering 200 "{}" {[ "id" := "rw-1"; "agent_url" := "http://u/" ]})
         (post_vms "demo" None) fresh_world).

(** A fresh worker whose D1 table holds a row for ["abc"] with a JSON
    column that does not parse. *)
Definition world_with_garbled_row : World :=
  mkWorld (fun _ => mockVM "" "") 0 ∅ ∅ [] {[ "abc" ]}.

(** The D1 binding is present, nothing else is configured. *)
Definition d1_env : Env := mkEnv true None None None None None.

(** A row as an earlier worker instance persisted it for the VM ["abc"]. *)
Definition abc_row : VM :=
  Part001.row_of
    (described (mkDescriptor (Some "cf-container-abc") (Some (public_novnc "abc"))
                  (Some (public_agent "abc")) None None
                  (Some "cf-abc.workers.dev") (Some "120.0.0.0")
                  (Some "18.19.0") (Some "512MB") (Some "0.5 vCPU")
                  (Some "1GB") None)
       "2024-04-30T08:00:00.000Z"
       (initial_record "abc" "demo" "2024-04-30T08:00:00.000Z"
          (Some "t3.medium") None)).

(** The alias invariant of the store at the id [vmId]: the entry under the
    id and the entry under its alias key are the same object, or both are
    absent. *)
Definition aliased (w : World) (vmId : string) : Prop :=
  activeVMs w !! vmId = activeVMs w !! alias_key vmId.

(** The last character of a string. *)
Fixpoint last_char (s : string) : option ascii :=
  match s with
  | EmptyString => None
  | String c EmptyString => Some c
  | String _ s' => last_char s'
  end.

(** The path of the NoVNC page of a VM. *)
Definition novnc_path (vmId : string) : string := "/vms/" +:+ vmId +:+ "/novnc".

(** Google Cloud credentials and a Docker service are configured. *)
Definition gcp_env : Env :=
  mkEnv false None (Some "https://docker.example") (Some "proj-1")
        (Some "token") None.

(** A fresh worker holding one newly built record, not yet filed. *)
Definition world_with_object (v : VM) : World :=
  snd (new_object v fresh_world).

(** The record [handleCreateVM] builds for [{name: "demo", instanceType}]
    under the id ["abc"]. *)
Definition demo_record (instType : string) : VM :=
  initial_record "abc" "demo" "2024-05-01T10:00:00.000Z" (Some instType) None.

(** Both Google Cloud credentials are set. *)
Definition has_credentials (env : Env) : bool :=
  Js.truthy (GOOGLE_CLOUD_PROJECT_ID env)
  && Js.truthy (GOOGLE_CLOUD_ACCESS_TOKEN env).

(** The instance type [createRealVM] passes to the selector:
    [vm.instanceType || 't3.medium']. *)
Definition effective_type (v : VM) : string :=
  default "" (Js.or_else (instanceType v) (Some "t3.medium")).

(** ** [src/unnamed/part_001]: lifecycle, stop and status handlers *)

(** One row of the D1 table [vm_events]; [ev_data] holds the members of the
    JSON object stored in [event_data]. *)
Record EventRow := mkEventRow {
  ev_id : string;
  ev_vm_id : string;
  ev_type : string;
  ev_data : list (string * string);
  ev_timestamp : string
}.

(** One row of the [SELECT metric_type, value, unit, timestamp] of
    [handleGetVMStatus]; [metric_type] is a [TEXT] column that
    [handleRecordMetrics] fills from the request as it comes.  The numeric
    value is only carried through and is kept as its JSON text. *)
Record MetricRow := mkMetricRow {
  m_type : string;
  m_value : string;
  m_unit : string;
  m_timestamp : string
}.

(** [{ value, unit, timestamp }] *)
Record Sample := mkSample {
  s_value : string;
  s_unit : string;
  s_timestamp : string
}.

(** The [vm: { ... }] member of the status answer. *)
Record Summary := mkSummary {
  sum_id : string;
  sum_name : string;
  sum_status : string;
  sum_createdAt : string;
  sum_lastActivity : option string;
  sum_instanceType : option string;
  sum_memory : option string;
  sum_cpu : option string;
  sum_storage : option string;
  sum_serverName : option string;
  sum_region : option string
}.

(** Bodies of the stop and status answers. *)
Inductive StatusBody :=
| SError (error : string)
| SFailure (error message : string)
| SStopped (success : bool) (message : string) (id name status : string)
    (lastActivity : option string)
| SStatus (vm : Summary) (metrics : gmap string (list Sample))
    (health : string).

(** An answer of the stop and status handlers; its content type is always
    JSON. *)
Record Reply := mkReply {
  reply_status : nat;
  reply_body : StatusBody
}.

(** The worker's world together with the log of the
    [INSERT INTO vm_events] statements it has run so far (oldest first),
    each given by the row it binds.  The log records what the worker asked
    of D1, whether or not D1 accepted the statement; what the table then
    holds (foreign keys, cascades) is D1's business and is not modelled. *)
Record Site := mkSite {
  world : World;
  event_inserts : list EventRow
}.

Definition MS (A : Type) : Type := Site -> outcome A * Site.

Definition sret {A} (a : A) : MS A := fun s => (Ok a, s).

Definition sbind {A B} (m : MS A) (k : A -> MS B) : MS B :=
  fun s => match m s with
           | (Ok a, s') => k a s'
           | (Throw e, s') => (Throw e, s')
           end.

Definition sthrow {A} (e : thrown) : MS A := fun s => (Throw e, s).

Definition stry_catch {A} (body : MS A) (handler : thrown -> MS A) : MS A :=
  fun s => match body s with
           | (Ok a, s') => (Ok a, s')
           | (Throw e, s') => handler e s'
           end.

(** A step that only touches the world. *)
Definition in_world {A} (m : M A) : MS A :=
  fun s => match m (world s) with
           | (o, w) => (o, mkSite w (event_inserts s))
           end.

(** [INSERT INTO vm_events ... .run()]: the statement is logged, then D1
    decides whether it throws. *)
Definition insert_event (throws : option thrown) (row : EventRow) : MS unit :=
  fun s =>
    let s' := mkSite (world s) (event_inserts s ++ [row]) in
    match throws with
    | Some e => (Throw e, s')
    | None => (Ok tt, s')
    end.

Declare Scope site_scope.
Delimit Scope site_scope with site.
Notation "x <- m ;; k" := (sbind m (fun x => k))
  (at level 100, m at next level, right associativity) : site_scope.
Notation "m ;; k" := (sbind m (fun _ => k))
  (at level 100, right associativity) : site_scope.

Definition sample_of (row : MetricRow) : Sample :=
  mkSample (m_value row) (m_unit row) (m_timestamp row).

(** One step of the [reduce] of [handleGetVMStatus], on the own properties
    of the accumulator: [if (!acc[k]) acc[k] = []; acc[k].push({...})], where
    [not_a_function] is the message of the [TypeError] raised when [acc[k]]
    is an inherited member. *)
Definition group_step (not_a_function : string)
    (acc : gmap string (list Sample)) (row : MetricRow)
    : outcome (gmap string (list Sample)) :=
  let key := m_type row in
  match acc !! key with
  | Some samples => Ok (<[key := samples ++ [sample_of row]]> acc)
  | None =>
      if inherited key then Throw (JsError not_a_function)
      else Ok (<[key := [sample_of row]]> acc)
  end.

(** The [reduce]: samples grouped by metric type, in the order of the
    rows. *)
Fixpoint group_from (not_a_function : string)
    (acc : gmap string (list Sample)) (rows : list MetricRow)
    : outcome (gmap string (list Sample)) :=
  match rows with
  | [] => Ok acc
  | row :: rest =>
      match group_step not_a_function acc row with
      | Ok acc' => group_from not_a_function acc' rest
      | Throw e => Throw e
      end
  end.

Definition group_metrics (not_a_function : string) (rows : list MetricRow)
    : outcome (gmap string (list Sample)) :=
  group_from not_a_function ∅ rows.

Module Part001Lifecycle.
Section Worker.
Variable env : Env.
Variable out : Outside.
(** The id [recordEvent] generates from [Date.now()] and [Math.random()]. *)
Variable event_id : string.
(** Whether the [INSERT INTO vm_events] throws. *)
Variable d1_event_throws : option thrown.
(** What the [SELECT ... FROM vm_metrics WHERE vm_id = ? AND timestamp >
    datetime('now', '-1 hour') ORDER BY timestamp DESC] yields for a VM id,
    in the order D1 returns the rows, or the exception of the statement.
    Which rows pass the comparison is D1's business and is not modelled. *)
Variable recent_metrics : string -> outcome (list MetricRow).
(** The message of the [TypeError] raised by [env.chrome_vm_db.prepare] when
    the binding is [undefined]. *)
Variable no_binding : string.
(** The message of the [TypeError] raised by calling a [push] that is
    [undefined]. *)
Variable not_a_function : string.
(** The three clock readings of a stop, in the order they are taken: for
    [vm.lastActivity], for the event's data, and for the event's own
    [timestamp] column. *)
Variable stop_time : string.
Variable event_data_time : string.
Variable event_time : string.

Definition handleStartVM (vmId : string) : M Response :=
  vm <- IndexTs.lookup_either vmId ;;
  match vm with
  | None => ret (json_response 404 (BError "VM not found"))
  | Some r =>
      IndexTs.signal_restart out r ;;
      assign r (set_status Ready) ;;
      assign r (set_lastActivity (Some (now out))) ;;
      Part001.storeVM env out r ;;
      ret (json_response 200
             (BSuccess true ("VM " +:+ vmId +:+ " started.")))
  end.

Definition handleRestartVM (vmId : string) : M Response :=
  vm <- IndexTs.lookup_either vmId ;;
  match vm with
  | None => ret (json_response 404 (BError "VM not found"))
  | Some r =>
      IndexTs.signal_restart out r ;;
      assign r (set_status Initializing) ;;
      assign r (set_lastActivity (Some (now out))) ;;
      Part001.storeVM env out r ;;
      ret (json_response 200
             (BSuccess true ("VM " +:+ vmId +:+ " restart initiated.")))
  end.

Definition recordEvent (vmId eventType : string)
    (eventData : list (string * string)) : MS unit :=
  stry_catch
    (if negb (chrome_vm_db env) then sthrow (JsError no_binding)
     else insert_event d1_event_throws
            (mkEventRow event_id vmId eventType eventData event_time))
    (fun _ => sret tt).

Definition handleStopVM (vmId : string) : MS Reply :=
  stry_catch
    (vm <- in_world (Part001.getVMFromStorage env out vmId) ;;
     match vm with
     | None => sret (mkReply 404 (SError "VM not found"))
     | Some r =>
         in_world (assign r (set_status Stopped)) ;;
         in_world (assign r (set_lastActivity (Some stop_time))) ;;
         in_world (Part001.storeVM env out r) ;;
         recordEvent vmId "stopped" [("timestamp", event_data_time)] ;;
         v <- in_world (load r) ;;
         sret (mkReply 200
                 (SStopped true "VM stopped successfully" (vm_id v) (vm_name v)
                    (status_string (vm_status v)) (lastActivity v)))
     end)%site
    (fun error =>
       sret (mkReply 500 (SFailure "Failed to stop VM" (error_message error)))).

Definition summary_of (v : VM) : Summary :=
  mkSummary (vm_id v) (vm_name v) (status_string (vm_status v)) (createdAt v)
    (lastActivity v) (instanceType v) (memory v) (cpu v) (storage v)
    (serverName v) (region v).

Definition handleGetVMStatus (vmId : string) : M Reply :=
  try_catch
    (vm <- Part001.getVMFromStorage env out vmId ;;
     match vm with
     | None => ret (mkReply 404 (SError "VM not found"))
     | Some r =>
         rows <- (if negb (chrome_vm_db env) then throw (JsError no_binding)
                  else settle (recent_metrics vmId)) ;;
         metrics <- settle (group_metrics not_a_function rows) ;;
         v <- load r ;;
         ret (mkReply 200
                (SStatus (summary_of v) metrics
                   (if decide (vm_status v = Ready) then "healthy"
                    else "unhealthy")))
     end)
    (fun error =>
       ret (mkReply 500
              (SFailure "Failed to get VM status" (error_message error)))).

End Worker.
End Part001Lifecycle.

(** ** Vocabulary for the further properties *)

(** Every character of [s] is in the class [[A-Za-z0-9_-]]. *)
Fixpoint all_id_chars (s : string) : bool :=
  match s with
  | EmptyString => true
  | String c s' => Js.is_id_char c && all_id_chars s'
  end.

(** An id the route patterns [/^\/vms\/[A-Za-z0-9_-]+\/...$/] accept. *)
Definition pattern_id (s : string) : bool :=
  negb (String.eqb s "") && all_id_chars s.


(** The records [handleGetVMs] answers with. *)
Definition listed (r : outcome Response) : list VM :=
  match r with
  | Ok (mkResponse _ _ (BList vms)) => vms
  | _ => []
  end.

(** The row of the [INSERT INTO vm_events] a stop runs. *)
Definition stop_event (event_id vmId event_data_time event_time : string)
    : EventRow :=
  mkEventRow event_id vmId "stopped" [("timestamp", event_data_time)]
    event_time.

(** The samples of the rows of type [key], in the order of the rows. *)
Definition samples_of (key : string) (rows : list MetricRow) : list Sample :=
  List.map sample_of
    (List.filter (fun row => String.eqb (m_type row) key) rows).

(** The types of the rows. *)
Definition types_of (rows : list MetricRow) : list string :=
  List.map m_type rows.

(** * Facts *)

(** ** Strings *)

Lemma append_nil_l (s : string) : "" +:+ s = s.
Proof. reflexivity. Qed.

Lemma append_cons (c : ascii) (a s : string) :
  String c a +:+ s = String c (a +:+ s).
Proof. reflexivity. Qed.

Lemma prefix_true_iff (p s : string) :
  String.prefix p s = true <-> exists b, s = p +:+ b.
Proof.
  revert s. induction p as [|c p IH]; intros s.
  - split; [intros _; exists s; reflexivity | intros _; destruct s; reflexivity].
  - destruct s as [|d s]; cbn [String.prefix].
    + split; [discriminate | intros [b Hb]; discriminate Hb].
    + destruct (ascii_dec c d) as [->|Hne].
      * rewrite IH. split; intros [b Hb]; exists b.
        -- rewrite append_cons. now f_equal.
        -- rewrite append_cons in Hb. now inversion Hb.
      * split; [discriminate |].
        intros [b Hb]. rewrite append_cons in Hb. inversion Hb. congruence.
Qed.

Lemma includes_true_iff (n s : string) :
  Js.includes n s = true <-> occurs_in n s.
Proof.
  induction s as [|c s IH]; cbn [Js.includes].
  - rewrite orb_false_r, prefix_true_iff. split.
    + intros [b Hb]. exists "", b. exact Hb.
    + intros [a [b Hab]]. destruct a as [|x a]; [now exists b|].
      rewrite append_cons in Hab. discriminate Hab.
  - rewrite orb_true_iff, IH, prefix_true_iff. split.
    + intros [[b Hb]|[a [b Hab]]].
      * exists "", b. exact Hb.
      * exists (String c a), b. rewrite append_cons. now f_equal.
    + intros [a [b Hab]]. destruct a as [|x a].
      * left. now exists b.
      * right. rewrite append_cons in Hab. inversion Hab. now exists a, b.
Qed.

Lemma includes_false_iff (n s : string) :
  Js.includes n s = false <-> ~ occurs_in n s.
Proof.
  rewrite <- includes_true_iff. destruct (Js.includes n s); split; intros H;
    try reflexivity; try discriminate; try (intros ?; discriminate).
  exfalso. now apply H.
Qed.

Example includes_mid : Js.includes "e2-" "xe2-small" = true.
Proof. reflexivity. Qed.
Example endsWith_novnc : Js.endsWith "/novnc" "/vms/abc/novnc" = true.
Proof. reflexivity. Qed.
Example strip_one : Js.stripTrailingSlash "http://u//" = "http://u/".
Proof. reflexivity. Qed.
Example strip_none : Js.stripTrailingSlash "http://u" = "http://u".
Proof. reflexivity. Qed.
Example split_path :
  Js.split_slash "/vms/abc/novnc" = [""; "vms"; "abc"; "novnc"].
Proof. reflexivity. Qed.
Example split_bare : Js.split_slash "/vms/" = [""; "vms"; ""].
Proof. reflexivity. Qed.
Example match_start : Js.match_vms ["/start"] "/vms/vm-1_a/start" = true.
Proof. reflexivity. Qed.
Example match_start_dot : Js.match_vms ["/start"] "/vms/a.b/start" = false.
Proof. reflexivity. Qed.
Example match_start_empty : Js.match_vms ["/start"] "/vms//start" = false.
Proof. reflexivity. Qed.
Example action_nav :
  action_of "/vms/abc/agent/browser/navigate" = "browser/navigate".
Proof. reflexivity. Qed.

(** ** Strategy selection *)

Lemma select_in_fixed_set (t : string) (s : option string) :
  Part001.selectDeploymentStrategy t s = "google_cloud" \/
  Part001.selectDeploymentStrategy t s = "cloudflare".
Proof.
  unfold Part001.selectDeploymentStrategy.
  destruct (Js.includes "e2-" t); [now left|].
  destruct (Js.includes "t3." t); [now right|].
  destruct (decide _); [now left | now right].
Qed.

Lemma select_index_ts_in_fixed_set (t : string) :
  In (IndexTs.selectDeploymentStrategy t) ["cloudflare"; "google_cloud"; "railway"].
Proof.
  unfold IndexTs.selectDeploymentStrategy.
  destruct (Js.includes "e2-" t); [right; now left|].
  destruct (Js.includes "t3." t); [right; right; now left | now left].
Qed.

(** C3, as stated, fails: the rules test for an occurrence anywhere in the
    instance type, not for a prefix, so ["xe2-small"] is sent to the
    cloud-managed backend where the prefix rule selects the edge; and the
    one-argument selector of [index.ts] sends ["t3.medium"] to Railway. *)
Lemma select_prefix_rule_refuted :
  Part001.selectDeploymentStrategy "xe2-small" None = "google_cloud" /\
  select_by_prefix "xe2-small" None = "cloudflare" /\
  IndexTs.selectDeploymentStrategy "t3.medium" = "railway" /\
  ~ (forall t s, Part001.selectDeploymentStrategy t s = select_by_prefix t s).
Proof.
  repeat split; try reflexivity.
  intros H. specialize (H "xe2-small" None). discriminate H.
Qed.

(** C3 (amended): strategy selection is a total function whose value is
    always one of the fixed strategies.  In [part_001] the first matching
    rule wins: an instance type containing ["e2-"] selects the cloud-managed
    backend, else one containing ["t3."] selects the edge, else the server
    preference ["default-google-cloud-server"] selects cloud-managed, else
    the edge; the four sample inputs select cloud-managed, edge,
    cloud-managed and edge.  The selector of [index.ts] reads only the
    instance type: ["e2-"] selects Google Cloud, else ["t3."] selects
    Railway, else Cloudflare. *)
Theorem selectDeploymentStrategy_first_match (t : string) (s : option string) :
  (occurs_in "e2-" t ->
     Part001.selectDeploymentStrategy t s = "google_cloud") /\
  (~ occurs_in "e2-" t -> occurs_in "t3." t ->
     Part001.selectDeploymentStrategy t s = "cloudflare") /\
  (~ occurs_in "e2-" t -> ~ occurs_in "t3." t ->
     s = Some "default-google-cloud-server" ->
     Part001.selectDeploymentStrategy t s = "google_cloud") /\
  (~ occurs_in "e2-" t -> ~ occurs_in "t3." t ->
     s <> Some "default-google-cloud-server" ->
     Part001.selectDeploymentStrategy t s = "cloudflare") /\
  In (Part001.selectDeploymentStrategy t s) ["google_cloud"; "cloudflare"] /\
  Part001.selectDeploymentStrategy "e2-standard-4" None = "google_cloud" /\
  Part001.selectDeploymentStrategy "t3.medium" None = "cloudflare" /\
  Part001.selectDeploymentStrategy "m5.large"
    (Some "default-google-cloud-server") = "google_cloud" /\
  Part001.selectDeploymentStrategy "m5.large" None = "cloudflare" /\
  (occurs_in "e2-" t -> IndexTs.selectDeploymentStrategy t = "google_cloud") /\
  (~ occurs_in "e2-" t -> occurs_in "t3." t ->
     IndexTs.selectDeploymentStrategy t = "railway") /\
  (~ occurs_in "e2-" t -> ~ occurs_in "t3." t ->
     IndexTs.selectDeploymentStrategy t = "cloudflare").
Proof.
  unfold Part001.selectDeploymentStrategy, IndexTs.selectDeploymentStrategy.
  repeat match goal with |- _ /\ _ => split end;
    try reflexivity;
    repeat match goal with
      | |- occurs_in _ _ -> _ =>
          let H := fresh in intros H; apply includes_true_iff in H; rewrite H
      | |- ~ occurs_in _ _ -> _ =>
          let H := fresh in intros H; apply includes_false_iff in H; rewrite H
      end;
    try reflexivity.
  - intros ->. now rewrite decide_True.
  - intros Hs. now rewrite decide_False.
  - destruct (select_in_fixed_set t s) as [E|E];
      unfold Part001.selectDeploymentStrategy in E; rewrite E;
      [now left | right; now left].
Qed.

Lemma selectDeploymentStrategy_first_match_witness :
  occurs_in "e2-" "xe2-small" /\
  Part001.selectDeploymentStrategy "xe2-small" None = "google_cloud".
Proof.
  assert (H : occurs_in "e2-" "xe2-small") by (exists "x", "small"; reflexivity).
  split; [exact H|].
  exact (proj1 (selectDeploymentStrategy_first_match "xe2-small" None) H).
Defined.

(** ** Running the monad *)

Lemma bind_ok {A B} (m : M A) (k : A -> M B) (w w' : World) (a : A) :
  m w = (Ok a, w') -> bind m k w = k a w'.
Proof. unfold bind. now intros ->. Qed.

Lemma bind_throw {A B} (m : M A) (k : A -> M B) (w w' : World) (e : thrown) :
  m w = (Throw e, w') -> bind m k w = (Throw e, w').
Proof. unfold bind. now intros ->. Qed.

Lemma lookup_either_run (vmId : string) (w : World) :
  IndexTs.lookup_either vmId w = (Ok (resolve w vmId), w).
Proof.
  unfold IndexTs.lookup_either, resolve, bind, map_get, ret.
  now destruct (activeVMs w !! vmId).
Qed.

Lemma truthy_Some (o : option string) :
  Js.truthy o = true <-> exists u, o = Some u /\ u <> "".
Proof.
  destruct o as [u|]; cbn.
  - rewrite negb_true_iff. split.
    + intros H. exists u. split; [reflexivity|].
      intros ->. discriminate H.
    + intros [u' [[= <-] Hne]]. now apply String.eqb_neq.
  - split; [discriminate | intros [u [[=] _]]].
Qed.


(** ** The action proxy *)

Lemma strip_append_slash (u : string) : Js.stripTrailingSlash (u +:+ "/") = u.
Proof.
  induction u as [|c u IH]; [reflexivity|].
  rewrite append_cons. cbn [Js.stripTrailingSlash].
  destruct (u +:+ "/") eqn:E.
  - destruct u; discriminate E.
  - now rewrite IH.
Qed.

Lemma strip_keeps (u : string) :
  (forall t, u <> t +:+ "/") -> Js.stripTrailingSlash u = u.
Proof.
  induction u as [|c u IH]; [reflexivity|]. intros H.
  cbn [Js.stripTrailingSlash]. destruct u as [|d u].
  - destruct (Ascii.eqb_spec c "/"%char) as [->|_]; [|reflexivity].
    now contradiction (H "").
  - rewrite IH; [reflexivity|].
    intros t E. apply (H (String c t)). rewrite append_cons. now rewrite <- E.
Qed.

Lemma without_trailing_slash_strip (u base : string) :
  without_trailing_slash u base -> Js.stripTrailingSlash u = base.
Proof.
  intros [->|[-> H]]; [apply strip_append_slash | now apply strip_keeps].
Qed.

(** Every string is one of the two cases. *)
Lemma without_trailing_slash_total (u : string) :
  exists base, without_trailing_slash u base.
Proof.
  induction u as [|c u (base & IH)].
  - exists "". right. split; [reflexivity|].
    intros [|e t] E; [rewrite append_nil_l in E | rewrite append_cons in E];
      discriminate E.
  - destruct u as [|d u].
    + destruct (Ascii.eqb_spec c "/"%char) as [->|Hc].
      * exists "". now left.
      * exists (String c ""). right. split; [reflexivity|].
        intros [|e t] E.
        -- rewrite append_nil_l in E. injection E as E. now apply Hc.
        -- rewrite append_cons in E. injection E as _ E.
           destruct t; [rewrite append_nil_l in E | rewrite append_cons in E];
             discriminate E.
    + destruct IH as [E|[E H]].
      * exists (String c base). left. rewrite append_cons. now rewrite <- E.
      * exists (String c (String d u)). right. split; [reflexivity|].
        intros [|e t] E'; [rewrite append_nil_l in E'; discriminate E'|].
        rewrite append_cons in E'. injection E' as _ E'.
        subst base. now apply (H t).
Qed.

Lemma upstreamPath_listed (a p : string) :
  In (a, p) proxied_actions -> upstreamPath a = Some p.
Proof.
  cbn. intros H.
  repeat (destruct H as [[= <- <-]|H]; [reflexivity|]).
  destruct H.
Qed.

Lemma upstreamPath_unlisted (a : string) :
  ~ In a (List.map fst proxied_actions) -> upstreamPath a = None.
Proof.
  cbn. intros H. unfold upstreamPath.
  repeat match goal with
    | |- context [String.eqb a ?s] =>
        destruct (String.eqb_spec a s) as [->|_]; [exfalso; apply H; tauto|]
    end.
  reflexivity.
Qed.

(** C8: a stored record without an origin agent URL ([undefined] or empty)
    makes the proxy answer 400 'No upstream agent URL' for every action,
    leaving the world, and so the log of upstream calls, as it was. *)
Theorem proxy_without_upstream_is_400 (out : Outside) (w : World)
    (vmId action : string) (request : Request) (r : nat) :
  resolve w vmId = Some r ->
  Js.truthy (originAgentUrl (heap w r)) = false ->
  IndexTs.handleAgentProxy out vmId action request w
    = (Ok (json_response 400 (BError "No upstream agent URL")), w)
  /\ calls (snd (IndexTs.handleAgentProxy out vmId action request w)) = calls w.
Proof.
  intros Hr Hu.
  assert (E : IndexTs.handleAgentProxy out vmId action request w
              = (Ok (json_response 400 (BError "No upstream agent URL")), w)).
  { unfold IndexTs.handleAgentProxy.
    rewrite (bind_ok _ _ _ _ _ (lookup_either_run vmId w)), Hr.
    unfold bind at 1, load. now rewrite Hu. }
  now rewrite E.
Qed.

Lemma proxy_without_upstream_is_400_witness :
  let w := snd (IndexTs.handleGetVM offline "abc" fresh_world) in
  IndexTs.handleAgentProxy offline "abc" "status" (get_path "/vms/abc/agent/status") w
    = (Ok (json_response 400 (BError "No upstream agent URL")), w)
  /\ calls (snd (IndexTs.handleAgentProxy offline "abc" "status"
                   (get_path "/vms/abc/agent/status") w)) = calls w.
Proof.
  intros w.
  apply (proxy_without_upstream_is_400 offline w "abc" "status"
           (get_path "/vms/abc/agent/status") 0).
  - vm_compute. reflexivity.
  - vm_compute. reflexivity.
Defined.

Ltac run :=
  unfold bind, ret, load, assign, map_set, map_get, map_delete, try_catch,
    throw; cbn.

(** C7: for a stored record with a non-empty origin agent URL [u], let
    [base] be [u] with its trailing slash stripped: [u] without its last
    character when [u] ends in a slash, [u] itself otherwise.  Each of the
    five supported actions makes the proxy issue exactly one upstream call,
    to [base] followed by the suffix listed for the action
    ([/browser/navigate], [/browser/restart], [/health], [/run], [/run]),
    and answer with what the upstream answered; any other action is
    answered 400 with the world, and so the call log, untouched. *)
Theorem proxy_maps_actions (out : Outside) (w : World) (vmId : string)
    (request : Request) (r : nat) (u base : string) :
  resolve w vmId = Some r ->
  originAgentUrl (heap w r) = Some u ->
  u <> "" ->
  without_trailing_slash u base ->
  (forall a p, In (a, p) proxied_actions ->
     let c := mkCall (base +:+ p) (req_method request)
                     None (forwarded_body request) in
     IndexTs.handleAgentProxy out vmId a request w
       = (match net out c with
          | Rejects e => Throw e
          | Responds resp =>
              Ok (mkResponse (up_status resp)
                    (Js.or_else (up_contentType resp) (Some "application/json"))
                    (BProxied (up_text resp)))
          end, with_call w c)
     /\ calls (with_call w c) = calls w ++ [c])
  /\ (forall a, ~ In a (List.map fst proxied_actions) ->
        IndexTs.handleAgentProxy out vmId a request w
          = (Ok (json_response 400 (BError "Unsupported agent action")), w)).
Proof.
  intros Hr Hu Hne Hbase.
  assert (Ht : Js.truthy (originAgentUrl (heap w r)) = true).
  { apply truthy_Some. now exists u. }
  split.
  - intros a p Hin c. split; [|reflexivity].
    unfold IndexTs.handleAgentProxy.
    rewrite (bind_ok _ _ _ _ _ (lookup_either_run vmId w)), Hr.
    unfold bind at 1, load. rewrite Ht. cbn [negb].
    rewrite (upstreamPath_listed a p Hin), Hu.
    change (default "" (Some u)) with u.
    rewrite (without_trailing_slash_strip u base Hbase).
    unfold bind, fetch_to, ret. fold (forwarded_body request). fold c.
    unfold with_call. now destruct (net out c).
  - intros a Hout.
    unfold IndexTs.handleAgentProxy.
    rewrite (bind_ok _ _ _ _ _ (lookup_either_run vmId w)), Hr.
    unfold bind at 1, load. rewrite Ht. cbn [negb].
    now rewrite (upstreamPath_unlisted a Hout).
Qed.

Example demo_world_contents :
  resolve world_with_demo sample_id = Some 0 /\
  vm_status (heap world_with_demo 0) = Ready /\
  originAgentUrl (heap world_with_demo 0) = Some "http://u" /\
  containerId (heap world_with_demo 0) = Some "rw-1" /\
  calls world_with_demo
    = [mkCall "https://rw.example/api/vms" "POST" None
         (PRailwayCreate "demo" None)].
Proof. vm_compute. repeat split; reflexivity. Qed.

Example slash_origin_world_contents :
  resolve world_with_slash_origin sample_id = Some 0 /\
  originAgentUrl (heap world_with_slash_origin 0) = Some "http://u/".
Proof. vm_compute. split; reflexivity. Qed.

Lemma proxy_maps_actions_witness :
  let request := get_path "/vms/vm-k3x9q2a1b-lvo1x2y3/agent/status" in
  calls (snd (IndexTs.handleAgentProxy railway_up sample_id "status" request
                world_with_demo))
    = calls world_with_demo ++ [mkCall "http://u/health" "GET" None PNone]
  /\ calls (snd (IndexTs.handleAgentProxy railway_up sample_id "execute" request
                   world_with_demo))
    = calls world_with_demo ++ [mkCall "http://u/run" "GET" None PNone]
  /\ calls (snd (IndexTs.handleAgentProxy railway_up sample_id "status" request
                   world_with_slash_origin))
    = calls world_with_slash_origin
      ++ [mkCall "http://u/health" "GET" None PNone]
  /\ calls (snd (IndexTs.handleAgentProxy railway_up sample_id "restart"
                   request world_with_slash_origin))
    = calls world_with_slash_origin
      ++ [mkCall "http://u/browser/restart" "GET" None PNone]
  /\ IndexTs.handleAgentProxy railway_up sample_id "reboot" request
       world_with_demo
     = (Ok (json_response 400 (BError "Unsupported agent action")),
        world_with_demo).
Proof.
  intros request.
  assert (Hr : resolve world_with_demo sample_id = Some 0)
    by (vm_compute; reflexivity).
  assert (Hu : originAgentUrl (heap world_with_demo 0) = Some "http://u")
    by (vm_compute; reflexivity).
  assert (Hr' : resolve world_with_slash_origin sample_id = Some 0)
    by (vm_compute; reflexivity).
  assert (Hu' : originAgentUrl (heap world_with_slash_origin 0)
                = Some "http://u/")
    by (vm_compute; reflexivity).
  assert (Hne : "http://u" <> "") by (intros H; inversion H).
  assert (Hne' : "http://u/" <> "") by (intros H; inversion H).
  assert (Hb : without_trailing_slash "http://u" "http://u").
  { right. split; [reflexivity|]. intros t E.
    do 8 (destruct t as [|? t];
          [rewrite append_nil_l in E; discriminate E|];
          rewrite append_cons in E; injection E as _ E).
    destruct t; [rewrite append_nil_l in E | rewrite append_cons in E];
      discriminate E. }
  assert (Hb' : without_trailing_slash "http://u/" "http://u")
    by (left; reflexivity).
  destruct (proxy_maps_actions railway_up world_with_demo sample_id request
              0 "http://u" "http://u" Hr Hu Hne Hb) as [Hlisted Hother].
  destruct (proxy_maps_actions railway_up world_with_slash_origin sample_id
              request 0 "http://u/" "http://u" Hr' Hu' Hne' Hb')
    as [Hlisted' _].
  split; [|split; [|split; [|split]]].
  - destruct (Hlisted "status" "/health") as [E _].
    { cbn. tauto. }
    rewrite E. reflexivity.
  - destruct (Hlisted "execute" "/run") as [E _].
    { cbn. tauto. }
    rewrite E. reflexivity.
  - destruct (Hlisted' "status" "/health") as [E _].
    { cbn. tauto. }
    rewrite E. reflexivity.
  - destruct (Hlisted' "restart" "/browser/restart") as [E _].
    { cbn. tauto. }
    rewrite E. reflexivity.
  - apply Hother. cbn. intros H.
    repeat (destruct H as [H|H]; [discriminate H|]). exact H.
Defined.

(** ** Store and lifecycle transitions of [index.ts] *)

Lemma storeVM_run (r : nat) (w : World) :
  IndexTs.storeVM r w
  = (Ok tt, mkWorld (heap w) (next w)
              (<[alias_key (vm_id (heap w r)) := r]>
                 (<[vm_id (heap w r) := r]> (activeVMs w)))
              (d1 w) (calls w) (garbled w)).
Proof. reflexivity. Qed.

Lemma lookup_both_keys (m : gmap string nat) (k : string) (r : nat) :
  <[alias_key k := r]> (<[k := r]> m) !! k = Some r /\
  <[alias_key k := r]> (<[k := r]> m) !! alias_key k = Some r.
Proof.
  split; [|apply lookup_insert_eq].
  rewrite lookup_insert. case_decide; [reflexivity|apply lookup_insert_eq].
Qed.

Lemma signal_restart_run (out : Outside) (r : nat) (w : World) :
  IndexTs.signal_restart out r w
  = (Ok tt, mkWorld (heap w) (next w) (activeVMs w) (d1 w)
              (calls w ++ restart_signal (heap w r)) (garbled w)).
Proof.
  unfold IndexTs.signal_restart, restart_signal. run.
  destruct (Js.truthy (originAgentUrl (heap w r))).
  - unfold fetch_to. now destruct (net out _).
  - rewrite app_nil_r. now destruct w.
Qed.

Lemma transition_run (out : Outside) (st : Status) (r : nat) (w : World)
    (resp : Response) :
  exists w1,
    (IndexTs.signal_restart out r ;;
     assign r (set_status st) ;;
     assign r (set_lastActivity (Some (now out))) ;;
     IndexTs.storeVM r ;;
     ret resp)%worker w = (Ok resp, w1)
    /\ heap w1 r = transitioned st (now out) (heap w r)
    /\ (forall r', r' <> r -> heap w1 r' = heap w r')
    /\ activeVMs w1 = <[alias_key (vm_id (heap w r)) := r]>
                        (<[vm_id (heap w r) := r]> (activeVMs w))
    /\ calls w1 = calls w ++ restart_signal (heap w r)
    /\ next w1 = next w.
Proof.
  rewrite (bind_ok _ _ _ _ _ (signal_restart_run out r w)).
  unfold IndexTs.storeVM. run. rewrite !Nat.eqb_refl. cbn.
  eexists. split; [reflexivity|]. cbn. rewrite Nat.eqb_refl.
  repeat split.
  intros r' Hne. apply Nat.eqb_neq in Hne. now rewrite Hne.
Qed.

(** C9: start and restart answer 404 and change nothing when the id is
    filed under neither its own key nor its alias key.  Otherwise, whatever
    the network does, they answer 200 with a success body; the record is in
    status [ready] (start) or [initializing] (restart) with [lastActivity]
    stamped; it is filed under both keys of its id; and the only upstream
    call is the restart signal, sent when the record has an origin agent
    URL, whose failure never shows. *)
Theorem start_restart_lifecycle (out : Outside) (w : World) (vmId : string) :
  (resolve w vmId = None ->
     IndexTs.handleStartVM out vmId w
       = (Ok (json_response 404 (BError "VM not found")), w) /\
     IndexTs.handleRestartVM out vmId w
       = (Ok (json_response 404 (BError "VM not found")), w))
  /\ (forall r, resolve w vmId = Some r ->
        exists w1 w2,
          IndexTs.handleStartVM out vmId w
            = (Ok (json_response 200
                     (BSuccess true ("VM " +:+ vmId +:+ " started."))), w1)
          /\ heap w1 r = transitioned Ready (now out) (heap w r)
          /\ resolve w1 (vm_id (heap w r)) = Some r
          /\ activeVMs w1 !! alias_key (vm_id (heap w r)) = Some r
          /\ calls w1 = calls w ++ restart_signal (heap w r)
          /\ IndexTs.handleRestartVM out vmId w
            = (Ok (json_response 200
                     (BSuccess true ("VM " +:+ vmId +:+ " restart initiated."))),
               w2)
          /\ heap w2 r = transitioned Initializing (now out) (heap w r)
          /\ resolve w2 (vm_id (heap w r)) = Some r
          /\ activeVMs w2 !! alias_key (vm_id (heap w r)) = Some r
          /\ calls w2 = calls w ++ restart_signal (heap w r)).
Proof.
  split.
  - intros Hr. unfold IndexTs.handleStartVM, IndexTs.handleRestartVM.
    rewrite !(bind_ok _ _ _ _ _ (lookup_either_run vmId w)), Hr.
    split; reflexivity.
  - intros r Hr.
    destruct (transition_run out Ready r w
                (json_response 200
                   (BSuccess true ("VM " +:+ vmId +:+ " started."))))
      as (w1 & E1 & Hh1 & _ & Hm1 & Hc1 & _).
    destruct (transition_run out Initializing r w
                (json_response 200
                   (BSuccess true ("VM " +:+ vmId +:+ " restart initiated."))))
      as (w2 & E2 & Hh2 & _ & Hm2 & Hc2 & _).
    exists w1, w2.
    unfold IndexTs.handleStartVM, IndexTs.handleRestartVM.
    rewrite !(bind_ok _ _ _ _ _ (lookup_either_run vmId w)), Hr.
    destruct (lookup_both_keys (activeVMs w) (vm_id (heap w r)) r) as [Hk Ha].
    unfold resolve. rewrite Hm1, Hm2, Hk.
    repeat split; assumption.
Qed.

Lemma start_restart_lifecycle_witness :
  IndexTs.handleStartVM offline "nope" world_with_demo
    = (Ok (json_response 404 (BError "VM not found")), world_with_demo)
  /\ exists w1 w2,
       IndexTs.handleStartVM offline sample_id world_with_demo
         = (Ok (json_response 200
                  (BSuccess true "VM vm-k3x9q2a1b-lvo1x2y3 started.")), w1)
       /\ vm_status (heap w1 0) = Ready
       /\ lastActivity (heap w1 0) = Some (now offline)
       /\ calls w1 = calls world_with_demo
                     ++ [mkCall "http://u/browser/restart" "POST" None PNone]
       /\ IndexTs.handleRestartVM offline sample_id world_with_demo
         = (Ok (json_response 200
                  (BSuccess true "VM vm-k3x9q2a1b-lvo1x2y3 restart initiated.")),
            w2)
       /\ vm_status (heap w2 0) = Initializing.
Proof.
  split.
  - apply (proj1 (start_restart_lifecycle offline world_with_demo "nope")).
    vm_compute. reflexivity.
  - destruct (proj2 (start_restart_lifecycle offline world_with_demo sample_id) 0)
      as (w1 & w2 & E1 & Hh1 & _ & _ & Hc1 & E2 & Hh2 & _).
    { vm_compute. reflexivity. }
    exists w1, w2. rewrite Hh1, Hh2, Hc1.
    repeat split; try assumption; reflexivity.
Defined.

(** ** Provisioning in [index.ts] *)

Lemma same_but_refl (r : nat) (w : World) : same_but r w w.
Proof. now repeat split. Qed.

Lemma same_but_trans (r : nat) (w w1 w2 : World) :
  same_but r w w1 -> same_but r w1 w2 -> same_but r w w2.
Proof.
  intros (Hf1 & Hm1 & Hd1 & Hn1) (Hf2 & Hm2 & Hd2 & Hn2).
  repeat split; try congruence.
  intros r' Hne. now rewrite (Hf2 r' Hne), (Hf1 r' Hne).
Qed.

Lemma assign_run (r : nat) (f : VM -> VM) (w : World) :
  exists w1,
    assign r f w = (Ok tt, w1)
    /\ heap w1 r = f (heap w r)
    /\ same_but r w w1 /\ calls w1 = calls w.
Proof.
  eexists. split; [reflexivity|]. cbn. rewrite Nat.eqb_refl.
  repeat split. intros r' Hne. cbn. apply Nat.eqb_neq in Hne. now rewrite Hne.
Qed.

(** One assignment followed by the rest of a block. *)
Lemma assign_then (r : nat) (f : VM -> VM) (k : M unit) (w : World)
    (v : VM) :
  (forall w0, heap w0 r = f (heap w r) -> same_but r w w0 ->
     calls w0 = calls w ->
     exists w1, k w0 = (Ok tt, w1) /\ heap w1 r = v
                /\ same_but r w0 w1 /\ calls w1 = calls w0) ->
  exists w1, (assign r f ;; k)%worker w = (Ok tt, w1) /\ heap w1 r = v
             /\ same_but r w w1 /\ calls w1 = calls w.
Proof.
  intros Hk. destruct (assign_run r f w) as (w0 & E & Hh & Hs & Hc).
  destruct (Hk w0 Hh Hs Hc) as (w1 & E1 & Hh1 & Hs1 & Hc1).
  exists w1. rewrite (bind_ok _ _ _ _ _ E).
  split; [exact E1|]. split; [exact Hh1|].
  split; [apply (same_but_trans r w w0 w1 Hs Hs1) | congruence].
Qed.

Lemma apply_descriptor_run (r : nat) (d : Descriptor) (stamp : string)
    (w : World) :
  exists w1,
    apply_descriptor r d stamp w = (Ok tt, w1)
    /\ heap w1 r = described d stamp (heap w r)
    /\ same_but r w w1 /\ calls w1 = calls w.
Proof.
  unfold apply_descriptor.
  repeat (apply assign_then; let H := fresh "H" in intros ? H _ _).
  eexists. split; [reflexivity|].
  split; [|split; [apply same_but_refl | reflexivity]].
  repeat match goal with
    | H : heap _ r = _ |- _ => rewrite H; clear H
    end.
  reflexivity.
Qed.


Lemma railway_run (env : Env) (out : Outside) (r : nat) (w : World) :
  exists res w1,
    IndexTs.createRailwayVM env out r w = (res, w1)
    /\ heap w1 = heap w /\ activeVMs w1 = activeVMs w /\ next w1 = next w
    /\ (forall d, res = Ok d ->
          r_agentUrl d = Some (public_agent (vm_id (heap w r)))).
Proof.
  unfold IndexTs.createRailwayVM. run.
  destruct (Js.truthy (RAILWAY_VM_SERVER_URL env)).
  - unfold fetch_to. destruct (net out _) as [e|resp]; cbn.
    + do 2 eexists. split; [reflexivity|]. repeat split. discriminate.
    + destruct (up_ok resp); cbn.
      * unfold json_of. destruct (up_json resp) as [data|e]; cbn.
        -- do 2 eexists. split; [reflexivity|]. repeat split.
           now intros d [= <-].
        -- do 2 eexists. split; [reflexivity|]. repeat split. discriminate.
      * do 2 eexists. split; [reflexivity|]. repeat split. discriminate.
  - do 2 eexists. split; [reflexivity|]. repeat split. now intros d [= <-].
Qed.

Lemma backend_for_run (env : Env) (out : Outside) (strategy : string)
    (r : nat) (w : World) :
  exists res w1,
    IndexTs.backend_for env out strategy r w = (res, w1)
    /\ heap w1 = heap w /\ activeVMs w1 = activeVMs w /\ next w1 = next w
    /\ (forall d, res = Ok d ->
          r_agentUrl d = Some (public_agent (vm_id (heap w r)))).
Proof.
  unfold IndexTs.backend_for.
  destruct (String.eqb strategy "cloudflare");
    [|destruct (String.eqb strategy "google_cloud");
      [|destruct (String.eqb strategy "railway")]];
    try apply railway_run;
    (do 2 eexists; split; [reflexivity|]; repeat split; now intros d [= <-]).
Qed.

Lemma createRealVM_after_backend (env : Env) (out : Outside) (r : nat)
    (w w0 : World) (res : outcome Descriptor) :
  IndexTs.backend_for env out
    (IndexTs.selectDeploymentStrategy (effective_type (heap w r))) r w
    = (res, w0) ->
  heap w0 = heap w -> activeVMs w0 = activeVMs w -> next w0 = next w ->
  exists w1,
    IndexTs.createRealVM env out r w = (Ok tt, w1)
    /\ heap w1 r = match res with
                   | Ok d => described d (now out) (heap w r)
                   | Throw e => failed e (heap w r)
                   end
    /\ (forall r', r' <> r -> heap w1 r' = heap w r')
    /\ activeVMs w1 = <[alias_key (vm_id (heap w r)) := r]>
                        (<[vm_id (heap w r) := r]> (activeVMs w))
    /\ next w1 = next w.
Proof.
  intros E Hh Hm Hn.
  unfold IndexTs.createRealVM, try_catch.
  unfold bind at 1, load. fold (effective_type (heap w r)).
  destruct res as [d|e].
  - rewrite (bind_ok _ _ _ _ _ E).
    destruct (apply_descriptor_run r d (now out) w0)
      as (w1 & E1 & Hh1 & (Hf1 & Hm1 & _ & Hn1) & _).
    rewrite (bind_ok _ _ _ _ _ E1), storeVM_run.
    eexists. split; [reflexivity|]. cbn [heap activeVMs next].
    rewrite Hh1, Hm1, Hm, Hh, Hn1, Hn.
    repeat split. intros r' Hne. rewrite (Hf1 r' Hne). now rewrite Hh.
  - rewrite (bind_throw _ _ _ _ _ E).
    destruct (assign_run r (set_status Error) w0)
      as (wa & Ea & Hha & (Hfa & Hma & _ & Hna) & _).
    rewrite (bind_ok _ _ _ _ _ Ea).
    destruct (assign_run r (set_error (Some (error_message e))) wa)
      as (wb & Eb & Hhb & (Hfb & Hmb & _ & Hnb) & _).
    rewrite (bind_ok _ _ _ _ _ Eb), storeVM_run.
    eexists. split; [reflexivity|]. cbn [heap activeVMs next].
    rewrite Hhb, Hha, Hmb, Hma, Hm, Hh, Hnb, Hna, Hn.
    repeat split. intros r' Hne.
    rewrite (Hfb r' Hne), (Hfa r' Hne). now rewrite Hh.
Qed.

Lemma createRealVM_run (env : Env) (out : Outside) (r : nat) (w : World) :
  exists w1,
    IndexTs.createRealVM env out r w = (Ok tt, w1)
    /\ ((exists d, heap w1 r = described d (now out) (heap w r)
                   /\ r_agentUrl d = Some (public_agent (vm_id (heap w r))))
        \/ (exists e, heap w1 r = failed e (heap w r)))
    /\ (forall r', r' <> r -> heap w1 r' = heap w r')
    /\ activeVMs w1 = <[alias_key (vm_id (heap w r)) := r]>
                        (<[vm_id (heap w r) := r]> (activeVMs w))
    /\ next w1 = next w.
Proof.
  destruct (backend_for_run env out
              (IndexTs.selectDeploymentStrategy (effective_type (heap w r))) r w)
    as (res & w0 & E & Hh & Hm & Hn & Hd).
  destruct (createRealVM_after_backend env out r w w0 res E Hh Hm Hn)
    as (w1 & E1 & Hr & Hf & Hm1 & Hn1).
  exists w1. split; [exact E1|]. split; [|now repeat split].
  destruct res as [d|e].
  - left. exists d. split; [exact Hr|]. now apply Hd.
  - right. now exists e.
Qed.

Lemma handleGetVM_stored (out : Outside) (vmId : string) (r : nat) (w : World) :
  resolve w vmId = Some r ->
  IndexTs.handleGetVM out vmId w = (Ok (json_response 200 (BRecord (heap w r))), w).
Proof.
  unfold resolve, IndexTs.handleGetVM, IndexTs.getVMFromStorage. run.
  destruct (activeVMs w !! vmId) as [r0|]; cbn.
  - now intros [= ->].
  - intros ->. reflexivity.
Qed.

Lemma handleCreateVM_run (env : Env) (out : Outside) (request : Request)
    (body : CreateBody) (w : World) :
  req_json request = Ok body ->
  Js.truthy (b_name body) = true ->
  let r := next w in
  let v0 := initial_record (generateVMId out) (default "" (b_name body))
              (now out)
              (match b_instanceType body with
               | None => Some "t3.medium"
               | Some t => Some t
               end) (b_server_id body) in
  exists w1,
    IndexTs.handleCreateVM env out request w
      = (Ok (json_response 201
               (BCreated "VM creation started" (generateVMId out)
                  (status_string (vm_status (heap w1 r))) "2-5 minutes")), w1)
    /\ resolve w1 (generateVMId out) = Some r
    /\ activeVMs w1 !! alias_key (generateVMId out) = Some r
    /\ ((exists d, heap w1 r = described d (now out) v0
                   /\ r_agentUrl d = Some (public_agent (generateVMId out)))
        \/ (exists e, heap w1 r = failed e v0))
    /\ (forall r', r' <> r -> heap w1 r' = heap w r')
    /\ next w1 = S (next w).
Proof.
  intros Hj Hn r v0.
  unfold IndexTs.handleCreateVM, try_catch.
  rewrite Hj. unfold settle. unfold bind at 1, ret at 1. rewrite Hn. cbn [negb].
  unfold bind at 1, new_object. fold v0. fold r.
  set (w' := mkWorld _ _ _ _ _ _).
  assert (Hv0 : heap w' r = v0) by (cbn; now rewrite Nat.eqb_refl).
  destruct (createRealVM_run env out r w') as (w1 & E & Hcase & Hf & Hm & Hnx).
  rewrite (bind_ok _ _ _ _ _ E), Hv0 in *.
  assert (Hid : vm_id (heap w1 r) = generateVMId out).
  { destruct Hcase as [(d & -> & _)|(e & ->)]; reflexivity. }
  rewrite (bind_ok _ _ _ _ _ (storeVM_run r w1)). run. rewrite Hid.
  match goal with |- exists _, (_, ?W) = _ /\ _ => exists W end.
  split; [reflexivity|]. cbn.
  destruct (lookup_both_keys (activeVMs w1) (generateVMId out) r) as [Hk Ha].
  unfold resolve. cbn. rewrite Hk.
  repeat split; try assumption.
  intros r' Hne. rewrite (Hf r' Hne). subst w'. cbn.
  apply Nat.eqb_neq in Hne. now rewrite Hne.
Qed.

(** C1: a create request whose body parses and carries a non-empty name is
    always answered 201 'VM creation started', whatever provisioning did;
    a get on the returned id right after it answers 200 with a record whose
    status is [ready] or [error], and an [error] record carries the caught
    message. *)
Theorem create_then_get_is_settled (env : Env) (out : Outside)
    (request : Request) (body : CreateBody) (w : World) :
  req_json request = Ok body ->
  Js.truthy (b_name body) = true ->
  exists w1 v,
    IndexTs.handleCreateVM env out request w
      = (Ok (json_response 201
               (BCreated "VM creation started" (generateVMId out)
                  (status_string (vm_status v)) "2-5 minutes")), w1)
    /\ (forall out',
          IndexTs.handleGetVM out' (generateVMId out) w1
          = (Ok (json_response 200 (BRecord v)), w1))
    /\ vm_id v = generateVMId out
    /\ (vm_status v = Ready \/ vm_status v = Error)
    /\ vm_status v <> Initializing
    /\ (vm_status v = Error -> exists e, vm_error v = Some (error_message e)).
Proof.
  intros Hj Hn.
  destruct (handleCreateVM_run env out request body w Hj Hn)
    as (w1 & E & Hr & _ & Hcase & _).
  exists w1, (heap w1 (next w)).
  split; [exact E|].
  split; [intros out'; now apply handleGetVM_stored|].
  destruct Hcase as [(d & -> & _)|(e & ->)]; cbn.
  - repeat split; [now left | discriminate | discriminate].
  - repeat split; [now right | discriminate |]. intros _. now exists e.
Qed.

Lemma create_then_get_is_settled_witness :
  exists w1 v,
    IndexTs.handleCreateVM railway_env (answering 500 "boom" ∅)
        (post_vms "demo" None) fresh_world
      = (Ok (json_response 201
               (BCreated "VM creation started" sample_id
                  (status_string (vm_status v)) "2-5 minutes")), w1)
    /\ (forall out',
          IndexTs.handleGetVM out' sample_id w1
          = (Ok (json_response 200 (BRecord v)), w1))
    /\ vm_id v = sample_id
    /\ (vm_status v = Ready \/ vm_status v = Error)
    /\ vm_status v <> Initializing
    /\ (vm_status v = Error -> exists e, vm_error v = Some (error_message e)).
Proof.
  apply (create_then_get_is_settled railway_env (answering 500 "boom" ∅)
           (post_vms "demo" None)
           (mkCreateBody (Some "demo") None None None) fresh_world);
    reflexivity.
Defined.

(** Provisioning that throws: the Railway server answers 500, the create
    request is still acknowledged with 201, and the record read back is in
    status [error] with the message of the exception. *)
Example create_acknowledged_when_provisioning_throws :
  let out := answering 500 "boom" ∅ in
  let '(resp, w1) :=
    IndexTs.handleCreateVM railway_env out (post_vms "demo" None) fresh_world in
  resp = Ok (json_response 201
               (BCreated "VM creation started" sample_id "error" "2-5 minutes"))
  /\ exists v,
       fst (IndexTs.handleGetVM out sample_id w1)
         = Ok (json_response 200 (BRecord v))
       /\ vm_status v = Error
       /\ vm_error v = Some "Railway VM server create failed: 500 boom".
Proof.
  vm_compute. split; [reflexivity|]. eexists. repeat split; reflexivity.
Qed.

(** ** Origin agent URL of provisioned records *)



(** ** Lookups of ids the store does not hold *)

Lemma resolve_None (w : World) (vmId : string) :
  resolve w vmId = None <->
  activeVMs w !! vmId = None /\ activeVMs w !! alias_key vmId = None.
Proof.
  unfold resolve. destruct (activeVMs w !! vmId); split.
  - discriminate.
  - intros [H _]. discriminate H.
  - intros H. now split.
  - now intros [_ H].
Qed.

Lemma handleGetVM_unknown (out : Outside) (vmId : string) (w : World) :
  resolve w vmId = None ->
  exists w1,
    IndexTs.handleGetVM out vmId w
      = (Ok (json_response 200 (BRecord (mockVM vmId (now out)))), w1)
    /\ heap w1 (next w) = mockVM vmId (now out)
    /\ (forall r', r' <> next w -> heap w1 r' = heap w r')
    /\ resolve w1 vmId = Some (next w)
    /\ activeVMs w1 !! alias_key vmId = Some (next w).
Proof.
  intros Hr. apply resolve_None in Hr as [Hk Ha].
  unfold IndexTs.handleGetVM, IndexTs.getVMFromStorage, IndexTs.storeVM.
  unfold new_object. run. rewrite Hk. cbn. rewrite Ha. cbn.
  rewrite !Nat.eqb_refl. cbn.
  eexists. split; [reflexivity|]. cbn. rewrite Nat.eqb_refl.
  destruct (lookup_both_keys (activeVMs w) vmId (next w)) as [Hk' Ha'].
  unfold resolve. cbn. rewrite Hk'. repeat split; try assumption.
  intros r' Hne. apply Nat.eqb_neq in Hne. now rewrite Hne.
Qed.

Lemma handleGetVM_total (out : Outside) (vmId : string) (w : World) :
  exists v w1,
    IndexTs.handleGetVM out vmId w = (Ok (json_response 200 (BRecord v)), w1).
Proof.
  destruct (resolve w vmId) as [r|] eqn:Hr.
  - exists (heap w r), w. now apply handleGetVM_stored.
  - destruct (handleGetVM_unknown out vmId w Hr) as (w1 & E & _).
    now exists (mockVM vmId (now out)), w1.
Qed.

Lemma handleDeleteVM_run (vmId : string) (r : nat) (w : World) :
  resolve w vmId = Some r ->
  exists w1,
    IndexTs.handleDeleteVM vmId w
      = (Ok (json_response 200 (BDeleted "VM deleted successfully" vmId)), w1)
    /\ heap w1 r = set_status Stopped (heap w r)
    /\ activeVMs w1 = delete (alias_key vmId) (delete vmId (activeVMs w))
    /\ next w1 = next w.
Proof.
  intros Hr. unfold IndexTs.handleDeleteVM.
  rewrite (bind_ok _ _ _ _ _ (lookup_either_run vmId w)), Hr. run.
  eexists. split; [reflexivity|]. cbn. now rewrite Nat.eqb_refl.
Qed.

Lemma deleted_keys_absent (m : gmap string nat) (k : string) :
  delete (alias_key k) (delete k m) !! k = None /\
  delete (alias_key k) (delete k m) !! alias_key k = None.
Proof.
  split; [|apply lookup_delete_eq].
  rewrite lookup_delete. case_decide; [reflexivity|apply lookup_delete_eq].
Qed.

(** C6, as stated, fails: right after a successful [DELETE] of the sample
    VM, [GET] on the same id answers 200 with a made-up record, not 404. *)
Lemma get_after_delete_is_not_404 :
  let '(deleted, w1) := IndexTs.handleDeleteVM sample_id world_with_demo in
  let '(got, w2) := IndexTs.handleGetVM offline sample_id w1 in
  deleted = Ok (json_response 200
                  (BDeleted "VM deleted successfully" sample_id))
  /\ resolve w1 sample_id = None
  /\ got = Ok (json_response 200
                 (BRecord (mockVM sample_id (now offline))))
  /\ got <> Ok (json_response 404 (BError "VM not found"))
  /\ resolve w2 sample_id = Some 1.
Proof.
  vm_compute. repeat split; try reflexivity. discriminate.
Qed.

(** C6 (amended): for an id filed under neither its own key nor its alias
    key, [GET /vms/{id}] answers 200 with a newly made placeholder record
    ('Mock VM {id}', status [ready]), which it files under both keys; it
    never answers 404.  A successful [DELETE /vms/{id}] marks the record
    [stopped] and removes both keys, so a lookup of the id or of its alias
    key in the store finds nothing and the next [GET] answers with the
    placeholder, not with the deleted record.  [DELETE] on an id the store
    does not hold answers 404. *)
Theorem get_unknown_answers_placeholder (out : Outside) (w : World)
    (vmId : string) :
  (resolve w vmId = None ->
     (exists w1,
        IndexTs.handleGetVM out vmId w
          = (Ok (json_response 200 (BRecord (mockVM vmId (now out)))), w1)
        /\ resolve w1 vmId = Some (next w)
        /\ activeVMs w1 !! alias_key vmId = Some (next w)
        /\ heap w1 (next w) = mockVM vmId (now out))
     /\ IndexTs.handleDeleteVM vmId w
          = (Ok (json_response 404 (BError "VM not found")), w))
  /\ (forall r, resolve w vmId = Some r ->
        exists w1 w2,
          IndexTs.handleDeleteVM vmId w
            = (Ok (json_response 200
                     (BDeleted "VM deleted successfully" vmId)), w1)
          /\ vm_status (heap w1 r) = Stopped
          /\ activeVMs w1 !! vmId = None
          /\ activeVMs w1 !! alias_key vmId = None
          /\ IndexTs.handleGetVM out vmId w1
            = (Ok (json_response 200 (BRecord (mockVM vmId (now out)))), w2)
          /\ mockVM vmId (now out) <> heap w1 r).
Proof.
  split.
  - intros Hr. split.
    + destruct (handleGetVM_unknown out vmId w Hr) as (w1 & E & Hh & _ & Hk & Ha).
      now exists w1.
    + unfold IndexTs.handleDeleteVM.
      now rewrite (bind_ok _ _ _ _ _ (lookup_either_run vmId w)), Hr.
  - intros r Hr.
    destruct (handleDeleteVM_run vmId r w Hr) as (w1 & E & Hh & Hm & _).
    destruct (deleted_keys_absent (activeVMs w) vmId) as [Hk Ha].
    rewrite <- Hm in Hk, Ha.
    assert (Hr1 : resolve w1 vmId = None) by now apply resolve_None.
    destruct (handleGetVM_unknown out vmId w1 Hr1) as (w2 & E2 & _).
    exists w1, w2. rewrite Hh. repeat split; try assumption.
    intros Heq. apply (f_equal vm_status) in Heq. discriminate Heq.
Qed.

Lemma get_unknown_answers_placeholder_witness :
  (exists w1,
     IndexTs.handleGetVM offline "abc" fresh_world
       = (Ok (json_response 200 (BRecord (mockVM "abc" (now offline)))), w1)
     /\ resolve w1 "abc" = Some 0
     /\ activeVMs w1 !! alias_key "abc" = Some 0
     /\ heap w1 0 = mockVM "abc" (now offline))
  /\ exists w1 w2,
       IndexTs.handleDeleteVM sample_id world_with_demo
         = (Ok (json_response 200
                  (BDeleted "VM deleted successfully" sample_id)), w1)
       /\ vm_status (heap w1 0) = Stopped
       /\ activeVMs w1 !! sample_id = None
       /\ activeVMs w1 !! alias_key sample_id = None
       /\ IndexTs.handleGetVM offline sample_id w1
         = (Ok (json_response 200
                  (BRecord (mockVM sample_id (now offline)))), w2)
       /\ mockVM sample_id (now offline) <> heap w1 0.
Proof.
  split.
  - apply (proj1 (get_unknown_answers_placeholder offline fresh_world "abc")).
    vm_compute. reflexivity.
  - apply (proj2 (get_unknown_answers_placeholder offline world_with_demo
                    sample_id)).
    vm_compute. reflexivity.
Defined.

(** ** The alias invariant *)

Lemma length_append (a b : string) :
  String.length (a +:+ b) = String.length a + String.length b.
Proof.
  induction a as [|c a IH]; [reflexivity|].
  rewrite append_cons. cbn. now rewrite IH.
Qed.

Lemma alias_key_neq (k : string) : alias_key k <> k.
Proof.
  intros H. apply (f_equal String.length) in H.
  unfold alias_key in H. rewrite length_append in H. cbn in H. lia.
Qed.

Lemma storeVM_aliased (r : nat) (w : World) :
  aliased (snd (IndexTs.storeVM r w)) (vm_id (heap w r))
  /\ activeVMs (snd (IndexTs.storeVM r w)) !! vm_id (heap w r) = Some r.
Proof.
  rewrite storeVM_run. unfold aliased. cbn.
  destruct (lookup_both_keys (activeVMs w) (vm_id (heap w r)) r) as [-> ->].
  now split.
Qed.


Lemma handleDeleteVM_aliased (vmId : string) (w : World) :
  aliased (snd (IndexTs.handleDeleteVM vmId w)) vmId \/
  resolve w vmId = None.
Proof.
  destruct (resolve w vmId) as [r|] eqn:Hr; [left|now right].
  destruct (handleDeleteVM_run vmId r w Hr) as (w1 & -> & _ & Hm & _).
  unfold aliased. cbn. rewrite Hm.
  now destruct (deleted_keys_absent (activeVMs w) vmId) as [-> ->].
Qed.

(** C5 fails on the read-through path of [part_001]: a record found only in
    D1 is cached under its id alone.  With the D1 binding present and the
    [SELECT] not throwing, a get on an id that the in-memory map holds under
    neither key but D1 holds as a row returns a new object built from the
    row, files it under the id, and leaves the alias key absent, so the
    alias invariant does not hold at that id afterwards. *)
Theorem cached_row_breaks_alias (env : Env) (out : Outside) (w : World)
    (vmId : string) (row : VM) :
  chrome_vm_db env = true ->
  d1_first_throws out = None ->
  resolve w vmId = None ->
  d1 w !! vmId = Some row ->
  exists w1,
    Part001.getVMFromStorage env out vmId w = (Ok (Some (next w)), w1)
    /\ heap w1 (next w) = row
    /\ activeVMs w1 !! vmId = Some (next w)
    /\ activeVMs w1 !! alias_key vmId = None
    /\ ~ aliased w1 vmId.
Proof.
  intros Hdb Hthrow Hr Hrow. apply resolve_None in Hr as [Hk Ha].
  unfold Part001.getVMFromStorage, Part001.from_database, Part001.d1_first.
  unfold new_object. run. rewrite Hk. cbn. rewrite Ha. cbn.
  rewrite Hdb, Hthrow. cbn. rewrite Hrow. cbn.
  eexists. split; [reflexivity|]. cbn. rewrite Nat.eqb_refl.
  assert (Hal : <[vmId := next w]> (activeVMs w) !! alias_key vmId = None).
  { rewrite lookup_insert_ne; [exact Ha|]. intros E. symmetry in E.
    now apply alias_key_neq in E. }
  unfold aliased. cbn. rewrite lookup_insert_eq, Hal.
  repeat split. discriminate.
Qed.

Lemma cached_row_breaks_alias_witness :
  exists w1,
    Part001.getVMFromStorage d1_env offline "abc" (world_with_row abc_row)
      = (Ok (Some 0), w1)
    /\ heap w1 0 = abc_row
    /\ activeVMs w1 !! "abc" = Some 0
    /\ activeVMs w1 !! alias_key "abc" = None
    /\ ~ aliased w1 "abc".
Proof.
  apply (cached_row_breaks_alias d1_env offline (world_with_row abc_row)
           "abc" abc_row); vm_compute; reflexivity.
Defined.

(** The same run, evaluated: [GET /vms/abc] on a worker that just started
    with the row in D1. *)
Example cached_row_run :
  let '(res, w1) :=
    Part001.handleGetVM d1_env offline "abc" (world_with_row abc_row) in
  res = Ok (json_response 200 (BRecord abc_row))
  /\ activeVMs w1 !! "abc" = Some 0
  /\ activeVMs w1 !! "working-vm-abc" = None.
Proof. vm_compute. repeat split; reflexivity. Qed.

(** Keys that are themselves alias keys defeat the invariant on the write
    and delete paths too: after [DELETE /vms/working-vm-{id}] the record is
    still filed under its id but no longer under its alias. *)
Example delete_by_alias_key_drifts :
  let w1 := snd (IndexTs.handleDeleteVM (alias_key sample_id) world_with_demo) in
  activeVMs w1 !! sample_id = Some 0
  /\ activeVMs w1 !! alias_key sample_id = None.
Proof. vm_compute. split; reflexivity. Qed.

(** ** Route dispatch *)

Lemma append_assoc (a b c : string) : (a +:+ b) +:+ c = a +:+ b +:+ c.
Proof. induction a as [|x a IH]; [reflexivity|]. rewrite !append_cons. now f_equal. Qed.

Lemma endsWith_append (suf a : string) : Js.endsWith suf (a +:+ suf) = true.
Proof.
  induction a as [|c a IH].
  - rewrite append_nil_l. destruct suf; cbn; [reflexivity|].
    now rewrite Ascii.eqb_refl, String.eqb_refl.
  - rewrite append_cons. cbn [Js.endsWith]. rewrite IH.
    now destruct (String.eqb suf (String c (a +:+ suf))).
Qed.

Lemma last_char_append (a s : string) :
  s <> "" -> last_char (a +:+ s) = last_char s.
Proof.
  intros Hs. induction a as [|c a IH]; [reflexivity|].
  rewrite append_cons. cbn [last_char]. rewrite IH.
  destruct (a +:+ s) eqn:E; [|reflexivity].
  destruct a; [rewrite append_nil_l in E; contradiction | discriminate E].
Qed.

Lemma span_id_append (s : string) :
  s = fst (Js.span_id s) +:+ snd (Js.span_id s).
Proof.
  induction s as [|c s IH]; [reflexivity|]. cbn [Js.span_id].
  destruct (Js.is_id_char c); [|reflexivity].
  destruct (Js.span_id s) as [a b]. cbn in *. rewrite append_cons. now f_equal.
Qed.

Lemma match_vms_tail (tails : list string) (path : string) :
  Js.match_vms tails path = true ->
  exists t pre, In t tails /\ path = pre +:+ t.
Proof.
  unfold Js.match_vms, Js.startsWith. intros H.
  apply andb_true_iff in H as [Hp H].
  apply prefix_true_iff in Hp as [rest ->].
  change (Js.drop 5 ("/vms/" +:+ rest)) with rest in H.
  pose proof (span_id_append rest) as Hs.
  destruct (Js.span_id rest) as [ident tl]. cbn in Hs.
  apply andb_true_iff in H as [_ H].
  apply existsb_exists in H as [t [Hin Ht]].
  apply String.eqb_eq in Ht. subst tl.
  exists t, ("/vms/" +:+ ident). split; [exact Hin|].
  now rewrite append_assoc, <- Hs.
Qed.

Lemma match_vms_not_novnc (tails : list string) (vmId : string) :
  Forall (fun t => t <> "" /\ last_char t <> Some "c"%char) tails ->
  Js.match_vms tails (novnc_path vmId) = false.
Proof.
  intros Hall. destruct (Js.match_vms tails (novnc_path vmId)) eqn:E;
    [exfalso|reflexivity].
  apply match_vms_tail in E as (t & pre & Hin & Hp).
  rewrite Forall_forall in Hall. apply list_elem_of_In in Hin.
  destruct (Hall t Hin) as [Hne Hlast].
  apply Hlast. rewrite <- (last_char_append pre t Hne), <- Hp.
  unfold novnc_path. rewrite <- append_assoc. now rewrite last_char_append.
Qed.

Lemma split_slash_segment (a b : string) :
  ~ occurs_in "/" a ->
  Js.split_slash (a +:+ "/" +:+ b) = a :: Js.split_slash b.
Proof.
  induction a as [|c a IH]; intros Hfree; [reflexivity|].
  rewrite append_cons. cbn [Js.split_slash].
  destruct (Ascii.eqb_spec c "/"%char) as [->|_].
  - exfalso. apply Hfree. now exists "", a.
  - rewrite IH; [reflexivity|].
    intros (x & y & ->). apply Hfree. exists (String c x), y.
    now rewrite append_cons.
Qed.

Lemma segment2_novnc (vmId : string) :
  ~ occurs_in "/" vmId -> segment2 (novnc_path vmId) = vmId.
Proof.
  intros Hfree. unfold segment2, novnc_path.
  change ("/vms/" +:+ vmId +:+ "/novnc")
    with (String "/" (String "v" (String "m" (String "s"
            (String "/" (vmId +:+ "/" +:+ "novnc")))))).
  cbn [Js.split_slash Ascii.eqb Bool.eqb].
  now rewrite (split_slash_segment vmId "novnc" Hfree).
Qed.

Lemma novnc_path_shape (vmId : string) :
  novnc_path vmId
  = String "/" (String "v" (String "m" (String "s"
      (String "/" (vmId +:+ "/novnc"))))).
Proof. reflexivity. Qed.

Lemma novnc_path_guards (vmId : string) :
  String.eqb (novnc_path vmId) "/health" = false
  /\ String.eqb (novnc_path vmId) "/vms" = false
  /\ Js.startsWith "/vms/" (novnc_path vmId) = true
  /\ Js.endsWith "/novnc" (novnc_path vmId) = true.
Proof.
  repeat split.
  - rewrite novnc_path_shape. cbn. now destruct (vmId +:+ "/novnc").
  - unfold novnc_path. rewrite <- append_assoc. apply endsWith_append.
Qed.

Lemma route_novnc_part_000 (vmId : string) :
  Part000.route "GET" (novnc_path vmId) = ToNoVNC (segment2 (novnc_path vmId)).
Proof.
  destruct (novnc_path_guards vmId) as (Hh & Hv & Hs & He).
  unfold Part000.route. cbn [String.eqb Ascii.eqb Bool.eqb].
  now rewrite Hh, Hv, Hs, He.
Qed.

Lemma route_novnc_part_001 (vmId : string) :
  Part001.route "GET" (novnc_path vmId) = ToNoVNC (segment2 (novnc_path vmId)).
Proof.
  destruct (novnc_path_guards vmId) as (Hh & Hv & Hs & He).
  unfold Part001.route. cbn [String.eqb Ascii.eqb Bool.eqb].
  rewrite Hh, Hv, Hs, He.
  rewrite !match_vms_not_novnc; [reflexivity|..];
    repeat (constructor; [split; [discriminate|cbn; congruence]|]);
    constructor.
Qed.

(** C4 fails in [index.ts]: its dispatcher tests the generic
    [GET /vms/{id}] route before the NoVNC route, so for every id
    [GET /vms/{id}/novnc] is handed to [handleGetVM] and answered with the
    JSON record, never with the NoVNC page.  The dispatchers of [part_000]
    and [part_001], which test the NoVNC route first, hand the same request
    to [handleNoVNC]. *)
Theorem novnc_route_is_shadowed (env : Env) (out : Outside) (w : World)
    (vmId : string) :
  IndexTs.route "GET" (novnc_path vmId) = ToGetVM (segment2 (novnc_path vmId))
  /\ (exists v w1,
        IndexTs.fetch env out (get_path (novnc_path vmId)) w
          = (Ok (mkResponse 200 (Some "application/json") (BRecord v)), w1))
  /\ Part000.route "GET" (novnc_path vmId)
       = ToNoVNC (segment2 (novnc_path vmId))
  /\ Part001.route "GET" (novnc_path vmId)
       = ToNoVNC (segment2 (novnc_path vmId))
  /\ IndexTs.route "GET" "/vms/abc/novnc" = ToGetVM "abc"
  /\ Part000.route "GET" "/vms/abc/novnc" = ToNoVNC "abc".
Proof.
  destruct (novnc_path_guards vmId) as (Hh & Hv & Hs & He).
  assert (Hroute : IndexTs.route "GET" (novnc_path vmId)
                   = ToGetVM (segment2 (novnc_path vmId))).
  { unfold IndexTs.route. cbn [String.eqb Ascii.eqb Bool.eqb].
    now rewrite Hh, Hv, Hs. }
  repeat split; try reflexivity; try assumption.
  - unfold IndexTs.fetch.
    change (req_method (get_path (novnc_path vmId))) with "GET".
    change (req_pathname (get_path (novnc_path vmId))) with (novnc_path vmId).
    rewrite Hroute. cbn [IndexTs.awaited IndexTs.serve].
    destruct (handleGetVM_total out (segment2 (novnc_path vmId)) w)
      as (v & w1 & ->).
    now exists v, w1.
  - apply route_novnc_part_000.
  - apply route_novnc_part_001.
Qed.

(** The request of the specification's sample, served by [index.ts] and by
    [part_000] from the same state. *)
Example novnc_sample_served :
  let request := get_path "/vms/vm-k3x9q2a1b-lvo1x2y3/novnc" in
  fst (IndexTs.fetch railway_env offline request world_with_demo)
    = Ok (mkResponse 200 (Some "application/json")
            (BRecord (heap world_with_demo 0)))
  /\ fst (Part000.fetch railway_env offline request world_with_demo)
    = Ok (mkResponse 200 (Some "text/html") (BHtml (heap world_with_demo 0))).
Proof. vm_compute. split; reflexivity. Qed.

(** Action-bearing agent routes are not ahead of the generic routes in any
    revision: a [GET] of an agent action is answered by [handleGetVM]. *)
Example agent_action_get_is_shadowed :
  IndexTs.route "GET" "/vms/abc/agent/status" = ToGetVM "abc"
  /\ Part000.route "GET" "/vms/abc/agent/status" = ToGetVM "abc"
  /\ Part001.route "GET" "/vms/abc/agent/status" = ToGetVM "abc"
  /\ Part001.route "POST" "/vms/abc/agent/status" = ToAgentProxy "abc" "status".
Proof. repeat split; reflexivity. Qed.

(** ** Provisioning backends and their failures *)

Lemma try_docker_run (env : Env) (out : Outside) (v : VM) (w : World) :
  exists res w1,
    Part001.try_docker env out v w = (Ok res, w1)
    /\ heap w1 = heap w /\ activeVMs w1 = activeVMs w /\ next w1 = next w
    /\ (res = None \/ exists data, res = Some (Part001.real_descriptor v data))
    /\ (Js.truthy (DOCKER_SERVICE_URL env) = false -> res = None)
    /\ (forall e, net out (Part001.docker_call env v) = Rejects e -> res = None)
    /\ (forall resp, net out (Part001.docker_call env v) = Responds resp ->
          up_ok resp = false -> res = None)
    /\ (forall resp e, net out (Part001.docker_call env v) = Responds resp ->
          up_json resp = Throw e -> res = None).
Proof.
  unfold Part001.try_docker.
  destruct (Js.truthy (DOCKER_SERVICE_URL env)).
  - unfold try_catch, bind, fetch_to.
    destruct (net out (Part001.docker_call env v)) as [e|resp] eqn:En.
    + do 2 eexists. split; [reflexivity|]. cbn.
      repeat split; try reflexivity; try discriminate. now left.
    + destruct (up_ok resp) eqn:Eok.
      * unfold json_of. destruct (up_json resp) as [data|e] eqn:Ej; cbn.
        -- do 2 eexists. split; [reflexivity|]. cbn.
           repeat split; try discriminate.
           ++ right. now exists data.
           ++ intros resp' [= <-]. congruence.
           ++ intros resp' e' [= <-]. congruence.
        -- do 2 eexists. split; [reflexivity|]. cbn.
           repeat split; try reflexivity. now left.
      * cbn. do 2 eexists. split; [reflexivity|]. cbn.
        repeat split; try reflexivity. now left.
  - do 2 eexists. split; [reflexivity|]. cbn.
    repeat split; try reflexivity. now left.
Qed.

Lemma createGoogleCloudVM_run (env : Env) (out : Outside) (r : nat) (w : World) :
  let v := heap w r in
  let simulated :=
    Part001.simulated_descriptor v (default "" (GOOGLE_CLOUD_PROJECT_ID env)) in
  exists d w1,
    Part001.createGoogleCloudVM env out r w = (Ok d, w1)
    /\ heap w1 = heap w /\ activeVMs w1 = activeVMs w /\ next w1 = next w
    /\ (has_credentials env = false -> d = Part001.edge_descriptor v)
    /\ (has_credentials env = true ->
          (d = simulated \/ exists data, d = Part001.real_descriptor v data)
          /\ (Js.truthy (DOCKER_SERVICE_URL env) = false -> d = simulated)
          /\ (forall e, net out (Part001.docker_call env v) = Rejects e ->
                d = simulated)
          /\ (forall resp, net out (Part001.docker_call env v) = Responds resp ->
                up_ok resp = false -> d = simulated)
          /\ (forall resp e,
                net out (Part001.docker_call env v) = Responds resp ->
                up_json resp = Throw e -> d = simulated)).
Proof.
  intros v simulated.
  unfold Part001.createGoogleCloudVM, try_catch, has_credentials.
  unfold bind at 1, load. fold v.
  destruct (Js.truthy (GOOGLE_CLOUD_PROJECT_ID env)) eqn:Ep;
    [destruct (Js.truthy (GOOGLE_CLOUD_ACCESS_TOKEN env)) eqn:Et|]; cbn [negb orb andb].
  - destruct (try_docker_run env out v w)
      as (res & w1 & E & Hh & Hm & Hn & Hshape & Hurl & Hrej & Hnok & Hjson).
    rewrite (bind_ok _ _ _ _ _ E).
    destruct res as [d|]; cbn.
    + exists d, w1. split; [reflexivity|]. repeat split; try assumption.
      * discriminate.
      * destruct Hshape as [Hx|[data [= ->]]]; [discriminate Hx|].
        right. now exists data.
      * intros Hx. specialize (Hurl Hx). discriminate Hurl.
      * intros e Hx. specialize (Hrej e Hx). discriminate Hrej.
      * intros resp H1 H2. specialize (Hnok resp H1 H2). discriminate Hnok.
      * intros resp e H1 H2. specialize (Hjson resp e H1 H2). discriminate Hjson.
    + exists simulated, w1. split; [reflexivity|].
      repeat split; try assumption; try reflexivity; try discriminate.
      now left.
  - exists (Part001.edge_descriptor v), w. split; [reflexivity|].
    repeat split; try reflexivity; discriminate.
  - exists (Part001.edge_descriptor v), w. split; [reflexivity|].
    repeat split; try reflexivity; discriminate.
Qed.



(** What [createRailwayVM] yields against a configured server. *)
Lemma railway_outcome (env : Env) (out : Outside) (r : nat) (w : World) :
  Js.truthy (RAILWAY_VM_SERVER_URL env) = true ->
  let v := heap w r in
  let c := IndexTs.railway_call env v in
  IndexTs.createRailwayVM env out r w
  = (match net out c with
     | Rejects e => Throw e
     | Responds resp =>
         if up_ok resp then
           match up_json resp with
           | Ok data => Ok (IndexTs.railway_descriptor v data)
           | Throw e => Throw e
           end
         else Throw (JsError ("Railway VM server create failed: "
                              +:+ pretty (up_status resp) +:+ " "
                              +:+ up_text resp))
     end, with_call w c).
Proof.
  intros Hb v c. unfold IndexTs.createRailwayVM.
  unfold bind at 1, load. fold v. rewrite Hb. fold c.
  unfold bind, fetch_to, with_call.
  destruct (net out c) as [e|resp]; [reflexivity|].
  destruct (up_ok resp); [|reflexivity].
  unfold json_of. now destruct (up_json resp).
Qed.





(** [createGoogleCloudVM_fixed.js] absorbs errors the same way, also reading
    the error body of an answer outside 2xx inside the inner [try]. *)
Lemma fixed_js_absorbs (env : Env) (out : Outside) (r : nat) (w : World) :
  let v := heap w r in
  exists d w1,
    FixedJs.createGoogleCloudVM env out Part001.createCloudflareVM r w
      = (Ok d, w1)
    /\ (has_credentials env = false -> d = Part001.edge_descriptor v)
    /\ (has_credentials env = true ->
          d = Part001.simulated_descriptor v
                (default "" (GOOGLE_CLOUD_PROJECT_ID env))
          \/ exists data, d = Part001.real_descriptor v data).
Proof.
  intros v.
  unfold FixedJs.createGoogleCloudVM, try_catch, has_credentials.
  unfold bind at 1, load. fold v.
  destruct (Js.truthy (GOOGLE_CLOUD_PROJECT_ID env));
    [destruct (Js.truthy (GOOGLE_CLOUD_ACCESS_TOKEN env))|]; cbn [negb orb andb];
    try (exists (Part001.edge_descriptor v), w; split; [reflexivity|];
         split; [reflexivity | discriminate]).
  unfold FixedJs.try_docker, try_catch, bind, fetch_to, json_of.
  destruct (net out (FixedJs.docker_call v)) as [e|resp]; cbn.
  - do 2 eexists. split; [reflexivity|]. split; [discriminate|]. now left.
  - destruct (up_ok resp); destruct (up_json resp) as [data|e]; cbn;
      do 2 eexists; (split; [reflexivity|]); (split; [discriminate|]);
      intros _; try (now left).
    right. now exists data.
Qed.

(** Without a D1 binding [part_001] does report an unknown id as missing. *)
Example part_001_unknown_without_d1 :
  Part001.handleGetVM bare_env offline "abc" fresh_world
  = (Ok (json_response 404 (BError "VM not found")), fresh_world).
Proof. reflexivity. Qed.

(** With D1 bound, [part_001] forgets a deleted record only in memory: the
    row stays in D1 and the next get brings the record back. *)
Example part_001_deleted_record_returns :
  let w0 := world_with_row abc_row in
  let w1 := snd (Part001.handleGetVM d1_env offline "abc" w0) in
  let '(deleted, w2) := Part001.handleDeleteVM "abc" w1 in
  deleted = Ok (json_response 200 (BDeleted "VM deleted successfully" "abc"))
  /\ fst (Part001.handleGetVM d1_env offline "abc" w2)
     = Ok (json_response 200 (BRecord abc_row)).
Proof. vm_compute. split; reflexivity. Qed.

(** * Further properties *)

(** ** Paths and patterns *)

Lemma endsWith_decompose (suf s : string) :
  Js.endsWith suf s = true -> exists pre, s = pre +:+ suf.
Proof.
  induction s as [|c s IH]; cbn [Js.endsWith].
  - destruct (String.eqb_spec suf "") as [->|_]; [|discriminate].
    intros _. now exists "".
  - destruct (String.eqb_spec suf (String c s)) as [->|_].
    + intros _. now exists "".
    + intros H. destruct (IH H) as [pre ->]. now exists (String c pre).
Qed.

Lemma endsWith_short (suf pre t : string) :
  String.length suf <= String.length t ->
  Js.endsWith suf (pre +:+ t) = Js.endsWith suf t.
Proof.
  intros Hlen. induction pre as [|c pre IH]; [reflexivity|].
  rewrite append_cons. cbn [Js.endsWith].
  destruct (String.eqb_spec suf (String c (pre +:+ t))) as [E|_]; [|exact IH].
  apply (f_equal String.length) in E. cbn in E. rewrite length_append in E. lia.
Qed.

Lemma id_char_not_slash : Js.is_id_char "/"%char = false.
Proof. reflexivity. Qed.

Lemma all_id_chars_slash_free (a : string) :
  all_id_chars a = true -> ~ occurs_in "/" a.
Proof.
  induction a as [|c a IH]; intros Hall (x & y & E).
  - destruct x; discriminate E.
  - cbn in Hall. apply andb_true_iff in Hall as [Hc Ha].
    destruct x as [|d x].
    + rewrite append_nil_l, append_cons in E. injection E as -> _.
      rewrite id_char_not_slash in Hc. discriminate Hc.
    + rewrite append_cons in E. injection E as _ ->.
      apply (IH Ha). now exists x, y.
Qed.

Lemma span_id_pattern (a rest : string) :
  all_id_chars a = true ->
  match rest with
  | EmptyString => True
  | String c _ => Js.is_id_char c = false
  end ->
  Js.span_id (a +:+ rest) = (a, rest).
Proof.
  intros Ha Hrest. induction a as [|c a IH].
  - rewrite append_nil_l. destruct rest as [|d rest]; [reflexivity|].
    cbn [Js.span_id]. now rewrite Hrest.
  - cbn in Ha. apply andb_true_iff in Ha as [Hc Ha].
    rewrite append_cons. cbn [Js.span_id]. now rewrite Hc, (IH Ha).
Qed.

Lemma all_id_chars_span (s : string) : all_id_chars (fst (Js.span_id s)) = true.
Proof.
  induction s as [|c s IH]; [reflexivity|]. cbn [Js.span_id].
  destruct (Js.is_id_char c) eqn:Hc; [|reflexivity].
  destruct (Js.span_id s) as [a b]. cbn in *. now rewrite Hc, IH.
Qed.

Lemma vms_path_shape (rest : string) :
  "/vms/" +:+ rest
  = String "/" (String "v" (String "m" (String "s" (String "/" rest)))).
Proof. reflexivity. Qed.

Lemma prefix_nil (s : string) : String.prefix "" s = true.
Proof. now destruct s. Qed.

Lemma vms_path_guards (rest : string) :
  String.eqb ("/vms/" +:+ rest) "/health" = false
  /\ String.eqb ("/vms/" +:+ rest) "/vms" = false
  /\ String.eqb ("/vms/" +:+ rest) "/services" = false
  /\ Js.startsWith "/vms/" ("/vms/" +:+ rest) = true.
Proof.
  rewrite vms_path_shape. repeat split. cbn. apply prefix_nil.
Qed.

Lemma match_vms_pattern (tails : list string) (ident tail : string) :
  pattern_id ident = true ->
  In tail tails ->
  Js.startsWith "/" tail = true ->
  Js.match_vms tails ("/vms/" +:+ ident +:+ tail) = true.
Proof.
  intros Hid Hin Hslash. unfold pattern_id in Hid.
  apply andb_true_iff in Hid as [Hne Hall].
  destruct (vms_path_guards (ident +:+ tail)) as (_ & _ & _ & Hs).
  unfold Js.match_vms. rewrite Hs.
  change (Js.drop 5 ("/vms/" +:+ ident +:+ tail)) with (ident +:+ tail).
  rewrite (span_id_pattern ident tail Hall).
  - rewrite Hne. cbn [andb]. apply existsb_exists. exists tail.
    split; [exact Hin | apply String.eqb_refl].
  - destruct tail as [|c tail]; [exact I|].
    apply prefix_true_iff in Hslash as [b Hb].
    rewrite append_cons, append_nil_l in Hb. now injection Hb as -> _.
Qed.

Lemma segment2_of_id (ident rest : string) :
  ~ occurs_in "/" ident ->
  segment2 ("/vms/" +:+ ident +:+ "/" +:+ rest) = ident.
Proof.
  intros Hfree. unfold segment2. rewrite vms_path_shape.
  cbn [Js.split_slash Ascii.eqb Bool.eqb].
  now rewrite (split_slash_segment ident rest Hfree).
Qed.

Lemma action_of_id (ident rest : string) :
  ~ occurs_in "/" ident ->
  action_of ("/vms/" +:+ ident +:+ "/agent/" +:+ rest)
  = Js.join_slash (Js.split_slash rest).
Proof.
  intros Hfree. unfold action_of. rewrite vms_path_shape.
  cbn [Js.split_slash Ascii.eqb Bool.eqb].
  change (ident +:+ "/agent/" +:+ rest)
    with (ident +:+ "/" +:+ String "a" (String "g" (String "e"
            (String "n" (String "t" (String "/" rest)))))).
  rewrite (split_slash_segment ident _ Hfree).
  cbn [Js.split_slash Ascii.eqb Bool.eqb].
  destruct (Js.split_slash rest) eqn:E; reflexivity.
Qed.

Lemma match_vms_eval (tails : list string) (ident tail : string) :
  all_id_chars ident = true ->
  Js.startsWith "/" tail = true ->
  Js.match_vms tails ("/vms/" +:+ ident +:+ tail)
  = negb (String.eqb ident "") && existsb (String.eqb tail) tails.
Proof.
  intros Hall Hslash.
  destruct (vms_path_guards (ident +:+ tail)) as (_ & _ & _ & Hs).
  unfold Js.match_vms. rewrite Hs.
  change (Js.drop 5 ("/vms/" +:+ ident +:+ tail)) with (ident +:+ tail).
  rewrite (span_id_pattern ident tail Hall); [reflexivity|].
  destruct tail as [|c tail]; [exact I|].
  apply prefix_true_iff in Hslash as [b Hb].
  rewrite append_cons, append_nil_l in Hb. now injection Hb as -> _.
Qed.

Lemma pattern_id_parts (ident : string) :
  pattern_id ident = true ->
  String.eqb ident "" = false /\ all_id_chars ident = true
  /\ ~ occurs_in "/" ident.
Proof.
  unfold pattern_id. intros H. apply andb_true_iff in H as [Hne Hall].
  apply negb_true_iff in Hne. repeat split; try assumption.
  now apply all_id_chars_slash_free.
Qed.

(** Evaluates a dispatcher on the path [/vms/{ident}{tail}] for a literal
    [tail], given the facts [pattern_id_parts] yields for [ident]. *)
Ltac route_on ident tail Hne Hall :=
  let Hh := fresh in let Hv := fresh in let Hsv := fresh in let Hs := fresh in
  destruct (vms_path_guards (ident +:+ tail)) as (Hh & Hv & Hsv & Hs);
  cbn [String.eqb Ascii.eqb Bool.eqb andb];
  rewrite ?Hh, ?Hv, ?Hsv, ?Hs;
  rewrite ?(match_vms_eval _ ident tail Hall eq_refl), ?Hne;
  cbn [negb andb orb existsb String.eqb Ascii.eqb Bool.eqb];
  rewrite <- ?(append_assoc "/vms/" ident tail);
  rewrite ?(endsWith_short "/novnc" ("/vms/" +:+ ident) tail) by (cbn; lia);
  rewrite ?(endsWith_short "/agent" ("/vms/" +:+ ident) tail) by (cbn; lia);
  rewrite ?(append_assoc "/vms/" ident tail);
  cbn [Js.endsWith String.eqb Ascii.eqb Bool.eqb andb];
  rewrite ?Hs, ?(match_vms_eval _ ident tail Hall eq_refl), ?Hne;
  cbn [negb andb orb existsb String.eqb Ascii.eqb Bool.eqb].

(** X1: for every id made of the characters the route patterns accept, the
    lifecycle paths built from the id reach their handlers with exactly that
    id: [POST /vms/{id}/start] and [/restart] in all three revisions, and in
    [part_001] also [/stop], [/status], [/scripts], [/metrics] and
    [/events]. *)
Theorem lifecycle_routes_reach_their_handlers (ident : string) :
  pattern_id ident = true ->
  IndexTs.route "POST" ("/vms/" +:+ ident +:+ "/start") = ToStartVM ident
  /\ IndexTs.route "POST" ("/vms/" +:+ ident +:+ "/restart") = ToRestartVM ident
  /\ Part000.route "POST" ("/vms/" +:+ ident +:+ "/start") = ToStartVM ident
  /\ Part000.route "POST" ("/vms/" +:+ ident +:+ "/restart") = ToRestartVM ident
  /\ Part001.route "POST" ("/vms/" +:+ ident +:+ "/start") = ToStartVM ident
  /\ Part001.route "POST" ("/vms/" +:+ ident +:+ "/restart") = ToRestartVM ident
  /\ Part001.route "POST" ("/vms/" +:+ ident +:+ "/stop") = ToStopVM ident
  /\ Part001.route "GET" ("/vms/" +:+ ident +:+ "/status") = ToGetVMStatus ident
  /\ Part001.route "POST" ("/vms/" +:+ ident +:+ "/scripts")
     = ToExecuteScript ident
  /\ Part001.route "GET" ("/vms/" +:+ ident +:+ "/scripts") = ToGetScripts ident
  /\ Part001.route "GET" ("/vms/" +:+ ident +:+ "/metrics") = ToGetMetrics ident
  /\ Part001.route "POST" ("/vms/" +:+ ident +:+ "/metrics")
     = ToRecordMetrics ident
  /\ Part001.route "GET" ("/vms/" +:+ ident +:+ "/events") = ToGetEvents ident.
Proof.
  intros Hid. destruct (pattern_id_parts ident Hid) as (Hne & Hall & Hfree).
  repeat match goal with |- _ /\ _ => split end;
    unfold IndexTs.route, Part000.route, Part001.route;
    match goal with
    | |- context [ident +:+ ?tail] => route_on ident tail Hne Hall
    end;
    f_equal;
    match goal with
    | |- segment2 ("/vms/" +:+ ident +:+ String "/" ?rest) = ident =>
        apply (segment2_of_id ident rest Hfree)
    end.
Qed.

Lemma lifecycle_routes_reach_their_handlers_witness :
  pattern_id sample_id = true
  /\ IndexTs.route "POST" ("/vms/" +:+ sample_id +:+ "/start")
     = ToStartVM sample_id
  /\ Part001.route "POST" ("/vms/" +:+ sample_id +:+ "/stop")
     = ToStopVM sample_id.
Proof.
  split; [reflexivity|].
  destruct (lifecycle_routes_reach_their_handlers sample_id eq_refl)
    as (H1 & _ & _ & _ & _ & _ & H7 & _).
  now split.
Defined.

Lemma match_vms_inv (tails : list string) (path : string) :
  Js.match_vms tails path = true ->
  exists ident tail,
    path = "/vms/" +:+ ident +:+ tail
    /\ pattern_id ident = true /\ In tail tails.
Proof.
  unfold Js.match_vms, Js.startsWith. intros H.
  apply andb_true_iff in H as [Hp H].
  apply prefix_true_iff in Hp as [rest ->].
  change (Js.drop 5 ("/vms/" +:+ rest)) with rest in H.
  pose proof (span_id_append rest) as Hs.
  pose proof (all_id_chars_span rest) as Hall.
  destruct (Js.span_id rest) as [ident tl]. cbn in Hs, Hall.
  apply andb_true_iff in H as [Hne H].
  apply existsb_exists in H as [t [Hin Ht]].
  apply String.eqb_eq in Ht. subst tl.
  exists ident, t. split; [now rewrite Hs|]. split; [|exact Hin].
  unfold pattern_id. now rewrite Hne, Hall.
Qed.

Lemma proxy_path_parts (ident action : string) :
  ~ occurs_in "/" ident ->
  segment2 ("/vms/" +:+ ident +:+ "/agent/" +:+ action) = ident
  /\ action_of ("/vms/" +:+ ident +:+ "/agent/" +:+ action)
     = Js.join_slash (Js.split_slash action).
Proof.
  intros Hfree. split; [|now apply action_of_id].
  apply (segment2_of_id ident ("agent/" +:+ action) Hfree).
Qed.

Lemma proxy_pattern_inv (path : string) :
  Js.match_vms agent_tails path = true ->
  exists suffix,
    In (action_of path, suffix) proxied_actions
    /\ pattern_id (segment2 path) = true
    /\ path = "/vms/" +:+ segment2 path +:+ "/agent/" +:+ action_of path.
Proof.
  intros H. apply match_vms_inv in H as (ident & tail & -> & Hid & Hin).
  destruct (pattern_id_parts ident Hid) as (_ & _ & Hfree).
  assert (Hcases : exists action suffix,
             tail = "/agent/" +:+ action
             /\ In (action, suffix) proxied_actions
             /\ Js.join_slash (Js.split_slash action) = action).
  { cbn in Hin.
    destruct Hin as [E|[E|[E|[E|[E|[]]]]]]; subst tail;
      [exists "browser/navigate", "/browser/navigate"
      |exists "restart", "/browser/restart"
      |exists "status", "/health"
      |exists "execute", "/run"
      |exists "screenshot", "/run"];
      (split; [reflexivity|]); (split; [cbn; tauto | reflexivity]). }
  destruct Hcases as (action & suffix & -> & Hin' & Hjoin).
  destruct (proxy_path_parts ident action Hfree) as [-> ->].
  rewrite Hjoin. exists suffix. now repeat split.
Qed.

Lemma match_vms_startsWith (tails : list string) (path : string) :
  Js.match_vms tails path = true -> Js.startsWith "/vms/" path = true.
Proof. unfold Js.match_vms. intros H. now apply andb_true_iff in H as [H _]. Qed.

Lemma proxy_route_facts (m p vmId action : string) :
  Js.match_vms agent_tails p = true ->
  String.eqb m "OPTIONS" = false ->
  (Js.startsWith "/vms/" p && String.eqb m "GET") = false ->
  (Js.startsWith "/vms/" p && String.eqb m "DELETE") = false ->
  ToAgentProxy (segment2 p) (action_of p) = ToAgentProxy vmId action ->
  (exists suffix, In (action, suffix) proxied_actions
                  /\ upstreamPath action = Some suffix)
  /\ pattern_id vmId = true
  /\ p = "/vms/" +:+ vmId +:+ "/agent/" +:+ action
  /\ m <> "GET" /\ m <> "DELETE" /\ m <> "OPTIONS".
Proof.
  intros Hm Ho Hg Hd [= <- <-].
  rewrite (match_vms_startsWith _ _ Hm) in Hg, Hd. cbn [andb] in Hg, Hd.
  destruct (proxy_pattern_inv p Hm) as (suffix & Hin & Hid & Hp).
  split; [exists suffix; split; [exact Hin | now apply upstreamPath_listed]|].
  repeat split; try assumption; intros ->; discriminate.
Qed.

(** X2: in every revision, whenever the dispatcher hands a request to the
    agent proxy, the action it extracted is one of the five the proxy
    supports, the id is a non-empty run of pattern characters, the path is
    exactly [/vms/{id}/agent/{action}], and the method is neither [GET] nor
    [DELETE] (those were taken by the generic routes); so the proxy's
    'Unsupported agent action' answer cannot be reached through [fetch]. *)
Theorem dispatched_proxy_action_is_supported (m p vmId action : string) :
  IndexTs.route m p = ToAgentProxy vmId action
  \/ Part000.route m p = ToAgentProxy vmId action
  \/ Part001.route m p = ToAgentProxy vmId action ->
  (exists suffix, In (action, suffix) proxied_actions
                  /\ upstreamPath action = Some suffix)
  /\ pattern_id vmId = true
  /\ p = "/vms/" +:+ vmId +:+ "/agent/" +:+ action
  /\ m <> "GET" /\ m <> "DELETE" /\ m <> "OPTIONS".
Proof.
  unfold IndexTs.route, Part000.route, Part001.route.
  intros [H|[H|H]];
    repeat match type of H with
      | (if ?c then _ else _) = _ =>
          let E := fresh "E" in destruct c eqn:E; try discriminate H
      end;
    eapply proxy_route_facts; eassumption.
Qed.

Lemma dispatched_proxy_action_is_supported_witness :
  (exists suffix, In ("status", suffix) proxied_actions
                  /\ upstreamPath "status" = Some suffix)
  /\ pattern_id "abc" = true
  /\ "/vms/abc/agent/status" = "/vms/" +:+ "abc" +:+ "/agent/" +:+ "status"
  /\ "POST" <> "GET" /\ "POST" <> "DELETE" /\ "POST" <> "OPTIONS".
Proof.
  apply (dispatched_proxy_action_is_supported "POST" "/vms/abc/agent/status"
           "abc" "status").
  left. reflexivity.
Defined.

Lemma first_segment_unique (a a' b b' : string) :
  ~ occurs_in "/" a -> ~ occurs_in "/" a' ->
  a +:+ "/" +:+ b = a' +:+ "/" +:+ b' -> a = a'.
Proof.
  intros Ha Ha' E. apply (f_equal Js.split_slash) in E.
  rewrite (split_slash_segment a b Ha), (split_slash_segment a' b' Ha') in E.
  now injection E.
Qed.

Lemma slash_headed (t : string) :
  Js.startsWith "/" t = true -> exists b, t = "/" +:+ b.
Proof. intros H. now apply prefix_true_iff in H. Qed.

Lemma match_vms_rejects_id (tails : list string) (ident tail : string) :
  ~ occurs_in "/" ident ->
  pattern_id ident = false ->
  Js.startsWith "/" tail = true ->
  forallb (Js.startsWith "/") tails = true ->
  Js.match_vms tails ("/vms/" +:+ ident +:+ tail) = false.
Proof.
  intros Hfree Hbad Htail Htails.
  destruct (Js.match_vms tails ("/vms/" +:+ ident +:+ tail)) eqn:E;
    [exfalso|reflexivity].
  apply match_vms_inv in E as (ident' & tail' & Hp & Hid' & Hin).
  rewrite !vms_path_shape in Hp. injection Hp as Hp.
  rewrite forallb_forall in Htails.
  destruct (slash_headed tail Htail) as [b ->].
  destruct (slash_headed tail' (Htails tail' Hin)) as [b' ->].
  destruct (pattern_id_parts ident' Hid') as (_ & _ & Hfree').
  apply (first_segment_unique ident ident' b b' Hfree Hfree') in Hp.
  subst ident'. congruence.
Qed.

Lemma endsWith_other_last (suf pre t : string) :
  suf <> "" -> t <> "" -> last_char t <> last_char suf ->
  Js.endsWith suf (pre +:+ t) = false.
Proof.
  intros Hsuf Ht Hlast.
  destruct (Js.endsWith suf (pre +:+ t)) eqn:E; [exfalso|reflexivity].
  apply endsWith_decompose in E as [pre' E]. apply Hlast.
  rewrite <- (last_char_append pre t Ht), E. now apply last_char_append.
Qed.

(** X3: an id without a slash that has a character outside
    [[A-Za-z0-9_-]] (or the empty id) cannot be started or restarted through
    the dispatcher, whatever the store holds: in every revision
    [POST /vms/{id}/start] and [/restart] fall through to the dispatcher's
    final 404, and so does [POST /vms/{id}/stop] in [part_001]. *)
Theorem ids_outside_pattern_cannot_be_started (ident : string) :
  ~ occurs_in "/" ident ->
  pattern_id ident = false ->
  IndexTs.route "POST" ("/vms/" +:+ ident +:+ "/start") = ToNotFound
  /\ IndexTs.route "POST" ("/vms/" +:+ ident +:+ "/restart") = ToNotFound
  /\ Part000.route "POST" ("/vms/" +:+ ident +:+ "/start") = ToNotFound
  /\ Part000.route "POST" ("/vms/" +:+ ident +:+ "/restart") = ToNotFound
  /\ Part001.route "POST" ("/vms/" +:+ ident +:+ "/start") = ToNotFound
  /\ Part001.route "POST" ("/vms/" +:+ ident +:+ "/restart") = ToNotFound
  /\ Part001.route "POST" ("/vms/" +:+ ident +:+ "/stop") = ToNotFound.
Proof.
  intros Hfree Hbad.
  repeat match goal with |- _ /\ _ => split end;
    unfold IndexTs.route, Part000.route, Part001.route;
    match goal with
    | |- context [ident +:+ ?tail] =>
        destruct (vms_path_guards (ident +:+ tail)) as (Hh & Hv & Hsv & Hs);
        cbn [String.eqb Ascii.eqb Bool.eqb andb];
        rewrite ?Hh, ?Hv, ?Hsv, ?Hs;
        repeat match goal with
          | |- context [Js.match_vms ?tails _] =>
              rewrite (match_vms_rejects_id tails ident tail Hfree Hbad
                         eq_refl eq_refl)
          end;
        cbn [andb];
        rewrite <- ?(append_assoc "/vms/" ident tail);
        rewrite ?(endsWith_short "/novnc" ("/vms/" +:+ ident) tail)
          by (cbn; lia);
        rewrite ?(endsWith_short "/agent" ("/vms/" +:+ ident) tail)
          by (cbn; lia);
        rewrite ?(endsWith_other_last "/novnc" ("/vms/" +:+ ident) tail)
          by (cbn; congruence);
        rewrite ?(endsWith_other_last "/agent" ("/vms/" +:+ ident) tail)
          by (cbn; congruence);
        cbn [Js.endsWith String.eqb Ascii.eqb Bool.eqb andb]
    end;
    reflexivity.
Qed.

Lemma ids_outside_pattern_cannot_be_started_witness :
  ~ occurs_in "/" "my.vm"
  /\ pattern_id "my.vm" = false
  /\ IndexTs.route "POST" "/vms/my.vm/start" = ToNotFound
  /\ Part001.route "POST" "/vms/my.vm/stop" = ToNotFound.
Proof.
  assert (Hfree : ~ occurs_in "/" "my.vm").
  { apply includes_false_iff. reflexivity. }
  split; [exact Hfree|]. split; [reflexivity|].
  destruct (ids_outside_pattern_cannot_be_started "my.vm" Hfree eq_refl)
    as (H1 & _ & _ & _ & _ & _ & H7).
  now split.
Defined.

(** ** The in-memory store of [index.ts] *)

Lemma getVMFromStorage_found (out : Outside) (vmId : string) (r : nat)
    (w : World) :
  resolve w vmId = Some r ->
  IndexTs.getVMFromStorage out vmId w = (Ok (Some r), w).
Proof.
  unfold resolve, IndexTs.getVMFromStorage. run.
  destruct (activeVMs w !! vmId) as [r0|]; cbn.
  - now intros [= ->].
  - now intros ->.
Qed.

(** X4: filing a record and looking it up compose: after [storeVM(vm)] a
    [getVMFromStorage] on the record's id, and one on its alias key, both
    return that very object and leave the worker as it is (no placeholder is
    made, nothing is allocated); [storeVM] itself touches neither the heap
    nor the call log. *)
Theorem stored_record_is_found_under_both_keys (out : Outside) (r : nat)
    (w : World) :
  exists w1,
    IndexTs.storeVM r w = (Ok tt, w1)
    /\ IndexTs.getVMFromStorage out (vm_id (heap w r)) w1 = (Ok (Some r), w1)
    /\ IndexTs.getVMFromStorage out (alias_key (vm_id (heap w r))) w1
       = (Ok (Some r), w1)
    /\ heap w1 = heap w /\ next w1 = next w /\ calls w1 = calls w.
Proof.
  rewrite storeVM_run. eexists. split; [reflexivity|].
  destruct (lookup_both_keys (activeVMs w) (vm_id (heap w r)) r) as [Hk Ha].
  repeat split.
  - apply getVMFromStorage_found. unfold resolve. cbn. now rewrite Hk.
  - apply getVMFromStorage_found. unfold resolve. cbn. now rewrite Ha.
Qed.

Lemma handleGetVM_world (out : Outside) (vmId : string) (w : World) :
  exists v w1,
    IndexTs.handleGetVM out vmId w = (Ok (json_response 200 (BRecord v)), w1)
    /\ exists r, resolve w1 vmId = Some r /\ heap w1 r = v.
Proof.
  destruct (resolve w vmId) as [r|] eqn:Hr.
  - exists (heap w r), w. split; [now apply handleGetVM_stored|]. now exists r.
  - destruct (handleGetVM_unknown out vmId w Hr) as (w1 & E & Hh & _ & Hk & _).
    exists (mockVM vmId (now out)), w1. split; [exact E|]. now exists (next w).
Qed.

(** X5: a [GET /vms/{id}] changes the store at most once: whatever the
    first request answered (the stored record, or a placeholder it just
    made), the same request again, at any later time, answers the same
    record and changes nothing. *)
Theorem get_twice_answers_the_same (out out' : Outside) (vmId : string)
    (w : World) :
  exists v w1,
    IndexTs.handleGetVM out vmId w = (Ok (json_response 200 (BRecord v)), w1)
    /\ IndexTs.handleGetVM out' vmId w1
       = (Ok (json_response 200 (BRecord v)), w1).
Proof.
  destruct (handleGetVM_world out vmId w) as (v & w1 & E & r & Hr & Hv).
  exists v, w1. split; [exact E|].
  rewrite (handleGetVM_stored out' vmId r w1 Hr). now rewrite Hv.
Qed.

(** X6: a successful [DELETE /vms/{id}] removes exactly the two keys of the
    id: every other key of the store, every other object and the call log
    are as before, the deleted object is only marked [stopped], and a
    second [DELETE] of the same id answers 404 and changes nothing. *)
Theorem delete_removes_only_its_keys (w : World) (vmId : string) (r : nat) :
  resolve w vmId = Some r ->
  exists w1,
    IndexTs.handleDeleteVM vmId w
      = (Ok (json_response 200 (BDeleted "VM deleted successfully" vmId)), w1)
    /\ (forall k, k <> vmId -> k <> alias_key vmId ->
          activeVMs w1 !! k = activeVMs w !! k)
    /\ heap w1 r = set_status Stopped (heap w r)
    /\ (forall r', r' <> r -> heap w1 r' = heap w r')
    /\ calls w1 = calls w /\ d1 w1 = d1 w
    /\ IndexTs.handleDeleteVM vmId w1
       = (Ok (json_response 404 (BError "VM not found")), w1).
Proof.
  intros Hr. unfold IndexTs.handleDeleteVM at 1.
  rewrite (bind_ok _ _ _ _ _ (lookup_either_run vmId w)), Hr. run.
  eexists. split; [reflexivity|]. cbn. rewrite Nat.eqb_refl.
  split; [|split; [reflexivity|split; [|split; [reflexivity|split;
    [reflexivity|]]]]].
  - intros k Hk Ha. now rewrite !lookup_delete_ne by congruence.
  - intros r' Hne. apply Nat.eqb_neq in Hne. now rewrite Hne.
  - unfold IndexTs.handleDeleteVM.
    match goal with
    | |- bind _ _ ?W = _ =>
        rewrite (bind_ok _ _ _ _ _ (lookup_either_run vmId W))
    end.
    unfold resolve. cbn.
    destruct (deleted_keys_absent (activeVMs w) vmId) as [-> ->]. reflexivity.
Qed.

Lemma delete_removes_only_its_keys_witness :
  exists w1,
    IndexTs.handleDeleteVM sample_id world_with_demo
      = (Ok (json_response 200
               (BDeleted "VM deleted successfully" sample_id)), w1)
    /\ heap w1 0 = set_status Stopped (heap world_with_demo 0)
    /\ IndexTs.handleDeleteVM sample_id w1
       = (Ok (json_response 404 (BError "VM not found")), w1).
Proof.
  destruct (delete_removes_only_its_keys world_with_demo sample_id 0)
    as (w1 & E & _ & Hh & _ & _ & _ & E2).
  { vm_compute. reflexivity. }
  exists w1. now repeat split.
Defined.

Lemma handleGetVMs_run (w : World) :
  IndexTs.handleGetVMs w
  = (Ok (json_response 200
           (BList (List.map (fun kr => heap w (snd kr))
                            (map_to_list (activeVMs w))))), w).
Proof. reflexivity. Qed.

(** X7: the listing of [index.ts] shows every record once per key: filing
    a record whose id was not in the store adds that record to the answer
    of [GET /vms] twice (once for the id, once for the alias key), leaves
    the other entries as they were, and so raises [total] by two. *)
Theorem listing_counts_each_record_twice (r : nat) (w : World) :
  resolve w (vm_id (heap w r)) = None ->
  let before := listed (fst (IndexTs.handleGetVMs w)) in
  let after := listed (fst (IndexTs.handleGetVMs (snd (IndexTs.storeVM r w)))) in
  Permutation after (heap w r :: heap w r :: before)
  /\ length after = length before + 2.
Proof.
  intros Hr before after.
  assert (HP : Permutation after (heap w r :: heap w r :: before)).
  { subst before after. rewrite storeVM_run, !handleGetVMs_run. cbn.
    apply resolve_None in Hr as [Hk Ha].
    set (k := vm_id (heap w r)) in *.
    assert (Ha' : <[k := r]> (activeVMs w) !! alias_key k = None).
    { rewrite lookup_insert_ne; [exact Ha|]. intros E. symmetry in E.
      now apply alias_key_neq in E. }
    rewrite (Permutation_map _ (map_to_list_insert _ _ _ Ha')). cbn.
    apply perm_skip.
    rewrite (Permutation_map _ (map_to_list_insert _ _ _ Hk)). cbn.
    reflexivity. }
  split; [exact HP|]. rewrite (Permutation_length HP). cbn. lia.
Qed.

Lemma listing_counts_each_record_twice_witness :
  let w0 := snd (IndexTs.handleDeleteVM sample_id world_with_demo) in
  resolve w0 (vm_id (heap w0 0)) = None
  /\ Permutation
       (listed (fst (IndexTs.handleGetVMs (snd (IndexTs.storeVM 0 w0)))))
       (heap w0 0 :: heap w0 0 :: listed (fst (IndexTs.handleGetVMs w0)))
  /\ length (listed (fst (IndexTs.handleGetVMs (snd (IndexTs.storeVM 0 w0)))))
     = length (listed (fst (IndexTs.handleGetVMs w0))) + 2.
Proof.
  intros w0.
  assert (Hr : resolve w0 (vm_id (heap w0 0)) = None)
    by (vm_compute; reflexivity).
  split; [exact Hr|].
  exact (listing_counts_each_record_twice 0 w0 Hr).
Defined.

(** ** The D1-backed store of [part_001] *)

Lemma storeVM_part_001_run (env : Env) (out : Outside) (r : nat) (w : World) :
  Part001.storeVM env out r w
  = (Ok tt,
     mkWorld (heap w) (next w)
       (<[alias_key (vm_id (heap w r)) := r]>
          (<[vm_id (heap w r) := r]> (activeVMs w)))
       (if chrome_vm_db env then
          match d1_run_throws out with
          | None => <[vm_id (heap w r) := Part001.row_of (heap w r)]> (d1 w)
          | Some _ => d1 w
          end
        else d1 w)
       (calls w)
       (if chrome_vm_db env then
          match d1_run_throws out with
          | None => garbled w ∖ {[ vm_id (heap w r) ]}
          | Some _ => garbled w
          end
        else garbled w)).
Proof.
  unfold Part001.storeVM, Part001.d1_run.
  unfold bind, load, map_set, try_catch, ret, throw. cbv beta iota.
  cbn [heap next activeVMs d1 calls garbled].
  destruct (chrome_vm_db env); cbn [negb]; [|reflexivity].
  now destruct (d1_run_throws out).
Qed.





Lemma getVMFromStorage_part_001_unknown (env : Env) (out : Outside)
    (vmId : string) (w : World) :
  resolve w vmId = None ->
  Part001.getVMFromStorage env out vmId w
  = (if chrome_vm_db env then
       match d1_first_throws out, d1 w !! vmId with
       | None, Some row =>
           (Ok (Some (next w)),
            mkWorld (fun r => if Nat.eqb r (next w) then row else heap w r)
              (S (next w)) (<[vmId := next w]> (activeVMs w)) (d1 w) (calls w)
              (garbled w))
       | _, _ =>
           (Ok (Some (next w)),
            snd (Part001.storeVM env out (next w)
                   (mkWorld (fun r => if Nat.eqb r (next w)
                                      then mockVM vmId (now out) else heap w r)
                      (S (next w)) (activeVMs w) (d1 w) (calls w)
                      (garbled w))))
       end
     else (Ok None, w)).
Proof.
  intros Hr. apply resolve_None in Hr as [Hk Ha].
  unfold Part001.getVMFromStorage, Part001.from_database, Part001.d1_first,
    Part001.storeVM, Part001.d1_run, new_object.
  run. rewrite Hk. cbn. rewrite Ha. cbn.
  destruct (chrome_vm_db env) eqn:Hdb; cbn; [|now destruct w].
  destruct (d1_first_throws out) as [e|] eqn:Ht; cbn.
  - now destruct (d1_run_throws out).
  - destruct (d1 w !! vmId) as [row|] eqn:Hrow; cbn; [reflexivity|].
    destruct (decide (vmId ∈ garbled w)); cbn;
      now destruct (d1_run_throws out).
Qed.



(** X10: [part_001] reports an id it does not hold in memory as missing
    only when the D1 binding is absent: then [GET /vms/{id}] answers 404
    and changes nothing.  With the binding present the get always answers
    200 with a new object: the D1 row of the id when the [SELECT] succeeds
    and finds a row whose JSON columns parse, and a placeholder record
    otherwise, that is when there is no row, when the [SELECT] throws, and
    when the row's [metadata] or [network] column does not parse.  The
    placeholder is also written to D1 when the [INSERT] does not throw,
    replacing whatever row the id had, an unparsable one included. *)
Theorem unknown_id_is_missing_only_without_d1 (env : Env) (out : Outside)
    (vmId : string) (w : World) :
  resolve w vmId = None ->
  (chrome_vm_db env = false ->
     Part001.handleGetVM env out vmId w
     = (Ok (json_response 404 (BError "VM not found")), w))
  /\ (chrome_vm_db env = true ->
        exists w1,
          Part001.handleGetVM env out vmId w
          = (Ok (json_response 200 (BRecord (heap w1 (next w)))), w1)
          /\ activeVMs w1 !! vmId = Some (next w)
          /\ heap w1 (next w)
             = match d1_first_throws out, d1 w !! vmId with
               | None, Some row => row
               | _, _ => mockVM vmId (now out)
               end
          /\ (d1 w !! vmId = None -> vmId ∈ garbled w ->
                heap w1 (next w) = mockVM vmId (now out))
          /\ (d1_first_throws out <> None \/ d1 w !! vmId = None ->
                d1_run_throws out = None ->
                d1 w1 !! vmId = Some (Part001.row_of (mockVM vmId (now out)))
                /\ vmId ∉ garbled w1)).
Proof.
  intros Hr. unfold Part001.handleGetVM. split; intros Hdb.
  - unfold bind. rewrite (getVMFromStorage_part_001_unknown env out vmId w Hr).
    now rewrite Hdb.
  - unfold bind. rewrite (getVMFromStorage_part_001_unknown env out vmId w Hr).
    rewrite Hdb.
    destruct (d1_first_throws out) as [e|];
      [|destruct (d1 w !! vmId) as [row|] eqn:Hrow];
      try rewrite storeVM_part_001_run;
      cbn [snd heap activeVMs d1 garbled vm_id mockVM]; unfold load, ret;
      eexists; (split; [reflexivity|]); cbn [heap activeVMs d1 garbled];
      rewrite Nat.eqb_refl;
      (split; [try apply lookup_insert_eq;
               apply (proj1 (lookup_both_keys _ _ _))|]);
      (split; [reflexivity|]);
      (split; [try discriminate; reflexivity|]).
    + intros _ Hrun. rewrite Hdb, Hrun.
      split; [apply lookup_insert_eq|].
      apply not_elem_of_difference. right. now apply elem_of_singleton.
    + intros [H|H]; [now contradiction H | discriminate H].
    + intros _ Hrun. rewrite Hdb, Hrun.
      split; [apply lookup_insert_eq|].
      apply not_elem_of_difference. right. now apply elem_of_singleton.
Qed.

Lemma unknown_id_is_missing_only_without_d1_witness :
  Part001.handleGetVM bare_env offline "abc" fresh_world
  = (Ok (json_response 404 (BError "VM not found")), fresh_world)
  /\ (exists w1,
        Part001.handleGetVM d1_env offline "abc" (world_with_row abc_row)
        = (Ok (json_response 200 (BRecord (heap w1 0))), w1)
        /\ heap w1 0 = abc_row)
  /\ (exists w1,
        Part001.handleGetVM d1_env offline "abc" world_with_garbled_row
        = (Ok (json_response 200 (BRecord (mockVM "abc" (now offline)))), w1)
        /\ d1 w1 !! "abc" = Some (Part001.row_of (mockVM "abc" (now offline)))
        /\ "abc" ∉ garbled w1).
Proof.
  split; [|split].
  - apply (proj1 (unknown_id_is_missing_only_without_d1 bare_env offline "abc"
                    fresh_world eq_refl)).
    reflexivity.
  - destruct (proj2 (unknown_id_is_missing_only_without_d1 d1_env offline "abc"
                       (world_with_row abc_row) eq_refl) eq_refl)
      as (w1 & E & _ & Hh & _).
    exists w1. split; [exact E|].
    change (heap w1 (next (world_with_row abc_row))) with (heap w1 0) in Hh.
    rewrite Hh. vm_compute. reflexivity.
  - destruct (proj2 (unknown_id_is_missing_only_without_d1 d1_env offline "abc"
                       world_with_garbled_row eq_refl) eq_refl)
      as (w1 & E & _ & _ & Hh & Hd).
    exists w1.
    assert (Hin : "abc" ∈ garbled world_with_garbled_row)
      by (unfold world_with_garbled_row; cbn [garbled]; set_solver).
    change (next world_with_garbled_row) with 0 in *.
    rewrite (Hh eq_refl Hin) in E.
    split; [exact E|]. apply Hd; [now right|reflexivity].
Defined.

(** X11: [DELETE /vms/{id}] of [part_001] forgets the record in memory only:
    the D1 table is left as it was.  So when D1 holds a row for the id whose
    JSON columns parse, the next [GET /vms/{id}] answers 200 with that row,
    in the state last persisted (not the [stopped] the deletion set in
    memory); when D1 holds no such row (none at all, or one with a column
    that does not parse) the next get answers 200 with a placeholder.  In
    both cases the id is filed again. *)
Theorem deleted_record_returns_from_d1 (env : Env) (out : Outside)
    (vmId : string) (r : nat) (w : World) :
  chrome_vm_db env = true ->
  d1_first_throws out = None ->
  resolve w vmId = Some r ->
  exists w1,
    Part001.handleDeleteVM vmId w
      = (Ok (json_response 200 (BDeleted "VM deleted successfully" vmId)), w1)
    /\ vm_status (heap w1 r) = Stopped
    /\ resolve w1 vmId = None
    /\ d1 w1 = d1 w /\ garbled w1 = garbled w
    /\ exists w2,
         Part001.handleGetVM env out vmId w1
         = (Ok (json_response 200
                  (BRecord match d1 w !! vmId with
                           | Some row => row
                           | None => mockVM vmId (now out)
                           end)), w2)
         /\ resolve w2 vmId = Some (next w).
Proof.
  intros Hdb Hfirst Hr.
  change (Part001.handleDeleteVM vmId w) with (IndexTs.handleDeleteVM vmId w).
  unfold IndexTs.handleDeleteVM.
  rewrite (bind_ok _ _ _ _ _ (lookup_either_run vmId w)), Hr. run.
  eexists. split; [reflexivity|]. cbn [heap d1 garbled].
  rewrite Nat.eqb_refl.
  destruct (deleted_keys_absent (activeVMs w) vmId) as [Hk Ha].
  assert (Hnone : forall h n d c g,
            resolve (mkWorld h n (delete (alias_key vmId)
                                    (delete vmId (activeVMs w))) d c g) vmId
            = None).
  { intros. apply resolve_None. now split. }
  split; [reflexivity|]. split; [apply Hnone|]. split; [reflexivity|].
  split; [reflexivity|].
  unfold Part001.handleGetVM, bind.
  rewrite getVMFromStorage_part_001_unknown by apply Hnone.
  rewrite Hdb, Hfirst. cbn [d1 next].
  destruct (d1 w !! vmId) as [row|].
  - unfold load, ret. cbn [heap]. rewrite Nat.eqb_refl.
    eexists. split; [reflexivity|].
    unfold resolve. cbn [activeVMs]. now rewrite lookup_insert_eq.
  - rewrite storeVM_part_001_run. cbn [snd heap]. rewrite Nat.eqb_refl.
    unfold load, ret. cbn [heap]. rewrite Nat.eqb_refl.
    eexists. split; [reflexivity|].
    unfold resolve. cbn [activeVMs vm_id mockVM].
    now rewrite (proj1 (lookup_both_keys _ _ _)).
Qed.

Lemma deleted_record_returns_from_d1_witness :
  let w := snd (Part001.handleGetVM d1_env offline "abc"
                  (world_with_row abc_row)) in
  exists w1 w2,
    Part001.handleDeleteVM "abc" w
      = (Ok (json_response 200 (BDeleted "VM deleted successfully" "abc")), w1)
    /\ Part001.handleGetVM d1_env offline "abc" w1
       = (Ok (json_response 200 (BRecord abc_row)), w2).
Proof.
  intros w.
  assert (Hr : resolve w "abc" = Some 0) by (vm_compute; reflexivity).
  destruct (deleted_record_returns_from_d1 d1_env offline "abc" 0 w
              eq_refl eq_refl Hr)
    as (w1 & E1 & _ & _ & _ & _ & w2 & E2 & _).
  exists w1, w2. split; [exact E1|].
  assert (Hrow : d1 w !! "abc" = Some abc_row) by (vm_compute; reflexivity).
  rewrite Hrow in E2. exact E2.
Defined.

(** ** Creating records *)

(** X12: a create request that cannot be served changes nothing: a body
    that does not parse is answered 500 'Failed to create VM' with the
    parser's message, and a body whose name is missing or empty is answered
    400 'VM name is required'; in both cases, in [index.ts] and in
    [part_001] alike, no record is allocated or filed, D1 is not written and
    no upstream call is made. *)
Theorem rejected_create_changes_nothing (env : Env) (out : Outside)
    (request : Request) (w : World) :
  (forall e, req_json request = Throw e ->
     IndexTs.handleCreateVM env out request w
       = (Ok (json_response 500
                (BFailure "Failed to create VM" (error_message e))), w)
     /\ Part001.handleCreateVM env out request w
       = (Ok (json_response 500
                (BFailure "Failed to create VM" (error_message e))), w))
  /\ (forall body, req_json request = Ok body ->
        Js.truthy (b_name body) = false ->
        IndexTs.handleCreateVM env out request w
          = (Ok (json_response 400 (BError "VM name is required")), w)
        /\ Part001.handleCreateVM env out request w
          = (Ok (json_response 400 (BError "VM name is required")), w)).
Proof.
  unfold IndexTs.handleCreateVM, Part001.handleCreateVM, try_catch.
  split.
  - intros e ->. split; reflexivity.
  - intros body -> Hn. unfold settle.
    split; unfold bind at 1, ret at 1; now rewrite Hn.
Qed.

Lemma rejected_create_changes_nothing_witness :
  IndexTs.handleCreateVM railway_env railway_up
      (get_path "/vms") world_with_demo
    = (Ok (json_response 500
             (BFailure "Failed to create VM" "Unexpected end of JSON input")),
       world_with_demo)
  /\ Part001.handleCreateVM gcp_env railway_up
       (mkRequest "POST" "/vms"
          (Ok (mkCreateBody (Some "") None (Some "e2-medium") (Some "abc"))) "")
       world_with_demo
    = (Ok (json_response 400 (BError "VM name is required")), world_with_demo).
Proof.
  split.
  - apply (proj1 (rejected_create_changes_nothing railway_env railway_up
                    (get_path "/vms") world_with_demo)
             (JsError "Unexpected end of JSON input")).
    reflexivity.
  - apply (proj2 (rejected_create_changes_nothing gcp_env railway_up
                    (mkRequest "POST" "/vms"
                       (Ok (mkCreateBody (Some "") None (Some "e2-medium")
                              (Some "abc"))) "")
                    world_with_demo)
             (mkCreateBody (Some "") None (Some "e2-medium") (Some "abc")));
      reflexivity.
Defined.

Lemma backend_for_calls (env : Env) (out : Outside) (strategy : string)
    (r : nat) (w : World) :
  calls (snd (IndexTs.backend_for env out strategy r w))
  = calls w ++
    (if String.eqb strategy "railway" && Js.truthy (RAILWAY_VM_SERVER_URL env)
     then [IndexTs.railway_call env (heap w r)] else [])
  /\ d1 (snd (IndexTs.backend_for env out strategy r w)) = d1 w.
Proof.
  unfold IndexTs.backend_for.
  destruct (String.eqb_spec strategy "cloudflare") as [->|_];
    [cbn; now rewrite app_nil_r|].
  destruct (String.eqb_spec strategy "google_cloud") as [->|_];
    [cbn; now rewrite app_nil_r|].
  destruct (String.eqb strategy "railway"); [|cbn; now rewrite app_nil_r].
  cbn [andb]. destruct (Js.truthy (RAILWAY_VM_SERVER_URL env)) eqn:Hb.
  - now rewrite (railway_outcome env out r w Hb).
  - unfold IndexTs.createRailwayVM. unfold bind, load. rewrite Hb. cbn.
    now rewrite app_nil_r.
Qed.

Lemma createRealVM_calls (env : Env) (out : Outside) (r : nat)
    (w w0 : World) (res : outcome Descriptor) :
  IndexTs.backend_for env out
    (IndexTs.selectDeploymentStrategy (effective_type (heap w r))) r w
    = (res, w0) ->
  exists w1,
    IndexTs.createRealVM env out r w = (Ok tt, w1)
    /\ calls w1 = calls w0 /\ d1 w1 = d1 w0.
Proof.
  intros E.
  unfold IndexTs.createRealVM, try_catch.
  unfold bind at 1, load. fold (effective_type (heap w r)).
  destruct res as [d|e].
  - rewrite (bind_ok _ _ _ _ _ E).
    destruct (apply_descriptor_run r d (now out) w0)
      as (w1 & E1 & _ & (_ & _ & Hd1 & _) & Hc1).
    rewrite (bind_ok _ _ _ _ _ E1), storeVM_run.
    eexists. split; [reflexivity|]. cbn [calls d1].
    split; [exact Hc1 | exact Hd1].
  - rewrite (bind_throw _ _ _ _ _ E).
    destruct (assign_run r (set_status Error) w0)
      as (wa & Ea & _ & (_ & _ & Hda & _) & Hca).
    rewrite (bind_ok _ _ _ _ _ Ea).
    destruct (assign_run r (set_error (Some (error_message e))) wa)
      as (wb & Eb & _ & (_ & _ & Hdb & _) & Hcb).
    rewrite (bind_ok _ _ _ _ _ Eb), storeVM_run.
    eexists. split; [reflexivity|]. cbn [calls d1].
    split; [now rewrite Hcb | now rewrite Hdb].
Qed.

(** X13: creating a VM in [index.ts] talks to the outside only through the
    Railway backend: for a create request with a non-empty name the upstream
    calls made are exactly one [POST {server}/api/vms] when the selected
    strategy is Railway and a Railway server URL is configured, and none in
    every other case; the D1 table is never written. *)
Theorem create_calls_upstream_only_for_railway (env : Env) (out : Outside)
    (request : Request) (body : CreateBody) (w : World) :
  req_json request = Ok body ->
  Js.truthy (b_name body) = true ->
  let v0 := initial_record (generateVMId out) (default "" (b_name body))
              (now out)
              (match b_instanceType body with
               | None => Some "t3.medium"
               | Some t => Some t
               end) (b_server_id body) in
  let w1 := snd (IndexTs.handleCreateVM env out request w) in
  calls w1
  = calls w ++
    (if String.eqb (IndexTs.selectDeploymentStrategy (effective_type v0))
          "railway"
        && Js.truthy (RAILWAY_VM_SERVER_URL env)
     then [IndexTs.railway_call env v0] else [])
  /\ d1 w1 = d1 w.
Proof.
  intros Hj Hn v0 w1.
  assert (H : exists W,
             w1 = W
             /\ calls W
                = calls w ++
                  (if String.eqb
                        (IndexTs.selectDeploymentStrategy (effective_type v0))
                        "railway"
                      && Js.truthy (RAILWAY_VM_SERVER_URL env)
                   then [IndexTs.railway_call env v0] else [])
             /\ d1 W = d1 w).
  { subst w1. unfold IndexTs.handleCreateVM, try_catch.
    rewrite Hj. unfold settle. unfold bind at 1, ret at 1. rewrite Hn.
    cbn [negb]. unfold bind at 1, new_object. fold v0.
    set (w' := mkWorld _ _ _ _ _ _).
    assert (Hv0 : heap w' (next w) = v0) by (cbn; now rewrite Nat.eqb_refl).
    destruct (IndexTs.backend_for env out
                (IndexTs.selectDeploymentStrategy
                   (effective_type (heap w' (next w))))
                (next w) w') as [res w0] eqn:E.
    destruct (createRealVM_calls env out (next w) w' w0 res E)
      as (w2 & E1 & Hc & Hd).
    destruct (backend_for_calls env out
                (IndexTs.selectDeploymentStrategy
                   (effective_type (heap w' (next w))))
                (next w) w') as [Hc' Hd'].
    rewrite E in Hc', Hd'. cbn [snd] in Hc', Hd'. rewrite Hv0 in Hc'.
    rewrite (bind_ok _ _ _ _ _ E1).
    rewrite (bind_ok _ _ _ _ _ (storeVM_run (next w) w2)).
    unfold bind, load, ret.
    eexists. split; [reflexivity|]. cbn [calls d1].
    rewrite Hc, Hc', Hd, Hd'. split; reflexivity. }
  destruct H as (W & -> & HcW & HdW). now split.
Qed.

Lemma create_calls_upstream_only_for_railway_witness :
  calls (snd (IndexTs.handleCreateVM railway_env railway_up
                (post_vms "demo" None) fresh_world))
    = [mkCall "https://rw.example/api/vms" "POST" None
         (PRailwayCreate "demo" None)]
  /\ calls (snd (IndexTs.handleCreateVM railway_env railway_up
                   (post_vms "demo" (Some "e2-medium")) fresh_world))
    = [].
Proof.
  split.
  - exact (proj1 (create_calls_upstream_only_for_railway railway_env
                    railway_up (post_vms "demo" None)
                    (mkCreateBody (Some "demo") None None None) fresh_world
                    eq_refl eq_refl)).
  - exact (proj1 (create_calls_upstream_only_for_railway railway_env
                    railway_up (post_vms "demo" (Some "e2-medium"))
                    (mkCreateBody (Some "demo") None (Some "e2-medium") None)
                    fresh_world eq_refl eq_refl)).
Defined.

(** X14: the record a create request leaves behind reflects the request,
    whichever backend served it and whether or not provisioning failed: read
    back through [GET /vms/{id}] it carries the requested name, the requested
    instance type (or ['t3.medium'] when none was given), the requested
    server id, region ['global'], the creation time, and [createdVia]
    ['cloudflare-workers'] (also when the Google Cloud or the Railway backend
    was used). *)
Theorem created_record_reflects_request (env : Env) (out out' : Outside)
    (request : Request) (body : CreateBody) (w : World) :
  req_json request = Ok body ->
  Js.truthy (b_name body) = true ->
  exists resp w1 v,
    IndexTs.handleCreateVM env out request w = (Ok resp, w1)
    /\ IndexTs.handleGetVM out' (generateVMId out) w1
       = (Ok (json_response 200 (BRecord v)), w1)
    /\ Some (vm_name v) = b_name body
    /\ instanceType v = match b_instanceType body with
                        | None => Some "t3.medium"
                        | Some t => Some t
                        end
    /\ serverId v = b_server_id body
    /\ region v = Some "global"
    /\ createdAt v = now out
    /\ createdVia v = Some "cloudflare-workers".
Proof.
  intros Hj Hn.
  destruct (handleCreateVM_run env out request body w Hj Hn)
    as (w1 & E & Hr & _ & Hcase & _).
  eexists. exists w1, (heap w1 (next w)).
  split; [exact E|]. split; [now apply handleGetVM_stored|].
  assert (Hname : Some (default "" (b_name body)) = b_name body).
  { apply truthy_Some in Hn as (u & -> & _). reflexivity. }
  destruct Hcase as [(d & -> & _)|(e & ->)]; cbn; now repeat split.
Qed.

Lemma created_record_reflects_request_witness :
  exists resp w1 v,
    IndexTs.handleCreateVM railway_env railway_up (post_vms "demo" None)
      fresh_world = (Ok resp, w1)
    /\ IndexTs.handleGetVM offline sample_id w1
       = (Ok (json_response 200 (BRecord v)), w1)
    /\ Some (vm_name v) = Some "demo"
    /\ instanceType v = Some "t3.medium"
    /\ serverId v = None
    /\ region v = Some "global"
    /\ createdAt v = now railway_up
    /\ createdVia v = Some "cloudflare-workers".
Proof.
  exact (created_record_reflects_request railway_env railway_up offline
           (post_vms "demo" None) (mkCreateBody (Some "demo") None None None)
           fresh_world eq_refl eq_refl).
Defined.

(** ** Starting records that have no backend *)

Lemma resolve_after_store (m : gmap string nat) (k vmId : string) (r : nat)
    (h : nat -> VM) (n : nat) (d : gmap string VM) (c : list Call)
    (g : gset string) :
  resolve (mkWorld h n m d c g) vmId = Some r ->
  resolve (mkWorld h n (<[alias_key k := r]> (<[k := r]> m)) d c g) vmId
  = Some r.
Proof.
  unfold resolve. cbn [activeVMs]. intros H.
  assert (Hins : forall key,
            m !! key = Some r ->
            <[alias_key k := r]> (<[k := r]> m) !! key = Some r).
  { intros key Hkey. rewrite lookup_insert. case_decide; [reflexivity|].
    rewrite lookup_insert. now case_decide. }
  assert (Hval : forall key r',
            <[alias_key k := r]> (<[k := r]> m) !! key = Some r' ->
            r' = r \/ m !! key = Some r').
  { intros key r' Hkey. rewrite lookup_insert in Hkey.
    case_decide; [left; congruence|].
    rewrite lookup_insert in Hkey. case_decide; [left; congruence|now right]. }
  destruct (m !! vmId) as [r0|] eqn:Hm.
  - injection H as ->. now rewrite (Hins vmId Hm).
  - rewrite (Hins _ H).
    destruct (<[alias_key k := r]> (<[k := r]> m) !! vmId) as [r'|] eqn:Hk;
      [|reflexivity].
    destruct (Hval _ _ Hk) as [->|Hold]; [reflexivity|congruence].
Qed.

(** X15: starting a record changes its status and its last-activity stamp
    and nothing else: the error message of a failed provisioning stays on
    the record although the status now reads [ready], and the container id,
    the public URLs and the origin URLs are as before.  When the record has
    no origin agent URL (as after a failed provisioning), starting makes no
    upstream call and the proxy keeps answering 400 'No upstream agent URL'
    for it. *)
Theorem start_keeps_error_and_urls (out out' : Outside) (w : World)
    (vmId : string) (r : nat) :
  resolve w vmId = Some r ->
  exists w1,
    IndexTs.handleStartVM out vmId w
      = (Ok (json_response 200
               (BSuccess true ("VM " +:+ vmId +:+ " started."))), w1)
    /\ vm_status (heap w1 r) = Ready
    /\ vm_error (heap w1 r) = vm_error (heap w r)
    /\ containerId (heap w1 r) = containerId (heap w r)
    /\ agentUrl (heap w1 r) = agentUrl (heap w r)
    /\ originAgentUrl (heap w1 r) = originAgentUrl (heap w r)
    /\ (Js.truthy (originAgentUrl (heap w r)) = false ->
          calls w1 = calls w
          /\ forall action request,
               IndexTs.handleAgentProxy out' vmId action request w1
               = (Ok (json_response 400 (BError "No upstream agent URL")), w1)).
Proof.
  intros Hr.
  destruct (transition_run out Ready r w
              (json_response 200
                 (BSuccess true ("VM " +:+ vmId +:+ " started."))))
    as (w1 & E & Hh & _ & Hm & Hc & _).
  exists w1. unfold IndexTs.handleStartVM.
  rewrite (bind_ok _ _ _ _ _ (lookup_either_run vmId w)), Hr.
  split; [exact E|]. rewrite Hh. cbn.
  repeat split.
  - rewrite Hc. unfold restart_signal. rewrite H. apply app_nil_r.
  - intros action request.
    assert (Hr1 : resolve w1 vmId = Some r).
    { destruct w1 as [h1 n1 m1 d1' c1 g1]. cbn in Hm. subst m1.
      destruct w as [h n m d c g]. cbn.
      apply (resolve_after_store m (vm_id (h r)) vmId r h1 n1 d1' c1).
      exact Hr. }
    unfold IndexTs.handleAgentProxy.
    rewrite (bind_ok _ _ _ _ _ (lookup_either_run vmId w1)), Hr1.
    unfold bind, load. rewrite Hh. cbn [originAgentUrl transitioned
      set_lastActivity set_status]. now rewrite H.
Qed.

Lemma start_keeps_error_and_urls_witness :
  let w := snd (IndexTs.handleCreateVM railway_env (answering 500 "boom" ∅)
                  (post_vms "demo" None) fresh_world) in
  exists w1,
    IndexTs.handleStartVM offline sample_id w
      = (Ok (json_response 200
               (BSuccess true "VM vm-k3x9q2a1b-lvo1x2y3 started.")), w1)
    /\ vm_status (heap w1 0) = Ready
    /\ vm_error (heap w1 0) = Some "Railway VM server create failed: 500 boom"
    /\ containerId (heap w1 0) = None
    /\ calls w1 = calls w.
Proof.
  intros w.
  destruct (start_keeps_error_and_urls offline offline w sample_id 0)
    as (w1 & E & Hs & He & Hc & _ & _ & Hno).
  { vm_compute. reflexivity. }
  exists w1. rewrite He, Hc. repeat split; try assumption.
  apply Hno. vm_compute. reflexivity.
Defined.

(** ** Creating records in [part_001] *)

Lemma backend_for_part_001_frame (env : Env) (out : Outside)
    (strategy : string) (r : nat) (w : World) :
  exists d w1,
    Part001.backend_for env out strategy r w = (Ok d, w1)
    /\ heap w1 r
       = set_createdVia
           (Some (if String.eqb strategy "cloudflare" then "cloudflare-workers"
                  else if String.eqb strategy "google_cloud"
                       then "google-cloud-real"
                       else "cloudflare-workers")) (heap w r)
    /\ (forall r', r' <> r -> heap w1 r' = heap w r')
    /\ activeVMs w1 = activeVMs w /\ next w1 = next w /\ d1 w1 = d1 w
    /\ (String.eqb strategy "google_cloud" = false ->
          d = Part001.edge_descriptor (heap w r) /\ calls w1 = calls w)
    /\ (has_credentials env = false ->
          d = Part001.edge_descriptor (heap w r) /\ calls w1 = calls w).
Proof.
  unfold Part001.backend_for.
  destruct (String.eqb_spec strategy "cloudflare") as [->|Hcf].
  - unfold Part001.createCloudflareVM. run.
    do 2 eexists. split; [reflexivity|]. cbn. rewrite Nat.eqb_refl.
    repeat split. intros r' Hne. apply Nat.eqb_neq in Hne. now rewrite Hne.
  - destruct (String.eqb strategy "google_cloud") eqn:Hg.
    + destruct (createGoogleCloudVM_run env out r w)
        as (d & w1 & E & Hh & Hm & Hn & Hno & _).
      rewrite (bind_ok _ _ _ _ _ E). run.
      do 2 eexists. split; [reflexivity|]. cbn.
      rewrite Nat.eqb_refl, Hh, Hm, Hn.
      assert (Hd1 : d1 w1 = d1 w /\ (has_credentials env = false ->
                                     calls w1 = calls w)).
      { clear Hno. revert E.
        unfold Part001.createGoogleCloudVM, try_catch, has_credentials.
        unfold bind at 1, load.
        destruct (Js.truthy (GOOGLE_CLOUD_PROJECT_ID env));
          [destruct (Js.truthy (GOOGLE_CLOUD_ACCESS_TOKEN env))|];
          cbn [negb orb andb].
        2, 3: unfold Part001.createCloudflareVM; run;
          intros [= _ <-]; now split.
        unfold Part001.try_docker.
        destruct (Js.truthy (DOCKER_SERVICE_URL env)).
        - unfold try_catch, bind, fetch_to, json_of.
          destruct (net out _) as [e|resp]; cbn.
          + intros [= _ <-]. split; [reflexivity|discriminate].
          + destruct (up_ok resp); [destruct (up_json resp)|]; cbn;
              intros [= _ <-]; (split; [reflexivity|discriminate]).
        - cbn. intros [= _ <-]. split; [reflexivity|discriminate]. }
      destruct Hd1 as [Hd1 Hcalls].
      repeat split; try assumption; try discriminate.
      * intros r' Hne. apply Nat.eqb_neq in Hne. now rewrite Hne.
      * now apply Hno.
      * now apply Hcalls.
    + unfold Part001.createCloudflareVM. run.
      do 2 eexists. split; [reflexivity|]. cbn. rewrite Nat.eqb_refl.
      repeat split. intros r' Hne. apply Nat.eqb_neq in Hne. now rewrite Hne.
Qed.

Lemma createRealVM_part_001_run (env : Env) (out : Outside) (r : nat)
    (w : World) :
  let v := heap w r in
  let strategy :=
    Part001.selectDeploymentStrategy (effective_type v) (serverId v) in
  let via := if String.eqb strategy "cloudflare" then "cloudflare-workers"
             else if String.eqb strategy "google_cloud"
                  then "google-cloud-real" else "cloudflare-workers" in
  exists d w1,
    Part001.createRealVM env out r w = (Ok tt, w1)
    /\ heap w1 r = described d (now out) (set_createdVia (Some via) v)
    /\ (forall r', r' <> r -> heap w1 r' = heap w r')
    /\ activeVMs w1 = <[alias_key (vm_id v) := r]>
                        (<[vm_id v := r]> (activeVMs w))
    /\ next w1 = next w
    /\ (String.eqb strategy "google_cloud" = false
        \/ has_credentials env = false ->
          d = Part001.edge_descriptor v /\ calls w1 = calls w).
Proof.
  intros v strategy via.
  unfold Part001.createRealVM, try_catch.
  unfold bind at 1, load. fold v. fold (effective_type v). fold strategy.
  destruct (backend_for_part_001_frame env out strategy r w)
    as (d & w0 & E & Hh & Hf & Hm & Hn & _ & Hng & Hnc).
  rewrite (bind_ok _ _ _ _ _ E).
  destruct (apply_descriptor_run r d (now out) w0)
    as (w1 & E1 & Hh1 & (Hf1 & Hm1 & _ & Hn1) & Hc1).
  rewrite (bind_ok _ _ _ _ _ E1), storeVM_part_001_run.
  exists d. eexists. split; [reflexivity|]. cbn [heap activeVMs next calls].
  rewrite Hh1, Hh, Hm1, Hm, Hn1, Hn, Hc1. fold v. fold via.
  split; [reflexivity|]. split.
  { intros r' Hne. rewrite (Hf1 r' Hne). now apply Hf. }
  split; [reflexivity|]. split; [reflexivity|].
  intros [Hg|Hc]; [now apply Hng | now apply Hnc].
Qed.

(** X16: in [part_001] the [createdVia] tag names the selected strategy, not
    the backend that produced the record: when the selector picks
    [google_cloud] but the Google Cloud credentials are not both set, the
    record is filled from the edge backend's descriptor (container
    [cf-container-{id}], no upstream call) and is nevertheless tagged
    ['google-cloud-real'] and left [ready]. *)
Theorem created_via_names_the_strategy (env : Env) (out : Outside) (r : nat)
    (w : World) :
  let v := heap w r in
  Part001.selectDeploymentStrategy (effective_type v) (serverId v)
    = "google_cloud" ->
  has_credentials env = false ->
  exists w1,
    Part001.createRealVM env out r w = (Ok tt, w1)
    /\ heap w1 r
       = described (Part001.edge_descriptor v) (now out)
           (set_createdVia (Some "google-cloud-real") v)
    /\ createdVia (heap w1 r) = Some "google-cloud-real"
    /\ containerId (heap w1 r) = Some ("cf-container-" +:+ vm_id v)
    /\ vm_status (heap w1 r) = Ready
    /\ calls w1 = calls w.
Proof.
  intros v Hs Hc.
  destruct (createRealVM_part_001_run env out r w)
    as (d & w1 & E & Hh & _ & _ & _ & Hedge).
  fold v in Hh, Hedge. rewrite Hs in Hh. cbn [String.eqb Ascii.eqb Bool.eqb] in Hh.
  destruct (Hedge (or_intror Hc)) as [-> Hcalls].
  exists w1. split; [exact E|]. rewrite Hh. now repeat split.
Qed.

Lemma created_via_names_the_strategy_witness :
  let w := world_with_object (demo_record "e2-standard-4") in
  exists w1,
    Part001.createRealVM bare_env offline 0 w = (Ok tt, w1)
    /\ createdVia (heap w1 0) = Some "google-cloud-real"
    /\ containerId (heap w1 0) = Some "cf-container-abc"
    /\ vm_status (heap w1 0) = Ready.
Proof.
  intros w.
  destruct (created_via_names_the_strategy bare_env offline 0 w
              eq_refl eq_refl)
    as (w1 & E & _ & Hvia & Hc & Hs & _).
  exists w1. now repeat split.
Defined.

(** X17: [part_001] lets the caller choose the id: a create request with a
    non-empty name and a non-empty [vmId] is answered 201 with that id and
    status [ready], and the new record takes over both keys of the id; a
    record filed under the same id before is not updated (its object is
    untouched) but can no longer be reached through the id.  Without a
    [vmId] the generated id is used. *)
Theorem requested_id_takes_over (env : Env) (out : Outside)
    (request : Request) (body : CreateBody) (w : World) :
  req_json request = Ok body ->
  Js.truthy (b_name body) = true ->
  let vmId := default "" (Js.or_else (b_vmId body) (Some (generateVMId out))) in
  exists w1,
    Part001.handleCreateVM env out request w
      = (Ok (json_response 201
               (BCreated "VM creation started" vmId "ready" "2-5 minutes")),
         w1)
    /\ (Js.truthy (b_vmId body) = true -> Some vmId = b_vmId body)
    /\ (Js.truthy (b_vmId body) = false -> vmId = generateVMId out)
    /\ activeVMs w1 !! vmId = Some (next w)
    /\ activeVMs w1 !! alias_key vmId = Some (next w)
    /\ vm_id (heap w1 (next w)) = vmId
    /\ Some (vm_name (heap w1 (next w))) = b_name body
    /\ (forall r0, r0 <> next w -> heap w1 r0 = heap w r0).
Proof.
  intros Hj Hn vmId.
  unfold Part001.handleCreateVM, try_catch.
  rewrite Hj. unfold settle. unfold bind at 1, ret at 1. rewrite Hn. cbn [negb].
  unfold bind at 1, new_object. fold vmId.
  set (v0 := initial_record vmId _ _ _ _).
  set (w' := mkWorld _ _ _ _ _ _).
  assert (Hv0 : heap w' (next w) = v0) by (cbn; now rewrite Nat.eqb_refl).
  destruct (createRealVM_part_001_run env out (next w) w')
    as (d & w1 & E & Hh & Hf & Hm & Hnx & _).
  rewrite Hv0 in Hh, Hm.
  rewrite (bind_ok _ _ _ _ _ E).
  rewrite (bind_ok _ _ _ _ _ (storeVM_part_001_run env out (next w) w1)).
  unfold bind, load, ret. cbn [heap]. rewrite Hh.
  eexists. split; [reflexivity|]. cbn [activeVMs heap].
  rewrite Hh.
  change (vm_id (described d (now out) (set_createdVia _ v0))) with vmId.
  destruct (lookup_both_keys (activeVMs w1) vmId (next w)) as [Hk Ha].
  split.
  { unfold vmId, Js.or_else. intros Ht. rewrite Ht.
    apply truthy_Some in Ht as (u & -> & _). reflexivity. }
  split.
  { unfold vmId, Js.or_else. now intros ->. }
  split; [exact Hk|]. split; [exact Ha|]. split; [reflexivity|].
  split.
  { apply truthy_Some in Hn as (u & Hu & _). cbn. now rewrite Hu. }
  intros r0 Hne. rewrite (Hf r0 Hne). subst w'. cbn.
  apply Nat.eqb_neq in Hne. now rewrite Hne.
Qed.

Lemma requested_id_takes_over_witness :
  let request :=
    mkRequest "POST" "/vms"
      (Ok (mkCreateBody (Some "again") None None (Some sample_id))) "" in
  exists w1,
    Part001.handleCreateVM bare_env offline request world_with_demo
      = (Ok (json_response 201
               (BCreated "VM creation started" sample_id "ready"
                  "2-5 minutes")), w1)
    /\ activeVMs w1 !! sample_id = Some 1
    /\ heap w1 0 = heap world_with_demo 0.
Proof.
  intros request.
  destruct (requested_id_takes_over bare_env offline request
              (mkCreateBody (Some "again") None None (Some sample_id))
              world_with_demo eq_refl eq_refl)
    as (w1 & E & _ & _ & Hk & _ & _ & _ & Hf).
  exists w1. split; [exact E|]. split; [exact Hk|].
  apply Hf. vm_compute. discriminate.
Defined.

(** ** Upstream URLs *)

Lemma strip_without_slash (u : string) :
  Js.endsWith "/" u = false -> Js.stripTrailingSlash u = u.
Proof.
  induction u as [|c u IH]; [reflexivity|].
  cbn [Js.endsWith Js.stripTrailingSlash].
  destruct (String.eqb_spec "/" (String c u)) as [E|Hne]; [discriminate|].
  destruct u as [|d u].
  - intros _. destruct (Ascii.eqb_spec c "/"%char) as [->|_]; [|reflexivity].
    now contradiction Hne.
  - intros H. now rewrite IH.
Qed.

Lemma proxy_call_run (out : Outside) (w : World) (vmId a p o : string)
    (request : Request) (r : nat) :
  resolve w vmId = Some r ->
  originAgentUrl (heap w r) = Some o ->
  o <> "" ->
  In (a, p) proxied_actions ->
  snd (IndexTs.handleAgentProxy out vmId a request w)
  = with_call w (mkCall (Js.stripTrailingSlash o +:+ p) (req_method request)
                   None (forwarded_body request)).
Proof.
  intros Hr Ho Hne Hin.
  assert (Ht : Js.truthy (originAgentUrl (heap w r)) = true).
  { apply truthy_Some. now exists o. }
  unfold IndexTs.handleAgentProxy.
  rewrite (bind_ok _ _ _ _ _ (lookup_either_run vmId w)), Hr.
  unfold bind at 1, load. rewrite Ht. cbn [negb].
  rewrite (upstreamPath_listed a p Hin), Ho.
  change (default "" (Some o)) with o.
  unfold bind, fetch_to, ret. fold (forwarded_body request).
  unfold with_call. now destruct (net out _).
Qed.

(** X18: the proxy and the restart signal do not care whether the stored
    origin agent URL ends in a slash: for an origin [u] without a trailing
    slash and for the origin [u/] alike, each supported action is sent to
    [u] followed by the action's suffix, and start and restart signal
    [u/browser/restart].  Only one slash is dropped: an origin [x/] is
    always addressed as [x]. *)
Theorem origin_trailing_slash_is_ignored (out : Outside) (w : World)
    (vmId u o : string) (request : Request) (r : nat) :
  resolve w vmId = Some r ->
  originAgentUrl (heap w r) = Some o ->
  (o = u /\ u <> "" /\ Js.endsWith "/" u = false) \/ o = u +:+ "/" ->
  (forall a p, In (a, p) proxied_actions ->
     calls (snd (IndexTs.handleAgentProxy out vmId a request w))
     = calls w ++ [mkCall (u +:+ p) (req_method request) None
                     (forwarded_body request)])
  /\ restart_signal (heap w r)
     = [mkCall (u +:+ "/browser/restart") "POST" None PNone].
Proof.
  intros Hr Ho Hcase.
  assert (Hne : o <> "").
  { destruct Hcase as [(-> & Hu & _)| ->]; [exact Hu|].
    destruct u; discriminate. }
  assert (Hstrip : Js.stripTrailingSlash o = u).
  { destruct Hcase as [(-> & _ & Hs)| ->];
      [now apply strip_without_slash | apply strip_append_slash]. }
  split.
  - intros a p Hin.
    rewrite (proxy_call_run out w vmId a p o request r Hr Ho Hne Hin).
    now rewrite Hstrip.
  - unfold restart_signal. rewrite Ho.
    assert (Ht : Js.truthy (Some o) = true) by (apply truthy_Some; now exists o).
    rewrite Ht. change (default "" (Some o)) with o. now rewrite Hstrip.
Qed.

Lemma origin_trailing_slash_is_ignored_witness :
  let w := snd (IndexTs.handleCreateVM railway_env
                  (answering 200 "{}" {[ "agent_url" := "http://u/" ]})
                  (post_vms "demo" None) fresh_world) in
  calls (snd (IndexTs.handleAgentProxy offline sample_id "status"
                (get_path "/") w))
    = calls w ++ [mkCall "http://u/health" "GET" None PNone]
  /\ calls (snd (IndexTs.handleAgentProxy offline sample_id "status"
                   (get_path "/") world_with_demo))
    = calls world_with_demo ++ [mkCall "http://u/health" "GET" None PNone].
Proof.
  intros w.
  assert (Hr : resolve w sample_id = Some 0) by (vm_compute; reflexivity).
  assert (Ho : originAgentUrl (heap w 0) = Some "http://u/")
    by (vm_compute; reflexivity).
  assert (Hr' : resolve world_with_demo sample_id = Some 0)
    by (vm_compute; reflexivity).
  assert (Ho' : originAgentUrl (heap world_with_demo 0) = Some "http://u")
    by (vm_compute; reflexivity).
  assert (Hu : "http://u" = "http://u" /\ "http://u" <> ""
               /\ Js.endsWith "/" "http://u" = false).
  { split; [reflexivity|]. split; [intros E; inversion E | reflexivity]. }
  pose proof (proj1 (origin_trailing_slash_is_ignored offline w sample_id
                       "http://u" "http://u/" (get_path "/") 0 Hr Ho
                       (or_intror eq_refl)) "status" "/health"
                (or_intror (or_intror (or_introl eq_refl)))) as H1.
  pose proof (proj1 (origin_trailing_slash_is_ignored offline world_with_demo
                       sample_id "http://u" "http://u" (get_path "/") 0 Hr' Ho'
                       (or_introl Hu))
                "status" "/health"
                (or_intror (or_intror (or_introl eq_refl)))) as H2.
  split.
  - rewrite H1. reflexivity.
  - rewrite H2. reflexivity.
Defined.

(** ** Stopping a record in [part_001] *)

Lemma getVMFromStorage_part_001_found (env : Env) (out : Outside)
    (vmId : string) (r : nat) (w : World) :
  resolve w vmId = Some r ->
  Part001.getVMFromStorage env out vmId w = (Ok (Some r), w).
Proof.
  unfold resolve, Part001.getVMFromStorage. run.
  destruct (activeVMs w !! vmId) as [r0|]; cbn.
  - now intros [= ->].
  - now intros ->.
Qed.

(** What [getVMFromStorage] of [part_001] does in every case: it never
    throws and never calls upstream; it yields nothing exactly when the id
    is unknown in memory and D1 is not bound, and then changes nothing;
    otherwise the object it yields is filed under the id asked for (or its
    alias key) afterwards. *)
Lemma getVMFromStorage_part_001_cases (env : Env) (out : Outside)
    (vmId : string) (w : World) :
  exists o w0,
    Part001.getVMFromStorage env out vmId w = (Ok o, w0)
    /\ calls w0 = calls w
    /\ (o = None <-> resolve w vmId = None /\ chrome_vm_db env = false)
    /\ (o = None -> w0 = w)
    /\ (forall r, o = Some r -> resolve w0 vmId = Some r)
    /\ (forall r, resolve w vmId = Some r -> o = Some r /\ w0 = w).
Proof.
  destruct (resolve w vmId) as [r|] eqn:Hr.
  - exists (Some r), w.
    split; [now apply getVMFromStorage_part_001_found|].
    split; [reflexivity|].
    split; [split; [discriminate|now intros [? _]]|].
    split; [discriminate|].
    split; [now intros r' [= <-]|].
    now intros r' [= <-].
  - rewrite (getVMFromStorage_part_001_unknown env out vmId w Hr).
    destruct (chrome_vm_db env) eqn:Hdb.
    + assert (Hmock : exists w0,
                snd (Part001.storeVM env out (next w)
                       (mkWorld (fun r => if Nat.eqb r (next w)
                                          then mockVM vmId (now out)
                                          else heap w r)
                          (S (next w)) (activeVMs w) (d1 w) (calls w) (garbled w))) = w0
                /\ calls w0 = calls w
                /\ resolve w0 vmId = Some (next w)).
      { rewrite storeVM_part_001_run. eexists. split; [reflexivity|].
        cbn [snd calls heap]. split; [reflexivity|].
        rewrite Nat.eqb_refl. cbn [vm_id mockVM].
        unfold resolve. cbn [activeVMs].
        now rewrite (proj1 (lookup_both_keys _ _ _)). }
      destruct Hmock as (wm & Em & Hcm & Hrm).
      rewrite Em.
      destruct (d1_first_throws out) as [e|];
        [|destruct (d1 w !! vmId) as [row|]];
        eexists; eexists; (split; [reflexivity|]);
        (split; [try exact Hcm; reflexivity|]);
        (split; [split; [discriminate|now intros [_ ?]]|]);
        (split; [discriminate|]);
        (split; [|discriminate]);
        intros r' [= <-]; try exact Hrm.
      unfold resolve. cbn [activeVMs]. now rewrite lookup_insert_eq.
    + exists None, w.
      split; [reflexivity|]. split; [reflexivity|].
      split; [now split|]. split; [reflexivity|].
      split; discriminate.
Qed.

Lemma recordEvent_run (env : Env) (event_id : string)
    (d1_event_throws : option thrown) (no_binding event_time vmId eventType
     : string) (data : list (string * string)) (s : Site) :
  Part001Lifecycle.recordEvent env event_id d1_event_throws no_binding
    event_time vmId eventType data s
  = (Ok tt,
     mkSite (world s)
       (if chrome_vm_db env
        then event_inserts s
             ++ [mkEventRow event_id vmId eventType data event_time]
        else event_inserts s)).
Proof.
  unfold Part001Lifecycle.recordEvent, stry_catch, sthrow, sret, insert_event.
  destruct (chrome_vm_db env); cbn; [|now destruct s].
  now destruct d1_event_throws as [e|].
Qed.

Lemma handleStopVM_found (env : Env) (out : Outside) (event_id : string)
    (d1_event_throws : option thrown)
    (no_binding stop_time event_data_time event_time vmId : string)
    (s : Site) (r : nat) (w0 : World) :
  Part001.getVMFromStorage env out vmId (world s) = (Ok (Some r), w0) ->
  exists w1,
    Part001Lifecycle.handleStopVM env out event_id d1_event_throws no_binding
      stop_time event_data_time event_time vmId s
    = (Ok (mkReply 200
             (SStopped true "VM stopped successfully" (vm_id (heap w0 r))
                (vm_name (heap w0 r)) "stopped" (Some stop_time))),
       mkSite w1
         (if chrome_vm_db env
          then event_inserts s
               ++ [stop_event event_id vmId event_data_time event_time]
          else event_inserts s))
    /\ heap w1 r = set_lastActivity (Some stop_time)
                     (set_status Stopped (heap w0 r))
    /\ (forall r', r' <> r -> heap w1 r' = heap w0 r')
    /\ activeVMs w1 = <[alias_key (vm_id (heap w0 r)) := r]>
                        (<[vm_id (heap w0 r) := r]> (activeVMs w0))
    /\ calls w1 = calls w0
    /\ d1 w1 = (if chrome_vm_db env then
                  match d1_run_throws out with
                  | None => <[vm_id (heap w0 r) := Part001.row_of (heap w1 r)]>
                              (d1 w0)
                  | Some _ => d1 w0
                  end
                else d1 w0).
Proof.
  intros Eg.
  unfold Part001Lifecycle.handleStopVM, stry_catch.
  unfold sbind at 1. unfold in_world at 1. rewrite Eg.
  unfold sbind at 1. unfold in_world at 1, assign at 1.
  cbn [world event_inserts].
  unfold sbind at 1. unfold in_world at 1, assign at 1.
  cbn [world event_inserts heap next activeVMs d1 calls garbled].
  unfold sbind at 1. unfold in_world at 1.
  rewrite storeVM_part_001_run.
  cbn [world event_inserts heap next activeVMs d1 calls garbled].
  unfold sbind at 1. rewrite recordEvent_run.
  cbn [world event_inserts].
  unfold sbind, in_world, load, sret.
  cbn [world event_inserts heap next activeVMs d1 calls garbled].
  rewrite !Nat.eqb_refl.
  cbn [vm_id vm_name vm_status lastActivity set_status set_lastActivity
       status_string].
  eexists. split; [reflexivity|].
  cbn [heap activeVMs calls d1]. rewrite !Nat.eqb_refl.
  split; [reflexivity|].
  split.
  { intros r' Hne. apply Nat.eqb_neq in Hne. now rewrite !Hne. }
  repeat split.
Qed.

(** X19: [POST /vms/{id}/stop] of [part_001] always answers, and never with
    its own 500: every D1 failure on the way is swallowed by [storeVM] and
    [recordEvent].  It answers 404, changing nothing, exactly when the id is
    unknown in memory and D1 is not bound.  Otherwise it answers 200 with
    status [stopped]: the record (a placeholder made on the spot when the
    id was unknown) is then filed under the id, stopped, with its last
    activity set to the stop's first clock reading.  No upstream call is
    made.  When D1 is bound the stop runs exactly one [INSERT INTO
    vm_events], a [stopped] event for the id asked for, carrying the second
    and third clock readings, and answers 200 whether or not D1 accepts it;
    without the binding it runs none. *)
Theorem stop_always_answers (env : Env) (out : Outside) (event_id : string)
    (d1_event_throws : option thrown)
    (no_binding stop_time event_data_time event_time vmId : string)
    (s : Site) :
  exists reply s1,
    Part001Lifecycle.handleStopVM env out event_id d1_event_throws no_binding
      stop_time event_data_time event_time vmId s = (Ok reply, s1)
    /\ calls (world s1) = calls (world s)
    /\ (reply_status reply = 404
        <-> resolve (world s) vmId = None /\ chrome_vm_db env = false)
    /\ (reply_status reply = 404 ->
          reply_body reply = SError "VM not found" /\ s1 = s)
    /\ (reply_status reply <> 404 ->
          exists r,
            reply = mkReply 200
                      (SStopped true "VM stopped successfully"
                         (vm_id (heap (world s1) r))
                         (vm_name (heap (world s1) r)) "stopped"
                         (Some stop_time))
            /\ resolve (world s1) vmId = Some r
            /\ vm_status (heap (world s1) r) = Stopped
            /\ lastActivity (heap (world s1) r) = Some stop_time
            /\ event_inserts s1
               = (if chrome_vm_db env
                  then event_inserts s
                       ++ [mkEventRow event_id vmId "stopped"
                             [("timestamp", event_data_time)] event_time]
                  else event_inserts s)).
Proof.
  destruct (getVMFromStorage_part_001_cases env out vmId (world s))
    as (o & w0 & Eg & Hc & Hnone & Hsame & Hfiled & _).
  destruct o as [r|].
  - destruct (handleStopVM_found env out event_id d1_event_throws no_binding
                stop_time event_data_time event_time vmId s r w0 Eg)
      as (w1 & E & Hh & Hframe & Hm & Hc1 & _).
    rewrite E. eexists. eexists. split; [reflexivity|].
    cbn [world event_inserts reply_status reply_body].
    split; [now rewrite Hc1|].
    split.
    { split; [discriminate|]. intros H. apply Hnone in H. discriminate H. }
    split; [discriminate|].
    intros _. exists r. rewrite Hh.
    cbn [vm_id vm_name vm_status lastActivity set_status set_lastActivity].
    split; [reflexivity|].
    split.
    { specialize (Hfiled r eq_refl). destruct w0 as [h0 n0 m0 d0 c0 g0].
      destruct w1 as [h1 n1 m1 d1' c1 g1]. cbn [activeVMs] in Hm. subst m1.
      now apply resolve_after_store. }
    repeat split.
  - assert (E : Part001Lifecycle.handleStopVM env out event_id d1_event_throws
                  no_binding stop_time event_data_time event_time vmId s
                = (Ok (mkReply 404 (SError "VM not found")), s)).
    { unfold Part001Lifecycle.handleStopVM, stry_catch, sbind, in_world.
      rewrite Eg, (Hsame eq_refl). unfold sret. now destruct s. }
    rewrite E. exists (mkReply 404 (SError "VM not found")), s.
    split; [reflexivity|]. split; [reflexivity|].
    cbn [reply_status reply_body].
    split; [split; [intros _; now apply Hnone | reflexivity]|].
    split; [now split|]. intros H. now contradiction H.
Qed.

(** A run: the stop of a record that the worker holds, with D1 bound and the
    event insert refused. *)
Example stop_with_refused_event :
  let w := snd (Part001.storeVM d1_env offline 0
                  (world_with_object (demo_record "t3.medium"))) in
  exists s1,
    Part001Lifecycle.handleStopVM d1_env offline "event-1"
      (Some (JsError "FOREIGN KEY constraint failed")) "no binding"
      "10:00:01" "10:00:02" "10:00:03" "abc" (mkSite w [])
    = (Ok (mkReply 200
             (SStopped true "VM stopped successfully" "abc" "demo" "stopped"
                (Some "10:00:01"))), s1)
    /\ event_inserts s1
       = [mkEventRow "event-1" "abc" "stopped" [("timestamp", "10:00:02")]
            "10:00:03"].
Proof. intros w. eexists. vm_compute. split; reflexivity. Qed.

(** ** The status answer of [part_001] *)

Lemma group_step_own (nf : string) (acc : gmap string (list Sample))
    (row : MetricRow) :
  inherited (m_type row) = false ->
  group_step nf acc row
  = Ok (<[m_type row := default [] (acc !! m_type row) ++ [sample_of row]]> acc).
Proof.
  intros Hi. unfold group_step. rewrite Hi.
  now destruct (acc !! m_type row).
Qed.

Lemma samples_of_cons (key : string) (row : MetricRow)
    (rows : list MetricRow) :
  samples_of key (row :: rows)
  = if String.eqb (m_type row) key then sample_of row :: samples_of key rows
    else samples_of key rows.
Proof.
  unfold samples_of. cbn [List.filter].
  now destruct (String.eqb (m_type row) key).
Qed.

Lemma group_from_grouped (nf : string) (rows : list MetricRow) :
  forall acc,
    existsb inherited (types_of rows) = false ->
    exists m,
      group_from nf acc rows = Ok m
      /\ forall key,
           m !! key = match acc !! key, samples_of key rows with
                      | None, [] => None
                      | o, l => Some (default [] o ++ l)
                      end.
Proof.
  induction rows as [|row rest IH]; intros acc Hex.
  - exists acc. split; [reflexivity|]. intros key. cbn.
    destruct (acc !! key) as [l|]; [|reflexivity].
    cbn. now rewrite app_nil_r.
  - cbn [types_of List.map existsb] in Hex.
    apply orb_false_iff in Hex as [Hi Hrest].
    cbn [group_from]. rewrite (group_step_own nf acc row Hi).
    destruct (IH (<[m_type row := default [] (acc !! m_type row)
                                   ++ [sample_of row]]> acc) Hrest)
      as (m & E & Hm).
    exists m. split; [exact E|]. intros key.
    rewrite Hm, samples_of_cons.
    destruct (String.eqb_spec (m_type row) key) as [->|Hne].
    + rewrite lookup_insert_eq.
      destruct (acc !! key) as [l0|]; destruct (samples_of key rest);
        cbn; rewrite <- ?app_assoc; reflexivity.
    + now rewrite lookup_insert_ne.
Qed.

Lemma group_from_throws (nf : string) (rows : list MetricRow) :
  forall acc,
    (forall key, inherited key = true -> acc !! key = None) ->
    existsb inherited (types_of rows) = true ->
    group_from nf acc rows = Throw (JsError nf).
Proof.
  induction rows as [|row rest IH]; intros acc Hacc Hex; [discriminate|].
  cbn [types_of List.map existsb] in Hex. cbn [group_from].
  destruct (inherited (m_type row)) eqn:Hi.
  - unfold group_step. cbv zeta. now rewrite (Hacc _ Hi), Hi.
  - rewrite (group_step_own nf acc row Hi). apply IH; [|exact Hex].
    intros key Hk. rewrite lookup_insert_ne; [now apply Hacc|].
    intros E. rewrite E, Hk in Hi. discriminate.
Qed.

Lemma samples_of_nil (key : string) (rows : list MetricRow) :
  samples_of key rows = [] <-> ~ In key (types_of rows).
Proof.
  induction rows as [|row rest IH]; [cbn; tauto|].
  rewrite samples_of_cons. cbn [types_of List.map In].
  destruct (String.eqb_spec (m_type row) key) as [E|Hne].
  - split; [discriminate|]. intros H. exfalso. apply H. now left.
  - rewrite IH. unfold types_of. tauto.
Qed.

Lemma group_metrics_throws (nf : string) (rows : list MetricRow) :
  existsb inherited (types_of rows) = true ->
  group_metrics nf rows = Throw (JsError nf).
Proof.
  intros Hex. apply group_from_throws; [|exact Hex].
  intros key _. apply lookup_empty.
Qed.

Lemma group_metrics_grouped (nf : string) (rows : list MetricRow) :
  existsb inherited (types_of rows) = false ->
  exists m,
    group_metrics nf rows = Ok m
    /\ (forall key, In key (types_of rows) ->
          m !! key = Some (samples_of key rows))
    /\ (forall key, ~ In key (types_of rows) -> m !! key = None).
Proof.
  intros Hex.
  destruct (group_from_grouped nf rows ∅ Hex) as (m & E & Hm).
  exists m. split; [exact E|].
  split; intros key Hin; rewrite Hm, lookup_empty.
  - destruct (samples_of key rows) eqn:Es; [|reflexivity].
    now apply samples_of_nil in Es.
  - apply samples_of_nil in Hin. now rewrite Hin.
Qed.

Lemma handleGetVMStatus_found (env : Env) (out : Outside)
    (recent_metrics : string -> outcome (list MetricRow))
    (no_binding not_a_function vmId : string) (w w0 : World) (r : nat) :
  Part001.getVMFromStorage env out vmId w = (Ok (Some r), w0) ->
  Part001Lifecycle.handleGetVMStatus env out recent_metrics no_binding
    not_a_function vmId w
  = (Ok (let failure m := mkReply 500 (SFailure "Failed to get VM status" m) in
         if chrome_vm_db env then
           match recent_metrics vmId with
           | Throw e => failure (error_message e)
           | Ok rows =>
               match group_metrics not_a_function rows with
               | Throw e => failure (error_message e)
               | Ok m =>
                   mkReply 200
                     (SStatus (Part001Lifecycle.summary_of (heap w0 r)) m
                        (if decide (vm_status (heap w0 r) = Ready)
                         then "healthy" else "unhealthy"))
               end
           end
         else failure no_binding), w0).
Proof.
  intros Eg. unfold Part001Lifecycle.handleGetVMStatus, try_catch.
  rewrite (bind_ok _ _ _ _ _ Eg).
  destruct (chrome_vm_db env); cbn [negb]; [|reflexivity].
  unfold bind at 1.
  destruct (recent_metrics vmId) as [rows|e]; cbn [settle]; [|reflexivity].
  unfold ret at 1. unfold bind at 1.
  destruct (group_metrics not_a_function rows) as [m|e]; reflexivity.
Qed.

(** X20: with D1 bound, the [metrics] member of the status answer groups
    the rows the metrics query returned by their metric type: a type has an
    entry exactly when some returned row has it, and the entry lists the
    samples (value, unit, timestamp) of that type's rows, all of them and in
    the order the query returned them.  This holds when no returned row's
    type is named like a member every object inherits ([constructor],
    [toString], [__proto__], ...); when some row's type is, the grouping
    throws and the answer is 500 'Failed to get VM status'. *)
Theorem metrics_are_grouped_in_row_order (env : Env) (out : Outside)
    (recent_metrics : string -> outcome (list MetricRow))
    (no_binding not_a_function vmId : string) (w : World)
    (rows : list MetricRow) :
  chrome_vm_db env = true ->
  recent_metrics vmId = Ok rows ->
  (existsb inherited (types_of rows) = false ->
     exists summary m health w1,
       Part001Lifecycle.handleGetVMStatus env out recent_metrics no_binding
         not_a_function vmId w
       = (Ok (mkReply 200 (SStatus summary m health)), w1)
       /\ (forall key, In key (types_of rows) ->
             m !! key = Some (samples_of key rows))
       /\ (forall key, ~ In key (types_of rows) -> m !! key = None))
  /\ (existsb inherited (types_of rows) = true ->
        exists w1,
          Part001Lifecycle.handleGetVMStatus env out recent_metrics no_binding
            not_a_function vmId w
          = (Ok (mkReply 500
                   (SFailure "Failed to get VM status" not_a_function)), w1)).
Proof.
  intros Hdb Hrows.
  destruct (getVMFromStorage_part_001_cases env out vmId w)
    as (o & w0 & Eg & _ & Hnone & _).
  destruct o as [r|].
  2:{ destruct (proj1 Hnone eq_refl) as [_ H]. rewrite H in Hdb.
      discriminate Hdb. }
  rewrite (handleGetVMStatus_found env out recent_metrics no_binding
             not_a_function vmId w w0 r Eg).
  cbv zeta. rewrite Hdb, Hrows. split; intros Hex.
  - destruct (group_metrics_grouped not_a_function rows Hex)
      as (m & -> & Hin & Hout).
    do 4 eexists. split; [reflexivity|]. now split.
  - rewrite (group_metrics_throws not_a_function rows Hex).
    eexists. reflexivity.
Qed.

Lemma metrics_are_grouped_in_row_order_witness :
  let rows := [mkMetricRow "cpu" "12.5" "%" "t3";
               mkMetricRow "memory" "512" "MB" "t2";
               mkMetricRow "cpu" "10" "%" "t1"] in
  let bad := rows ++ [mkMetricRow "toString" "1" "n" "t0"] in
  (exists summary m health w1,
     Part001Lifecycle.handleGetVMStatus d1_env offline (fun _ => Ok rows)
       "no binding" "no push" "abc" (world_with_row abc_row)
     = (Ok (mkReply 200 (SStatus summary m health)), w1)
     /\ m !! "cpu" = Some [mkSample "12.5" "%" "t3"; mkSample "10" "%" "t1"]
     /\ m !! "network" = None)
  /\ (exists w1,
        Part001Lifecycle.handleGetVMStatus d1_env offline (fun _ => Ok bad)
          "no binding" "no push" "abc" (world_with_row abc_row)
        = (Ok (mkReply 500 (SFailure "Failed to get VM status" "no push")),
           w1)).
Proof.
  intros rows bad. split.
  - destruct (proj1 (metrics_are_grouped_in_row_order d1_env offline
                       (fun _ => Ok rows) "no binding" "no push" "abc"
                       (world_with_row abc_row) rows eq_refl eq_refl) eq_refl)
      as (summary & m & health & w1 & E & Hin & Hout).
    exists summary, m, health, w1. split; [exact E|]. split.
    + apply (Hin "cpu"). now left.
    + apply (Hout "network"). cbn. intros [H|[H|[H|[]]]]; discriminate H.
  - apply (proj2 (metrics_are_grouped_in_row_order d1_env offline
                    (fun _ => Ok bad) "no binding" "no push" "abc"
                    (world_with_row abc_row) bad eq_refl eq_refl)).
    reflexivity.
Defined.

(** X21: [GET /vms/{id}/status] of [part_001] always answers and never
    calls upstream.  It answers 404 exactly when the id is unknown in memory
    and D1 is not bound.  Without the D1 binding it never answers 200: a
    record held in memory gets 500 'Failed to get VM status', because the
    metrics are read from D1 unguarded; the worker is left as it was.  With
    the binding the id is filed afterwards whatever the answer, which is 500
    with the statement's message when the metrics query throws and when a
    row's type is an inherited member, and otherwise 200 with the record's
    summary, the grouped metrics and health [healthy] exactly for a record
    that is [ready]. *)
Theorem status_needs_d1 (env : Env) (out : Outside)
    (recent_metrics : string -> outcome (list MetricRow))
    (no_binding not_a_function vmId : string) (w : World) :
  let failure m := mkReply 500 (SFailure "Failed to get VM status" m) in
  exists reply w1,
    Part001Lifecycle.handleGetVMStatus env out recent_metrics no_binding
      not_a_function vmId w = (Ok reply, w1)
    /\ calls w1 = calls w
    /\ (reply_status reply = 404
        <-> resolve w vmId = None /\ chrome_vm_db env = false)
    /\ (chrome_vm_db env = false ->
          w1 = w /\ reply_status reply <> 200
          /\ (resolve w vmId <> None -> reply = failure no_binding))
    /\ (chrome_vm_db env = true ->
          exists r,
            resolve w1 vmId = Some r
            /\ (forall e, recent_metrics vmId = Throw e ->
                  reply = failure (error_message e))
            /\ (forall rows, recent_metrics vmId = Ok rows ->
                  existsb inherited (types_of rows) = true ->
                  reply = failure not_a_function)
            /\ (forall rows m, recent_metrics vmId = Ok rows ->
                  group_metrics not_a_function rows = Ok m ->
                  reply = mkReply 200
                            (SStatus
                               (Part001Lifecycle.summary_of (heap w1 r)) m
                               (if decide (vm_status (heap w1 r) = Ready)
                                then "healthy" else "unhealthy")))).
Proof.
  intros failure.
  destruct (getVMFromStorage_part_001_cases env out vmId w)
    as (o & w0 & Eg & Hc & Hnone & Hsame & Hfiled & Hknown).
  destruct o as [r|].
  - rewrite (handleGetVMStatus_found env out recent_metrics no_binding
               not_a_function vmId w w0 r Eg).
    eexists. eexists. split; [reflexivity|]. split; [exact Hc|].
    cbv zeta. fold failure.
    split.
    { split; [|intros H; apply Hnone in H; discriminate H].
      destruct (chrome_vm_db env); [|discriminate].
      destruct (recent_metrics vmId) as [rows|e]; [|discriminate].
      destruct (group_metrics not_a_function rows); discriminate. }
    split.
    { intros Hdb. rewrite Hdb.
      destruct (resolve w vmId) as [r0|] eqn:Hr.
      - destruct (Hknown r0 eq_refl) as [_ ->].
        split; [reflexivity|]. split; [discriminate|reflexivity].
      - assert (Some r = None) as E by (now apply Hnone). discriminate E. }
    intros Hdb. rewrite Hdb. exists r.
    split; [now apply Hfiled|].
    split; [now intros e ->|].
    split.
    + intros rows -> Hex.
      now rewrite (group_metrics_throws not_a_function rows Hex).
    + now intros rows m -> ->.
  - assert (E : Part001Lifecycle.handleGetVMStatus env out recent_metrics
                  no_binding not_a_function vmId w
                = (Ok (mkReply 404 (SError "VM not found")), w)).
    { unfold Part001Lifecycle.handleGetVMStatus, try_catch.
      rewrite (bind_ok _ _ _ _ _ Eg). now rewrite (Hsame eq_refl). }
    rewrite E. destruct (proj1 Hnone eq_refl) as [Hr Hdb].
    eexists. eexists. split; [reflexivity|]. split; [reflexivity|].
    cbn [reply_status].
    split; [now split|].
    split.
    { intros _. split; [reflexivity|]. split; [discriminate|].
      intros H. now contradiction H. }
    intros H. rewrite H in Hdb. discriminate Hdb.
Qed.

Lemma status_needs_d1_witness :
  let w := world_with_object (demo_record "t3.medium") in
  let w' := snd (IndexTs.storeVM 0 w) in
  let metrics (_ : string) := Ok [mkMetricRow "cpu" "12.5" "%" "t1"] in
  fst (Part001Lifecycle.handleGetVMStatus bare_env offline metrics
         "no binding" "no push" "abc" w')
  = Ok (mkReply 500 (SFailure "Failed to get VM status" "no binding"))
  /\ fst (Part001Lifecycle.handleGetVMStatus d1_env offline metrics
            "no binding" "no push" "abc" w')
     = Ok (mkReply 200
             (SStatus (Part001Lifecycle.summary_of (demo_record "t3.medium"))
                {[ "cpu" := [mkSample "12.5" "%" "t1"] ]} "unhealthy")).
Proof.
  intros w w' metrics. split.
  - destruct (status_needs_d1 bare_env offline metrics "no binding" "no push"
                "abc" w')
      as (reply & w1 & E & _ & _ & Hoff & _).
    rewrite E. cbn [fst].
    destruct (Hoff eq_refl) as (_ & _ & ->); [reflexivity|].
    intros H. vm_compute in H. discriminate H.
  - destruct (status_needs_d1 d1_env offline metrics "no binding" "no push"
                "abc" w')
      as (reply & w1 & E & _ & _ & _ & Hon).
    destruct (Hon eq_refl) as (r & Hr & _ & _ & Hok).
    rewrite E. cbn [fst]. rewrite (Hok _ _ eq_refl eq_refl).
    vm_compute in E. injection E as _ <-.
    vm_compute in Hr. injection Hr as <-.
    vm_compute. reflexivity.
Defined.

(** ** The dispatcher's own 500 *)

Lemma getVMFromStorage_total (out : Outside) (vmId : string) (w : World) :
  exists r w1, IndexTs.getVMFromStorage out vmId w = (Ok (Some r), w1).
Proof.
  destruct (resolve w vmId) as [r|] eqn:Hr.
  - exists r, w. now apply getVMFromStorage_found.
  - apply resolve_None in Hr as [Hk Ha].
    unfold IndexTs.getVMFromStorage, IndexTs.storeVM, new_object.
    run. rewrite Hk. cbn. rewrite Ha. cbn.
    eexists. eexists. reflexivity.
Qed.

Lemma handleCreateVM_cases (env : Env) (out : Outside) (request : Request)
    (w : World) :
  exists resp w1,
    IndexTs.handleCreateVM env out request w = (Ok resp, w1)
    /\ forall err m, body resp = BFailure err m ->
         exists e, req_json request = Throw e
                   /\ err = "Failed to create VM" /\ m = error_message e
                   /\ w1 = w.
Proof.
  destruct (req_json request) as [b|e] eqn:Hreq.
  - destruct (Js.truthy (b_name b)) eqn:Hn.
    + destruct (handleCreateVM_run env out request b w Hreq Hn)
        as (w1 & E & _).
      rewrite E. eexists. eexists. split; [reflexivity|]. discriminate.
    + exists (json_response 400 (BError "VM name is required")), w.
      split; [|discriminate].
      unfold IndexTs.handleCreateVM, try_catch. rewrite Hreq.
      unfold settle. unfold bind at 1, ret at 1. now rewrite Hn.
  - exists (json_response 500 (BFailure "Failed to create VM" (error_message e))), w.
    split.
    + unfold IndexTs.handleCreateVM, try_catch. now rewrite Hreq.
    + intros err m [= <- <-]. now exists e.
Qed.

Lemma handleAgentProxy_cases (out : Outside) (vmId action : string)
    (request : Request) (w : World) :
  exists o w1,
    IndexTs.handleAgentProxy out vmId action request w = (o, w1)
    /\ match o with
       | Ok resp => forall err m, body resp <> BFailure err m
       | Throw e => exists c, net out c = Rejects e /\ w1 = with_call w c
       end.
Proof.
  unfold IndexTs.handleAgentProxy.
  rewrite (bind_ok _ _ _ _ _ (lookup_either_run vmId w)).
  destruct (resolve w vmId) as [r|].
  2:{ eexists. eexists. split; [reflexivity|]. discriminate. }
  unfold bind at 1, load. cbv beta iota.
  destruct (Js.truthy (originAgentUrl (heap w r))); cbn [negb].
  2:{ eexists. eexists. split; [reflexivity|]. discriminate. }
  destruct (upstreamPath action) as [path|].
  2:{ eexists. eexists. split; [reflexivity|]. discriminate. }
  unfold bind, fetch_to, ret.
  match goal with
  | |- context [net out ?c] => destruct (net out c) as [e|up] eqn:Hnet
  end.
  - eexists. eexists. split; [reflexivity|].
    eexists. split; [exact Hnet|reflexivity].
  - eexists. eexists. split; [reflexivity|]. discriminate.
Qed.

Lemma serve_cases (env : Env) (out : Outside) (rt : Route)
    (request : Request) (w : World) :
  (exists resp w1,
     IndexTs.serve env out rt request w = (Ok resp, w1)
     /\ forall err m, body resp = BFailure err m ->
          rt = ToCreateVM
          /\ exists e, req_json request = Throw e
                       /\ err = "Failed to create VM" /\ m = error_message e
                       /\ w1 = w)
  \/ (exists vmId action c e,
        rt = ToAgentProxy vmId action
        /\ net out c = Rejects e
        /\ IndexTs.serve env out rt request w = (Throw e, with_call w c)).
Proof.
  destruct rt; cbn [IndexTs.serve];
    try (left; eexists; eexists; split; [reflexivity|discriminate]).
  - (* create *)
    left. destruct (handleCreateVM_cases env out request w)
      as (resp & w1 & E & H).
    exists resp, w1. split; [exact E|]. intros err m Hb. split; [reflexivity|].
    now apply H.
  - (* get *)
    left. destruct (handleGetVM_total out vmId w) as (v & w1 & E).
    rewrite E. eexists. eexists. split; [reflexivity|discriminate].
  - (* delete *)
    left. destruct (resolve w vmId) as [r|] eqn:Hr.
    + destruct (handleDeleteVM_run vmId r w Hr) as (w1 & E & _).
      rewrite E. eexists. eexists. split; [reflexivity|discriminate].
    + unfold IndexTs.handleDeleteVM.
      rewrite (bind_ok _ _ _ _ _ (lookup_either_run vmId w)), Hr.
      eexists. eexists. split; [reflexivity|discriminate].
  - (* start *)
    left. unfold IndexTs.handleStartVM.
    rewrite (bind_ok _ _ _ _ _ (lookup_either_run vmId w)).
    destruct (resolve w vmId) as [r|].
    + destruct (transition_run out Ready r w
                  (json_response 200
                     (BSuccess true ("VM " +:+ vmId +:+ " started."))))
        as (w1 & E & _).
      rewrite E. eexists. eexists. split; [reflexivity|discriminate].
    + eexists. eexists. split; [reflexivity|discriminate].
  - (* restart *)
    left. unfold IndexTs.handleRestartVM.
    rewrite (bind_ok _ _ _ _ _ (lookup_either_run vmId w)).
    destruct (resolve w vmId) as [r|].
    + destruct (transition_run out Initializing r w
                  (json_response 200
                     (BSuccess true ("VM " +:+ vmId +:+ " restart initiated."))))
        as (w1 & E & _).
      rewrite E. eexists. eexists. split; [reflexivity|discriminate].
    + eexists. eexists. split; [reflexivity|discriminate].
  - (* novnc *)
    left. destruct (getVMFromStorage_total out vmId w) as (r & w1 & E).
    unfold IndexTs.handleNoVNC. rewrite (bind_ok _ _ _ _ _ E).
    eexists. eexists. split; [reflexivity|discriminate].
  - (* agent *)
    left. unfold IndexTs.handleAgent.
    rewrite (bind_ok _ _ _ _ _ (lookup_either_run vmId w)).
    destruct (resolve w vmId) as [r|];
      eexists; eexists; (split; [reflexivity|discriminate]).
  - (* agent proxy *)
    destruct (handleAgentProxy_cases out vmId action request w)
      as ([resp|e] & w1 & E & H).
    + left. exists resp, w1. split; [exact E|].
      intros err m Hb. now contradiction (H err m).
    + right. destruct H as (c & Hnet & ->). now exists vmId, action, c, e.
Qed.

(** X22: in [index.ts], and in [part_000] which dispatches to the same
    handlers, the dispatcher's own 500 'Internal server error' is never
    produced.  Every request is answered by its handler, and the only
    failure body a handler produces is the create handler's 500 'Failed to
    create VM' for a body that does not parse (nothing changed), with one
    exception: when the agent proxy's upstream call is rejected, no answer
    is produced at all.  The proxy is returned without [await], so the
    rejection passes the [catch] and [fetch] itself rejects with the
    upstream error, the call logged. *)
Theorem dispatcher_catch_is_never_reached (env : Env) (out : Outside)
    (request : Request) (w : World) :
  let outcome_of (rt : Route) (run : M Response) :=
    (exists resp w1,
       run w = (Ok resp, w1)
       /\ forall err m, body resp = BFailure err m ->
            rt = ToCreateVM
            /\ err = "Failed to create VM" /\ w1 = w
            /\ exists e, req_json request = Throw e /\ m = error_message e)
    \/ (exists vmId action c e,
          rt = ToAgentProxy vmId action
          /\ net out c = Rejects e
          /\ run w = (Throw e, with_call w c)) in
  outcome_of (IndexTs.route (req_method request) (req_pathname request))
             (IndexTs.fetch env out request)
  /\ outcome_of (Part000.route (req_method request) (req_pathname request))
                (Part000.fetch env out request).
Proof.
  intros outcome_of.
  assert (H : forall rt,
            outcome_of rt
              (if IndexTs.awaited rt then
                 try_catch (IndexTs.serve env out rt request)
                   (fun error =>
                      ret (json_response 500
                             (BFailure "Internal server error"
                                (error_message error))))
               else IndexTs.serve env out rt request)).
  { intros rt. unfold outcome_of.
    destruct (serve_cases env out rt request w)
      as [(resp & w1 & E & Hb)|(vmId & action & c & e & Hrt & Hnet & E)].
    - left. exists resp, w1. split.
      + destruct (IndexTs.awaited rt); [unfold try_catch|]; now rewrite E.
      + intros err m Hbody.
        destruct (Hb err m Hbody) as (Hrt & e & Hreq & -> & -> & ->).
        split; [exact Hrt|]. split; [reflexivity|]. split; [reflexivity|].
        now exists e.
    - right. exists vmId, action, c, e.
      split; [exact Hrt|]. split; [exact Hnet|].
      rewrite Hrt in *. exact E. }
  split; apply H.
Qed.

(** A run of the exception: the stored record's origin refuses the call. *)
Example rejected_proxy_call_rejects_fetch :
  let request := mkRequest "POST" "/vms/vm-k3x9q2a1b-lvo1x2y3/agent/status"
                   (Throw (JsError "Unexpected end of JSON input")) "" in
  fst (IndexTs.fetch railway_env offline request world_with_demo)
    = Throw (JsError "fetch failed")
  /\ fst (Part000.fetch railway_env offline request world_with_demo)
     = Throw (JsError "fetch failed").
Proof. vm_compute. split; reflexivity. Qed.

(** ** Start and restart in [part_001] *)




(** ** Placeholders and the agent endpoints *)

Lemma getVMFromStorage_unknown (out : Outside) (vmId : string) (w : World) :
  resolve w vmId = None ->
  exists w1,
    IndexTs.getVMFromStorage out vmId w = (Ok (Some (next w)), w1)
    /\ heap w1 (next w) = mockVM vmId (now out)
    /\ resolve w1 vmId = Some (next w)
    /\ calls w1 = calls w.
Proof.
  intros Hr. apply resolve_None in Hr as [Hk Ha].
  unfold IndexTs.getVMFromStorage, IndexTs.storeVM, new_object.
  run. rewrite Hk. cbn. rewrite Ha. cbn.
  rewrite !Nat.eqb_refl. cbn.
  eexists. split; [reflexivity|]. cbn. rewrite Nat.eqb_refl.
  destruct (lookup_both_keys (activeVMs w) vmId (next w)) as [Hk' _].
  unfold resolve. cbn. rewrite Hk'. repeat split.
Qed.

(** X24: in [index.ts] the agent endpoints never make up a record, the
    NoVNC page does.  For an id the store does not hold, the agent info
    handler and the agent proxy answer 404 and change nothing, while the
    NoVNC handler answers 200 with the page of a placeholder record that it
    files under the id, calling nothing upstream.  From then on the agent
    info handler answers 200 for the id, reporting the placeholder as
    [ready], and the proxy answers 400 'No upstream agent URL' for every
    action, since a placeholder has no origin. *)
Theorem placeholder_comes_from_novnc_not_agent (out : Outside)
    (vmId action : string) (request : Request) (w : World) :
  resolve w vmId = None ->
  IndexTs.handleAgent vmId w
    = (Ok (json_response 404 (BError "VM not found")), w)
  /\ IndexTs.handleAgentProxy out vmId action request w
     = (Ok (json_response 404 (BError "VM not found")), w)
  /\ exists w1,
       IndexTs.handleNoVNC out vmId w
         = (Ok (mkResponse 200 (Some "text/html")
                  (BHtml (mockVM vmId (now out)))), w1)
       /\ calls w1 = calls w
       /\ IndexTs.handleAgent vmId w1
          = (Ok (json_response 200
                   (BAgent vmId "ready" (mockVM vmId (now out)))), w1)
       /\ IndexTs.handleAgentProxy out vmId action request w1
          = (Ok (json_response 400 (BError "No upstream agent URL")), w1).
Proof.
  intros Hr.
  unfold IndexTs.handleAgent at 1, IndexTs.handleAgentProxy at 1.
  rewrite !(bind_ok _ _ _ _ _ (lookup_either_run vmId w)), Hr.
  split; [reflexivity|]. split; [reflexivity|].
  destruct (getVMFromStorage_unknown out vmId w Hr) as (w1 & E & Hh & Hr1 & Hc).
  exists w1.
  unfold IndexTs.handleNoVNC, IndexTs.handleAgent, IndexTs.handleAgentProxy.
  rewrite (bind_ok _ _ _ _ _ E).
  rewrite !(bind_ok _ _ _ _ _ (lookup_either_run vmId w1)), Hr1.
  unfold bind, load, ret. rewrite Hh.
  repeat split. exact Hc.
Qed.

Lemma placeholder_comes_from_novnc_not_agent_witness :
  IndexTs.handleAgent "abc" fresh_world
    = (Ok (json_response 404 (BError "VM not found")), fresh_world)
  /\ exists w1,
       IndexTs.handleNoVNC offline "abc" fresh_world
         = (Ok (mkResponse 200 (Some "text/html")
                  (BHtml (mockVM "abc" (now offline)))), w1)
       /\ IndexTs.handleAgent "abc" w1
          = (Ok (json_response 200
                   (BAgent "abc" "ready" (mockVM "abc" (now offline)))), w1).
Proof.
  destruct (placeholder_comes_from_novnc_not_agent offline "abc" "status"
              (get_path "/vms/abc/agent/status") fresh_world eq_refl)
    as (E0 & _ & w1 & E1 & _ & E2 & _).
  split; [exact E0|]. exists w1. split; [exact E1|exact E2].
Defined.

(** ** A real container behind the proxy *)

Lemma createGoogleCloudVM_real (env : Env) (out : Outside) (r : nat)
    (w : World) (resp : Upstream) (data : JsonObj) :
  has_credentials env = true ->
  Js.truthy (DOCKER_SERVICE_URL env) = true ->
  net out (Part001.docker_call env (heap w r)) = Responds resp ->
  up_ok resp = true ->
  up_json resp = Ok data ->
  Part001.createGoogleCloudVM env out r w
  = (Ok (Part001.real_descriptor (heap w r) data),
     with_call w (Part001.docker_call env (heap w r))).
Proof.
  intros Hc Hurl Hnet Hok Hj.
  apply andb_true_iff in Hc as [Hp Ht].
  unfold Part001.createGoogleCloudVM, try_catch.
  unfold bind at 1, load. cbv beta iota.
  rewrite Hp, Ht. cbn [negb orb].
  unfold Part001.try_docker. rewrite Hurl.
  unfold try_catch, bind, fetch_to. rewrite Hnet, Hok.
  unfold json_of. rewrite Hj. reflexivity.
Qed.

Lemma createRealVM_real (env : Env) (out : Outside) (r : nat) (w : World)
    (resp : Upstream) (data : JsonObj) :
  let v := heap w r in
  Part001.selectDeploymentStrategy (effective_type v) (serverId v)
    = "google_cloud" ->
  has_credentials env = true ->
  Js.truthy (DOCKER_SERVICE_URL env) = true ->
  net out (Part001.docker_call env v) = Responds resp ->
  up_ok resp = true ->
  up_json resp = Ok data ->
  exists w1,
    Part001.createRealVM env out r w = (Ok tt, w1)
    /\ heap w1 r
       = described (Part001.real_descriptor v data) (now out)
           (set_createdVia (Some "google-cloud-real") v)
    /\ activeVMs w1 = <[alias_key (vm_id v) := r]>
                        (<[vm_id v := r]> (activeVMs w))
    /\ calls w1 = calls w ++ [Part001.docker_call env v].
Proof.
  intros v Hs Hc Hurl Hnet Hok Hj.
  unfold Part001.createRealVM, try_catch.
  unfold bind at 1, load. cbv beta iota.
  fold v. fold (effective_type v). rewrite Hs.
  destruct (assign_run r (set_createdVia (Some "google-cloud-real"))
              (with_call w (Part001.docker_call env v)))
    as (w0 & E0 & Hh0 & (Hf0 & Hm0 & _ & Hn0) & Hc0).
  assert (Eb : Part001.backend_for env out "google_cloud" r w
               = (Ok (Part001.real_descriptor v data), w0)).
  { change (Part001.backend_for env out "google_cloud" r)
      with (result <- Part001.createGoogleCloudVM env out r ;;
            assign r (set_createdVia (Some "google-cloud-real")) ;;
            ret result)%worker.
    unfold bind at 1.
    rewrite (createGoogleCloudVM_real env out r w resp data Hc Hurl Hnet Hok Hj).
    fold v. unfold bind at 1. now rewrite E0. }
  rewrite (bind_ok _ _ _ _ _ Eb).
  destruct (apply_descriptor_run r (Part001.real_descriptor v data) (now out)
              w0)
    as (w1 & E1 & Hh1 & (Hf1 & Hm1 & _ & Hn1) & Hc1).
  rewrite (bind_ok _ _ _ _ _ E1), storeVM_part_001_run.
  eexists. split; [reflexivity|]. cbn [heap activeVMs calls].
  rewrite Hh1, Hh0, Hm1, Hm0, Hc1, Hc0.
  cbn [with_call heap activeVMs calls]. fold v.
  repeat split.
Qed.

(** X25: in [part_001] a record whose strategy is [google_cloud], created
    with both credentials and a Docker service that answers 2xx with a JSON
    object, is wired to the container the service reported: exactly one
    call, the container request, is made; the record is [ready], tagged
    ['google-cloud-real'], carries the reported container id, and keeps the
    worker's public agent URL while its origin agent URL is the one the
    service reported (the public URL again when none was reported).  The
    proxy then sends each supported action for the id to the reported agent
    URL, without its trailing slash, followed by the action's suffix. *)
Theorem real_container_is_proxied (env : Env) (out out' : Outside) (r : nat)
    (w : World) (resp : Upstream) (data : JsonObj) (request : Request) :
  let v := heap w r in
  Part001.selectDeploymentStrategy (effective_type v) (serverId v)
    = "google_cloud" ->
  has_credentials env = true ->
  Js.truthy (DOCKER_SERVICE_URL env) = true ->
  net out (Part001.docker_call env v) = Responds resp ->
  up_ok resp = true ->
  up_json resp = Ok data ->
  exists w1,
    Part001.createRealVM env out r w = (Ok tt, w1)
    /\ calls w1 = calls w ++ [Part001.docker_call env v]
    /\ vm_status (heap w1 r) = Ready
    /\ createdVia (heap w1 r) = Some "google-cloud-real"
    /\ containerId (heap w1 r) = data !! "id"
    /\ agentUrl (heap w1 r) = Some (public_agent (vm_id v))
    /\ originAgentUrl (heap w1 r)
       = Js.or_else (data !! "agentUrl") (Some (public_agent (vm_id v)))
    /\ (forall u a p,
          data !! "agentUrl" = Some u -> u <> "" ->
          In (a, p) proxied_actions ->
          calls (snd (IndexTs.handleAgentProxy out' (vm_id v) a request w1))
          = calls w1 ++ [mkCall (Js.stripTrailingSlash u +:+ p)
                           (req_method request) None
                           (forwarded_body request)]).
Proof.
  intros v Hs Hc Hurl Hnet Hok Hj.
  destruct (createRealVM_real env out r w resp data Hs Hc Hurl Hnet Hok Hj)
    as (w1 & E & Hh & Hm & Hcalls).
  fold v in Hh, Hm, Hcalls.
  exists w1. split; [exact E|]. split; [exact Hcalls|].
  assert (Ho : originAgentUrl (heap w1 r)
               = Js.or_else (data !! "agentUrl")
                   (Some (public_agent (vm_id v)))).
  { now rewrite Hh. }
  rewrite Hh. repeat split.
  intros u a p Hu Hne Hin.
  assert (Hr : resolve w1 (vm_id v) = Some r).
  { unfold resolve. rewrite Hm.
    now rewrite (proj1 (lookup_both_keys _ _ _)). }
  assert (Ho' : originAgentUrl (heap w1 r) = Some u).
  { rewrite Ho, Hu. unfold Js.or_else.
    assert (Ht : Js.truthy (Some u) = true)
      by (apply truthy_Some; now exists u).
    now rewrite Ht. }
  now rewrite (proxy_call_run out' w1 (vm_id v) a p u request r Hr Ho' Hne Hin).
Qed.

Lemma real_container_is_proxied_witness :
  let out := answering 200 "{}"
               {[ "id" := "c-1"; "agentUrl" := "http://c-1.example/" ]} in
  let w := world_with_object (demo_record "e2-medium") in
  exists w1,
    Part001.createRealVM gcp_env out 0 w = (Ok tt, w1)
    /\ containerId (heap w1 0) = Some "c-1"
    /\ originAgentUrl (heap w1 0) = Some "http://c-1.example/"
    /\ calls (snd (IndexTs.handleAgentProxy offline "abc" "status"
                     (get_path "/") w1))
       = calls w1 ++ [mkCall "http://c-1.example/health" "GET" None PNone].
Proof.
  intros out w.
  assert (Hnet : net out (Part001.docker_call gcp_env (heap w 0))
                 = Responds (mkUpstream 200 (Some "application/json") "{}"
                               (Ok {[ "id" := "c-1";
                                      "agentUrl" := "http://c-1.example/" ]})))
    by reflexivity.
  destruct (real_container_is_proxied gcp_env out offline 0 w _ _
              (get_path "/") eq_refl eq_refl eq_refl Hnet eq_refl eq_refl)
    as (w1 & E & _ & _ & _ & Hid & _ & Ho & Hp).
  exists w1. split; [exact E|].
  split; [rewrite Hid; reflexivity|].
  split; [rewrite Ho; reflexivity|].
  assert (Hne : "http://c-1.example/" <> "") by (intros H; inversion H).
  pose proof (Hp "http://c-1.example/" "status" "/health" eq_refl Hne
                (or_intror (or_intror (or_introl eq_refl)))) as H.
  change (vm_id (heap w 0)) with "abc" in H.
  rewrite H. reflexivity.
Defined.

(** ** When the container service is called *)

(** X26: the two revisions of [createGoogleCloudVM] differ in when they
    call the container service.  Both return a descriptor in every case and
    call nothing without both Google Cloud credentials.  With them,
    [part_001] makes one call, to [{DOCKER_SERVICE_URL}/containers], only
    when that URL is configured; [createGoogleCloudVM_fixed.js] always makes
    one call, to its built-in service address, whatever the environment
    says.  Neither makes a second call, whatever the service answers. *)
Theorem container_service_is_called_at_most_once (env : Env) (out : Outside)
    (r : nat) (w : World) :
  let v := heap w r in
  (exists d w1,
     Part001.createGoogleCloudVM env out r w = (Ok d, w1)
     /\ calls w1
        = calls w ++
          (if has_credentials env && Js.truthy (DOCKER_SERVICE_URL env)
           then [Part001.docker_call env v] else []))
  /\ (exists d w1,
        FixedJs.createGoogleCloudVM env out Part001.createCloudflareVM r w
          = (Ok d, w1)
        /\ calls w1
           = calls w ++
             (if has_credentials env then [FixedJs.docker_call v] else [])).
Proof.
  intros v. unfold has_credentials. split.
  - unfold Part001.createGoogleCloudVM, try_catch.
    unfold bind at 1, load. cbv beta iota. fold v.
    destruct (Js.truthy (GOOGLE_CLOUD_PROJECT_ID env));
      [destruct (Js.truthy (GOOGLE_CLOUD_ACCESS_TOKEN env))|];
      cbn [negb orb andb].
    2, 3: unfold Part001.createCloudflareVM; run;
      do 2 eexists; (split; [reflexivity|]); cbn [calls];
      now rewrite app_nil_r.
    unfold Part001.try_docker.
    destruct (Js.truthy (DOCKER_SERVICE_URL env)).
    + unfold try_catch, bind, fetch_to, json_of.
      destruct (net out (Part001.docker_call env v)) as [e|resp]; cbn.
      * do 2 eexists. split; reflexivity.
      * destruct (up_ok resp); [destruct (up_json resp)|]; cbn;
          do 2 eexists; split; reflexivity.
    + cbn. do 2 eexists. split; [reflexivity|]. cbn [calls].
      now rewrite app_nil_r.
  - unfold FixedJs.createGoogleCloudVM, try_catch.
    unfold bind at 1, load. cbv beta iota. fold v.
    destruct (Js.truthy (GOOGLE_CLOUD_PROJECT_ID env));
      [destruct (Js.truthy (GOOGLE_CLOUD_ACCESS_TOKEN env))|];
      cbn [negb orb andb].
    2, 3: unfold Part001.createCloudflareVM; run;
      do 2 eexists; (split; [reflexivity|]); cbn [calls];
      now rewrite app_nil_r.
    unfold FixedJs.try_docker, try_catch, bind, fetch_to, json_of.
    destruct (net out (FixedJs.docker_call v)) as [e|resp]; cbn.
    + do 2 eexists. split; reflexivity.
    + destruct (up_ok resp); destruct (up_json resp); cbn;
        do 2 eexists; split; reflexivity.
Qed.
